(** * AuiTrack: the degree-plan store and the degree-plan generator

    A shallow embedding of the two modules that decide which course
    placements are legal:

    - the Zustand store ([resetPlan], [addCourse], [removeCourse]), in
      [Module Store];
    - the automatic planner ([generateDegreePlan]), in [Module Generator].

    Conventions.  A JavaScript string is a [string] of code units; the
    model is exact on ASCII text (white space and letter case outside
    ASCII are left alone).  A JavaScript number is either [NaN] or an
    exact integer, where the source has a double.  The two agree as long
    as every operand and result is a safe integer ([JS.isSafeInteger]):
    above 2^53 the source rounds, from 1e21 on it writes a number with
    an exponent, and past the largest double it has [Infinity], none of
    which the model has.  A theorem that needs a sum, a difference or a
    written number to be exact therefore takes its numbers in a range
    where the source is exact too.  The store's state is threaded
    explicitly: an action takes the state [get()] returns and gives back
    the state after its [set] calls. *)

From Stdlib Require Import String Ascii List ZArith Bool Lia DecimalString.
From Stdlib Require Import Sorted DecimalPos DecimalZ.
Import ListNotations.

Local Open Scope string_scope.
Local Open Scope Z_scope.

(** ** JavaScript values used by both modules *)

Module JS.

(** A number: [NaN] or an integer.  [Num z] stands for the double of
    that value; the operations below are the source's on safe integers
    and exact beyond them, where the source rounds. *)
Inductive number : Type :=
| NaN
| Num (z : Z).

(** [Number.MAX_SAFE_INTEGER] and [Number.isSafeInteger] *)
Definition MAX_SAFE_INTEGER : Z := 2 ^ 53 - 1.

Definition isSafeInteger (z : Z) : bool :=
  (- MAX_SAFE_INTEGER <=? z) && (z <=? MAX_SAFE_INTEGER).

Definition add (a b : number) : number :=
  match a, b with
  | Num x, Num y => Num (x + y)
  | _, _ => NaN
  end.

Definition sub (a b : number) : number :=
  match a, b with
  | Num x, Num y => Num (x - y)
  | _, _ => NaN
  end.

(** [a > b]; any comparison with [NaN] is false. *)
Definition gt (a b : number) : bool :=
  match a, b with
  | Num x, Num y => x >? y
  | _, _ => false
  end.

(** White space as [\s] and [parseInt] see it (ASCII part). *)
Definition isWhiteSpace (c : ascii) : bool :=
  let n := nat_of_ascii c in
  (Nat.eqb n 9 || Nat.eqb n 10 || Nat.eqb n 11 || Nat.eqb n 12
   || Nat.eqb n 13 || Nat.eqb n 32)%bool.

Definition toUpperChar (c : ascii) : ascii :=
  let n := nat_of_ascii c in
  if (Nat.leb 97 n && Nat.leb n 122)%bool then ascii_of_nat (n - 32) else c.

Fixpoint toUpperCase (s : string) : string :=
  match s with
  | EmptyString => EmptyString
  | String c r => String (toUpperChar c) (toUpperCase r)
  end.

(** [s.replace(/[\s-]+/g, '')]: every run of white space and hyphens
    is deleted. *)
Fixpoint removeSpacesAndHyphens (s : string) : string :=
  match s with
  | EmptyString => EmptyString
  | String c r =>
      if (isWhiteSpace c || Ascii.eqb c "-")%bool
      then removeSpacesAndHyphens r
      else String c (removeSpacesAndHyphens r)
  end.

Fixpoint trimStart (s : string) : string :=
  match s with
  | EmptyString => EmptyString
  | String c r => if isWhiteSpace c then trimStart r else s
  end.

Definition digitValue (c : ascii) : option Z :=
  let n := nat_of_ascii c in
  if (Nat.leb 48 n && Nat.leb n 57)%bool then Some (Z.of_nat (n - 48))
  else if (Nat.leb 97 n && Nat.leb n 122)%bool then Some (Z.of_nat (n - 87))
  else if (Nat.leb 65 n && Nat.leb n 90)%bool then Some (Z.of_nat (n - 55))
  else None.

(** The longest prefix of digits of the radix; [None] when it is empty. *)
Fixpoint parseDigits (radix : Z) (s : string) (acc : option Z) : option Z :=
  match s with
  | EmptyString => acc
  | String c r =>
      match digitValue c with
      | Some d =>
          if d <? radix
          then parseDigits radix r
                 (Some (radix * match acc with Some a => a | None => 0 end + d))
          else acc
      | None => acc
      end
  end.

(** [parseInt(s)] with no radix argument: leading white space, a sign,
    a [0x] prefix for base sixteen, then digits; [NaN] without digits. *)
Definition parseInt (s : string) : number :=
  let s1 := trimStart s in
  let '(sign, s2) :=
    match s1 with
    | String "-" r => (-1, r)
    | String "+" r => (1, r)
    | _ => (1, s1)
    end in
  let '(radix, s3) :=
    match s2 with
    | String "0" (String x r) =>
        if (Ascii.eqb x "x" || Ascii.eqb x "X")%bool then (16, r) else (10, s2)
    | _ => (10, s2)
    end in
  match parseDigits radix s3 None with
  | Some n => Num (sign * n)
  | None => NaN
  end.

(** [String(n)] for an integer. *)
Definition toString (z : Z) : string := NilZero.string_of_int (Z.to_int z).

(** [xs.indexOf(x)], [-1] when absent. *)
Fixpoint indexOfFrom (i : Z) (x : string) (xs : list string) : Z :=
  match xs with
  | [] => -1
  | y :: r => if String.eqb y x then i else indexOfFrom (i + 1) x r
  end.

Definition indexOf (xs : list string) (x : string) : Z := indexOfFrom 0 x xs.

(** [xs.findIndex(p)]; [None] stands for [-1]. *)
Fixpoint findIndex {A : Type} (p : A -> bool) (xs : list A) : option nat :=
  match xs with
  | [] => None
  | x :: r =>
      if p x then Some O
      else match findIndex p r with
           | Some i => Some (S i)
           | None => None
           end
  end.

(** [s.startsWith(p)] *)
Definition startsWith (s p : string) : bool := String.prefix p s.

End JS.

(** ** The store: state, plan reset, adding and removing a course *)

Module Store.

Record Prerequisite : Type := {
  type : string;
  value : string
}.

Record Section_ : Type := {
  instructor : string;
  schedule : string
}.

Record Course : Type := {
  course_code : string;
  course_name : string;
  credits : string;
  prerequisites : list (list Prerequisite);
  corequisites : list string;
  sections : list Section_
}.

Inductive SemesterType : Type := regular | summer.

Record SemesterPlan : Type := {
  semester : string;
  semesterType : SemesterType;
  courses : list Course;
  planCredits : JS.number
}.

Record UserInfo : Type := {
  name : string;
  studentId : string;
  major : string;
  startSemester : string;
  startYear : Z;
  endSemester : string;
  endYear : Z;
  totalCreditsToGraduate : Z
}.

Record DegreePlanState : Type := {
  courseData : option (list Course);
  semesterPlans : list SemesterPlan;
  error : option string;
  userInfo : option UserInfo
}.

(** [set({ error: msg })] *)
Definition setError (msg : string) (st : DegreePlanState) : DegreePlanState :=
  {| courseData := courseData st;
     semesterPlans := semesterPlans st;
     error := Some msg;
     userInfo := userInfo st |}.

(** [set({ semesterPlans: plans, error: null })] *)
Definition setPlans (plans : list SemesterPlan) (st : DegreePlanState)
  : DegreePlanState :=
  {| courseData := courseData st;
     semesterPlans := plans;
     error := None;
     userInfo := userInfo st |}.

Definition initialState : DegreePlanState :=
  {| courseData := None; semesterPlans := []; error := None; userInfo := None |}.

Definition REGULAR_SEMESTER_CREDIT_LIMIT : Z := 22.
Definition SUMMER_SEMESTER_CREDIT_LIMIT : Z := 10.

Definition emptyPlan (sem : string) (t : SemesterType) : SemesterPlan :=
  {| semester := sem; semesterType := t; courses := []; planCredits := JS.Num 0 |}.

(** *** resetPlan *)

Definition defaultPlans : list SemesterPlan :=
  [ emptyPlan "Fall 2024" regular; emptyPlan "Spring 2025" regular;
    emptyPlan "Summer 2025" summer;
    emptyPlan "Fall 2025" regular; emptyPlan "Spring 2026" regular;
    emptyPlan "Summer 2026" summer;
    emptyPlan "Fall 2026" regular; emptyPlan "Spring 2027" regular;
    emptyPlan "Summer 2027" summer;
    emptyPlan "Fall 2027" regular; emptyPlan "Spring 2028" regular;
    emptyPlan "Summer 2028" summer ].

Definition invalidStartPlans : list SemesterPlan :=
  [ emptyPlan "Fall 2024" regular; emptyPlan "Spring 2025" regular;
    emptyPlan "Summer 2025" summer ].

Definition semesterOrder : list string := ["Fall"; "Spring"; "Summer"].

(** The [while] condition of [resetPlan]. *)
Definition beforeEnd (endYear : Z) (endSemester : string)
           (currentYear : Z) (currentSemester : string) : bool :=
  (currentYear <? endYear)
  || ((currentYear =? endYear)
      && (JS.indexOf semesterOrder currentSemester
          <=? JS.indexOf semesterOrder endSemester)).

(** The [while] loop of [resetPlan]; [fuel] bounds the iterations. *)
Fixpoint generateSemesters (fuel : nat) (endYear : Z) (endSemester : string)
         (currentYear : Z) (currentSemester : string)
         (semesterPlans : list SemesterPlan) : list SemesterPlan :=
  match fuel with
  | O => semesterPlans
  | S fuel' =>
      if beforeEnd endYear endSemester currentYear currentSemester then
        let displayYear :=
          if String.eqb currentSemester "Fall" then currentYear
          else currentYear + 1 in
        let plan :=
          emptyPlan (currentSemester ++ " " ++ JS.toString displayYear)
                    (if String.eqb currentSemester "Summer" then summer
                     else regular) in
        let nextSemesterIndex :=
          (JS.indexOf semesterOrder currentSemester + 1)
            mod Z.of_nat (length semesterOrder) in
        let currentSemester' :=
          nth (Z.to_nat nextSemesterIndex) semesterOrder "undefined" in
        let currentYear' :=
          if nextSemesterIndex =? 0 then currentYear + 1 else currentYear in
        generateSemesters fuel' endYear endSemester currentYear'
                          currentSemester' (semesterPlans ++ [plan])
      else semesterPlans
  end.

(** Iterations the loop can make from a recognised term: three per
    year up to the end year, fewer in the first year. *)
Definition loopBound (endYear currentYear : Z) (currentSemester : string)
  : nat :=
  Z.to_nat (3 * (endYear - currentYear) + 3
            - JS.indexOf semesterOrder currentSemester).

Definition resetPlan (st : DegreePlanState) : DegreePlanState :=
  match userInfo st with
  | None => setPlans defaultPlans st
  | Some info =>
      let startSemesterIndex := JS.indexOf semesterOrder (startSemester info) in
      if startSemesterIndex =? -1 then
        (* Invalid semester, use default *)
        setPlans invalidStartPlans st
      else
        setPlans
          (generateSemesters
             (loopBound (endYear info) (startYear info) (startSemester info))
             (endYear info) (endSemester info)
             (startYear info) (startSemester info) [])
          st
  end.

(** *** addCourse *)

(** Helper of [addCourse]: normalise a course code for comparison. *)
Definition normalizeCourseCode (code : string) : string :=
  if String.eqb code "" then ""
  else JS.toUpperCase (JS.removeSpacesAndHyphens code).

Definition sameCode (a b : Course) : bool :=
  String.eqb (course_code a) (course_code b).

(** The courses of the plans before the first one named [sem]: the
    [for ... of] loop that stops at the target semester. *)
Fixpoint previousSemestersOf (sem : string) (plans : list SemesterPlan)
  : list Course :=
  match plans with
  | [] => []
  | plan :: rest =>
      if String.eqb (semester plan) sem then []
      else courses plan ++ previousSemestersOf sem rest
  end.

(** The plans after the course went into the semester named [sem]. *)
Definition withCourseAdded (sem : string) (course : Course)
           (plans : list SemesterPlan) : list SemesterPlan :=
  map (fun plan =>
         if String.eqb (semester plan) sem then
           {| semester := semester plan;
              semesterType := semesterType plan;
              courses := courses plan ++ [course];
              planCredits :=
                JS.add (planCredits plan) (JS.parseInt (credits course)) |}
         else plan)
      plans.

(** [course.prerequisites.every(group => ...)] over the courses of
    the previous semesters. *)
Definition prerequisitesSatisfied (course : Course)
           (previousSemesters : list Course) : bool :=
  forallb
    (fun group =>
       match group with
       | [] => true
       | _ =>
           existsb
             (fun prereq =>
                let normalizedPrereq := normalizeCourseCode (value prereq) in
                existsb
                  (fun c =>
                     String.eqb (normalizeCourseCode (course_code c))
                                normalizedPrereq)
                  previousSemesters)
             group
       end)
    (prerequisites course).

Definition addCourse (sem : string) (course : Course) (st : DegreePlanState)
  : DegreePlanState :=
  let semesterPlans := semesterPlans st in
  match find (fun plan => String.eqb (semester plan) sem) semesterPlans with
  | None => st
  | Some semesterPlan =>
      if existsb (fun c => sameCode c course) (courses semesterPlan) then
        setError (course_code course ++ " is already in " ++ sem) st
      else
        let existsInOtherSemester :=
          existsb
            (fun plan =>
               negb (String.eqb (semester plan) sem)
               && existsb (fun c => sameCode c course) (courses plan))
            semesterPlans in
        if existsInOtherSemester then
          setError (course_code course ++ " is already in another semester") st
        else
          let creditLimit :=
            match semesterType semesterPlan with
            | summer => 10
            | regular => 22
            end in
          let newCredits :=
            JS.add (planCredits semesterPlan) (JS.parseInt (credits course)) in
          if JS.gt newCredits (JS.Num creditLimit) then
            setError ("Adding " ++ course_code course
                      ++ " would exceed the credit limit for " ++ sem) st
          else
            match prerequisites course with
            | [] => setPlans (withCourseAdded sem course semesterPlans) st
            | _ :: _ =>
                let previousSemesters := previousSemestersOf sem semesterPlans in
                if String.eqb (course_code course) "CSC 2302"
                   && existsb
                        (fun c =>
                           String.eqb (normalizeCourseCode (course_code c))
                                      (normalizeCourseCode "CSC1401"))
                        previousSemesters
                then setPlans (withCourseAdded sem course semesterPlans) st
                else if negb (prerequisitesSatisfied course previousSemesters)
                then
                  setError ("Prerequisites for " ++ course_code course
                            ++ " are not satisfied") st
                else setPlans (withCourseAdded sem course semesterPlans) st
            end
  end.

(** *** removeCourse *)

(** [c.prerequisites.some(group => group.some(p => p.value === courseCode))] *)
Definition isRequired (courseCode : string) (c : Course) : bool :=
  existsb (fun group =>
             existsb (fun prereq => String.eqb (value prereq) courseCode) group)
          (prerequisites c).

(** The inner loop over the courses of one later semester: the pair
    [(isPrerequisite, dependentCourse)] it leaves. *)
Fixpoint scanCourses (courseCode : string) (cs : list Course)
  : bool * string :=
  match cs with
  | [] => (false, "")
  | c :: rest =>
      match prerequisites c with
      | [] => scanCourses courseCode rest
      | _ :: _ =>
          if isRequired courseCode c then (true, course_code c)
          else scanCourses courseCode rest
      end
  end.

(** The outer loop over the later semesters. *)
Fixpoint scanSemesters (courseCode : string) (later : list SemesterPlan)
  : bool * string :=
  match later with
  | [] => (false, "")
  | plan :: rest =>
      let '(isPrerequisite, dependentCourse) :=
        scanCourses courseCode (courses plan) in
      if isPrerequisite then (true, dependentCourse)
      else scanSemesters courseCode rest
  end.

(** [xs[i] = f(xs[i])] on a copy, for [i] in range. *)
Fixpoint updateAt {A : Type} (i : nat) (f : A -> A) (xs : list A) : list A :=
  match xs, i with
  | [], _ => []
  | x :: r, O => f x :: r
  | x :: r, S i' => x :: updateAt i' f r
  end.

Definition removeCourse (sem : string) (courseCode : string)
           (st : DegreePlanState) : DegreePlanState :=
  let semesterPlans := semesterPlans st in
  match JS.findIndex (fun plan => String.eqb (semester plan) sem)
                     semesterPlans with
  | None => st
  | Some semesterIndex =>
      match nth_error semesterPlans semesterIndex with
      | None => st
      | Some semesterPlan =>
          match find (fun c => String.eqb (course_code c) courseCode)
                     (courses semesterPlan) with
          | None => st
          | Some course =>
              let '(isPrerequisite, dependentCourse) :=
                scanSemesters courseCode
                              (skipn (S semesterIndex) semesterPlans) in
              if isPrerequisite then
                setError ("Cannot remove " ++ courseCode
                          ++ " because it's a prerequisite for "
                          ++ dependentCourse) st
              else
                setPlans
                  (updateAt semesterIndex
                     (fun plan =>
                        {| semester := semester plan;
                           semesterType := semesterType plan;
                           courses :=
                             filter
                               (fun c =>
                                  negb (String.eqb (course_code c) courseCode))
                               (courses plan);
                           planCredits :=
                             JS.sub (planCredits plan)
                                    (JS.parseInt (credits course)) |})
                     semesterPlans)
                  st
          end
      end
  end.

End Store.

(** ** The validator's vocabulary

    The reasons, the evaluator and the available codes follow the
    specification's text.  The four tests of [canPlace] in this module
    are the store's own, named after the reasons: its two duplicate
    tests compare codes as they are spelled and its prerequisite test
    has the CSC 2302 exception.  [Rules], further down, has the rules as
    the specification words them. *)

Module Validator.
Import Store.

Inductive Reason : Type :=
| DuplicateInSemester
| DuplicateElsewhere
| CreditLimitExceeded
| PrerequisitesUnmet
| RemovalBlocked (dependent : string).

(** The message the store shows for a reason. *)
Definition reasonMessage (r : Reason) (code sem : string) : string :=
  match r with
  | DuplicateInSemester => code ++ " is already in " ++ sem
  | DuplicateElsewhere => code ++ " is already in another semester"
  | CreditLimitExceeded =>
      "Adding " ++ code ++ " would exceed the credit limit for " ++ sem
  | PrerequisitesUnmet => "Prerequisites for " ++ code ++ " are not satisfied"
  | RemovalBlocked dependent =>
      "Cannot remove " ++ code ++ " because it's a prerequisite for "
      ++ dependent
  end.

(** [cap(type)]: 22 for a regular semester, 10 for a summer one. *)
Definition cap (t : SemesterType) : Z :=
  match t with
  | regular => REGULAR_SEMESTER_CREDIT_LIMIT
  | summer => SUMMER_SEMESTER_CREDIT_LIMIT
  end.

Definition member (code : string) (codes : list string) : bool :=
  existsb (String.eqb code) codes.

(** [evaluate(expr, available)]: every conjunct is empty or has an
    alternative whose normalised code is available. *)
Definition evaluate (expr : list (list Prerequisite))
           (available : list string) : bool :=
  forallb
    (fun group =>
       match group with
       | [] => true
       | _ =>
           existsb
             (fun alt => member (normalizeCourseCode (value alt)) available)
             group
       end)
    expr.

(** The normalised codes of every course placed in a semester whose
    index is strictly less than [index]. *)
Definition availableCodes (index : nat) (ledger : list SemesterPlan)
  : list string :=
  map (fun c => normalizeCourseCode (course_code c))
      (flat_map courses (firstn index ledger)).

(** The one override the store applies: CSC 2302 is placeable as soon
    as CSC 1401 is available. *)
Definition overridden (course : Course) (available : list string) : bool :=
  String.eqb (course_code course) "CSC 2302" && member "CSC1401" available.

(** The four tests of the store, each true when it refuses.  The two
    duplicate tests take a code as it is spelled ([===]). *)
Definition duplicateInSemester (course : Course) (target : SemesterPlan)
  : bool :=
  existsb (fun c => String.eqb (course_code c) (course_code course))
          (courses target).

Definition duplicateElsewhere (course : Course) (sem : string)
           (ledger : list SemesterPlan) : bool :=
  existsb
    (fun plan =>
       negb (String.eqb (semester plan) sem)
       && existsb (fun c => String.eqb (course_code c) (course_code course))
                  (courses plan))
    ledger.

Definition creditLimitExceeded (course : Course) (target : SemesterPlan)
  : bool :=
  JS.gt (JS.add (planCredits target) (JS.parseInt (credits course)))
        (JS.Num (cap (semesterType target))).

Definition prerequisitesUnmet (course : Course) (sem : string)
           (ledger : list SemesterPlan) : bool :=
  match JS.findIndex (fun plan => String.eqb (semester plan) sem) ledger with
  | None => false
  | Some index =>
      let available := availableCodes index ledger in
      negb (overridden course available
            || evaluate (prerequisites course) available)
  end.

(** The first rule of an ordered list that fails. *)
Fixpoint firstFailing (rules : list (bool * Reason)) : option Reason :=
  match rules with
  | [] => None
  | (violated, reason) :: rest =>
      if violated then Some reason else firstFailing rest
  end.

Definition canPlace (course : Course) (target : SemesterPlan)
           (ledger : list SemesterPlan) : option Reason :=
  firstFailing
    [ (duplicateInSemester course target, DuplicateInSemester);
      (duplicateElsewhere course (semester target) ledger, DuplicateElsewhere);
      (creditLimitExceeded course target, CreditLimitExceeded);
      (prerequisitesUnmet course (semester target) ledger, PrerequisitesUnmet) ].

(** The course appended to a semester and its total increased. *)
Definition placeIn (course : Course) (plan : SemesterPlan) : SemesterPlan :=
  {| semester := semester plan;
     semesterType := semesterType plan;
     courses := courses plan ++ [course];
     planCredits := JS.add (planCredits plan) (JS.parseInt (credits course)) |}.

(** A course lists [code] among its prerequisite alternatives. *)
Definition listsAsPrerequisite (code : string) (d : Course) : bool :=
  existsb
    (fun group =>
       existsb (fun alt =>
                  String.eqb (normalizeCourseCode (value alt))
                             (normalizeCourseCode code))
               group)
    (prerequisites d).

(** The first course, in ledger order, of the semesters after [index]
    that lists [code] among its prerequisite alternatives. *)
Definition firstDependent (code : string) (index : nat)
           (ledger : list SemesterPlan) : option Course :=
  find (listsAsPrerequisite code) (flat_map courses (skipn (S index) ledger)).

(** Every prerequisite value of these semesters is written in
    normalised form. *)
Definition spelledNormally (plans : list SemesterPlan) : bool :=
  forallb
    (fun plan =>
       forallb
         (fun d =>
            forallb
              (forallb (fun alt =>
                          String.eqb (normalizeCourseCode (value alt))
                                     (value alt)))
              (prerequisites d))
         (courses plan))
    plans.

(** The courses of a semester without [code], and its total without
    the credits of [course]. *)
Definition takeOut (code : string) (course : Course) (plan : SemesterPlan)
  : SemesterPlan :=
  {| semester := semester plan;
     semesterType := semesterType plan;
     courses :=
       filter (fun c => negb (String.eqb (course_code c) code)) (courses plan);
     planCredits := JS.sub (planCredits plan) (JS.parseInt (credits course)) |}.

(** The sum of the credit values of a list of courses. *)
Definition creditSum (cs : list Course) : JS.number :=
  fold_left (fun sum c => JS.add sum (JS.parseInt (credits c))) cs (JS.Num 0).

(** A mutation of the ledger, and a run of mutations. *)
Inductive Operation : Type :=
| Add (sem : string) (course : Course)
| Remove (sem : string) (code : string).

Definition perform (st : DegreePlanState) (op : Operation) : DegreePlanState :=
  match op with
  | Add sem course => addCourse sem course st
  | Remove sem code => removeCourse sem code st
  end.

Definition run (ops : list Operation) (st : DegreePlanState)
  : DegreePlanState :=
  fold_left perform ops st.

(** A course of the data model: its credits read as an integer. *)
Definition hasIntegerCredits (c : Course) : Prop :=
  exists n, JS.parseInt (credits c) = JS.Num n.

Definition addsIntegerCredits (op : Operation) : Prop :=
  match op with
  | Add _ course => hasIntegerCredits course
  | Remove _ _ => True
  end.

(** An empty plan: distinct semester names, no course, no credits. *)
Definition emptyLedger (ledger : list SemesterPlan) : Prop :=
  NoDup (map semester ledger)
  /\ Forall (fun plan => courses plan = [] /\ planCredits plan = JS.Num 0)
            ledger.

(** No course code, as it is spelled, is in two different semesters. *)
Definition uniqueAcrossSemesters (ledger : list SemesterPlan) : Prop :=
  forall i j p q c d,
    i <> j -> nth_error ledger i = Some p -> nth_error ledger j = Some q ->
    In c (courses p) -> In d (courses q) -> course_code c <> course_code d.

(** Every stored total is the sum of the credits of the courses. *)
Definition creditsAddUp (ledger : list SemesterPlan) : Prop :=
  forall plan, In plan ledger -> planCredits plan = creditSum (courses plan).

End Validator.

(** ** The rules as the specification words them

    [Validator] names the store's own tests.  This module states the
    rules of sections 3, 4.1 and 4.4 of the specification from its
    text: codes are compared through the normaliser, credit values and
    totals are integers. *)

Module Rules.
Import Store Validator.

(** 4.1: every comparison of two codes goes through the normaliser. *)
Definition equalCodes (a b : string) : bool :=
  String.eqb (normalizeCourseCode a) (normalizeCourseCode b).

(** The course code is present in a semester. *)
Definition present (code : string) (plan : SemesterPlan) : bool :=
  existsb (fun c => equalCodes (course_code c) code) (courses plan).

(** The semesters of the ledger other than the one at [index]. *)
Definition others (index : nat) (ledger : list SemesterPlan)
  : list SemesterPlan :=
  (firstn index ledger ++ skipn (S index) ledger)%list.

(** [canPlace(course, targetSemester, ledger)] of 4.4: the four rules in
    their order, the first that fails wins.  [credits] is the course's
    credit value, [creditsSoFar] the target's total, [index] the
    target's place in the sequence. *)
Definition canPlace (course : Course) (credits : Z) (target : SemesterPlan)
           (creditsSoFar : Z) (index : nat) (ledger : list SemesterPlan)
  : option Reason :=
  firstFailing
    [ (present (course_code course) target, DuplicateInSemester);
      (existsb (present (course_code course)) (others index ledger),
       DuplicateElsewhere);
      (creditsSoFar + credits >? cap (semesterType target),
       CreditLimitExceeded);
      (negb (evaluate (prerequisites course) (availableCodes index ledger)),
       PrerequisitesUnmet) ].

(** On success: the course appended to the target semester, the total
    incremented by the course's credits. *)
Definition place (course : Course) (credits : Z) (target : SemesterPlan)
           (creditsSoFar : Z) (index : nat) (ledger : list SemesterPlan)
  : list SemesterPlan :=
  (firstn index ledger
   ++ {| semester := semester target;
         semesterType := semesterType target;
         courses := courses target ++ [course];
         planCredits := JS.Num (creditsSoFar + credits) |}
   :: skipn (S index) ledger)%list.

(** The credit value of a course: the integer its credits read as. *)
Definition creditValue (c : Course) : Z :=
  match JS.parseInt (credits c) with
  | JS.Num n => n
  | JS.NaN => 0
  end.

Definition sumOfCredits (cs : list Course) : Z :=
  fold_right (fun c sum => creditValue c + sum) 0 cs.


Definition totalsAreSums (ledger : list SemesterPlan) : Prop :=
  forall plan,
    In plan ledger -> planCredits plan = JS.Num (sumOfCredits (courses plan)).

(** Codes spelled consistently: two of them with one normal form are
    one string. *)
Definition consistent (codes : list string) : bool :=
  forallb
    (fun a =>
       forallb (fun b => implb (equalCodes a b) (String.eqb a b)) codes)
    codes.


End Rules.

(** ** The generator: generateDegreePlan *)

Module Generator.

(** A course as the generator reads and returns it.  Catalogue entries
    carry [code], [name], [credits], [prerequisites] and [semester];
    general-education entries carry [category] and [required], and get
    [isPlaceholder] and [type] when the areas are built.  A missing
    field is [None]; a missing [required] reads as [false]. *)
Record Course : Type := {
  code : string;
  name : string;
  credits : Z;
  prerequisites : list string;
  semester : option Z;
  category : option string;
  required : bool;
  isPlaceholder : option bool;
  courseType : option string
}.

Record MajorRequirements : Type := {
  majorName : string;
  majorCode : string;
  school : string;
  totalCredits : Z;
  courses : list Course
}.

Record DegreePlanOptions : Type := {
  includeSummer : bool;
  summerTerms : Z;
  transferCredits : list Course;
  specializations : list string
}.

Record CourseArea : Type := {
  areaName : string;
  minCredits : Z;
  areaCourses : list Course
}.

(** Of a category the generator reads the name and the credits only;
    the description and the options are left out. *)
Record CourseCategory : Type := {
  categoryCode : string;
  categoryName : string;
  creditsRequired : Z
}.

Record GeneralEducationCourse : Type := {
  geCode : string;
  geName : string;
  geCredits : Z;
  gePrerequisites : list string;
  geCategory : string;
  geRequired : bool
}.

Inductive PlanType : Type := regular | summer.

(** An element of the returned array. *)
Record SemesterPlan : Type := {
  planSemester : Z;
  planCourses : list Course;
  planCredits : Z;
  planType : PlanType
}.

Definition ge (c n : string) (cr : Z) (ps : list string) (cat : string)
           (req : bool) : GeneralEducationCourse :=
  {| geCode := c; geName := n; geCredits := cr; gePrerequisites := ps;
     geCategory := cat; geRequired := req |}.

Definition GENERAL_EDUCATION_COURSES : list GeneralEducationCourse :=
  [ ge "FYE 1101" "FYE Seminar I" 1 [] "Foundation" true;
    ge "FAS 0210" "Strategic Academic Skills" 2 [] "Foundation" true;
    ge "FYE 1102" "FYE Seminar II" 1 ["FYE 1101"] "Foundation" true;
    ge "FAS 1220" "Introduction to Critical Thinking" 2 [] "Foundation" true;
    ge "ENG 1301" "English Composition I" 3 [] "English" true;
    ge "ENG 2303" "Technical Writing" 3 ["ENG 1301"] "English" true;
    ge "ENG 2320" "Creative Writing" 3 ["ENG 1301"] "English" false;
    ge "COM 1301" "Public Speaking" 3 [] "Communication" true;
    ge "ARA 1201" "Arabic Language Course" 2 [] "Arabic" false;
    ge "ARA 1202" "Arabic Language Course" 2 [] "Arabic" false;
    ge "ARA 1203" "Arabic Language Course" 2 [] "Arabic" false;
    ge "ARA 3299" "Arabic Language Course" 2 [] "Arabic" false;
    ge "ARB 1201" "Arabic Language Course" 2 [] "Arabic" false;
    ge "ARB 1202" "Arabic Language Course" 2 [] "Arabic" false;
    ge "ARB 1203" "Arabic Language Course" 2 [] "Arabic" false;
    ge "ARB 1241" "Arabic Language Course" 2 [] "Arabic" false;
    ge "HUM 2305" "Humanities Course" 3 [] "Humanities" false;
    ge "HUM 2306" "Humanities Course" 3 [] "Humanities" false;
    ge "HUM 2307" "Humanities Course" 3 [] "Humanities" false;
    ge "LIT 2301" "Literature Course" 3 ["ENG 1301"] "Humanities" false;
    ge "PHI 2301" "Philosophy Course" 3 ["ENG 1301"] "Humanities" false;
    ge "PHI 2302" "Philosophy Course" 3 ["ENG 1301"] "Humanities" false;
    ge "HUM 2301" "Islamic Art & Architecture" 3 ["FAS 1220"] "Humanities" false;
    ge "FRN 3210" "French Language Course" 2 [] "French" true;
    ge "ART 1301" "Art Course" 3 ["FYE 1101"] "Art" false;
    ge "ART 1302" "Art Course" 3 ["FYE 1101"] "Art" false;
    ge "ART 1303" "Art Course" 3 ["FYE 1101"] "Art" false;
    ge "ART 1304" "Art Course" 3 ["FYE 1101"] "Art" false;
    ge "ART 1305" "Art Course" 3 ["FYE 1101"] "Art" false;
    ge "ART 3399" "Art Course" 3 ["FYE 1101"] "Art" false;
    ge "COM 2327" "Communication Arts" 3 ["FYE 1101"] "Art" false;
    ge "LIT 3370" "Literature & Arts" 3 ["FYE 1101"] "Art" false;
    ge "HIS 1301" "History Course" 3 [] "History" false;
    ge "HIS 2301" "History Course" 3 [] "History" false;
    ge "HUM 1310" "Humanities & History" 3 [] "History" false;
    ge "HUM 2302" "Humanities & History" 3 [] "History" false;
    ge "PSC 2301" "History/Political Science" 3 ["ENG 1301"] "History" false;
    ge "ECO 1300" "Economics Course" 3 [] "Social" false;
    ge "GEO 1301" "Geography Course" 3 [] "Social" false;
    ge "PSY 1301" "Psychology Course" 3 [] "Social" false;
    ge "SOC 1301" "Sociology Course" 3 [] "Social" false;
    ge "SSC 1310" "Social Science Course" 3 [] "Social" false;
    ge "SLP 1101" "Service Learning" 3 [] "Civic" true ].

Definition cat (c n : string) (cr : Z) : CourseCategory :=
  {| categoryCode := c; categoryName := n; creditsRequired := cr |}.

Definition GE_CATEGORIES : list CourseCategory :=
  [ cat "FYE_FAS" "First Year & Foundation Courses" 6;
    cat "ENGLISH" "English Requirements" 6;
    cat "ARABIC" "Arabic Language Requirement" 2;
    cat "COMMUNICATION" "Communication" 3;
    cat "HUMANITIES" "Humanities" 3;
    cat "FRENCH" "French Language" 2;
    cat "ART" "Art Appreciation & Creation" 3;
    cat "HISTORY" "History or Political Science" 3;
    cat "SOCIAL" "Social Sciences" 3;
    cat "CIVIC" "Civic Engagement" 3 ].

Definition MAX_SEMESTERS : Z := 12.

(** [code.replace(/\s/g, '')] *)
Fixpoint removeSpaces (s : string) : string :=
  match s with
  | EmptyString => EmptyString
  | String c r =>
      if JS.isWhiteSpace c then removeSpaces r else String c (removeSpaces r)
  end.

Definition has (codes : list string) (c : string) : bool :=
  existsb (String.eqb c) codes.

(** The track table of [isSpecializationCourse]; an unknown track has
    no entry.  A track named after a property every object inherits
    ([constructor], [toString], ...) finds that property instead of an
    entry and the source throws on it; such a track is outside this
    table, and what is proved of a generated plan is proved of a plan
    that is returned. *)
Definition trackCourses (track : string) : option (list string) :=
  if String.eqb track "ai"
  then Some ["CSC3309"; "CSC3347"; "CSC3310"; "CSC3311"]
  else if String.eqb track "bigdata"
  then Some ["CSC3331"; "CSC4352"; "CSC3329"; "CSC3346"]
  else if String.eqb track "systems"
  then Some ["CSC3373"; "CSC3328"; "CSC3329"; "CSC3331"]
  else if String.eqb track "software"
  then Some ["CSC4307"; "CSC4309"; "CSC3357"; "CSC3358"]
  else None.

Definition isSpecializationCourse (c track : string) : bool :=
  match trackCourses track with
  | Some cs => has cs (removeSpaces c)
  | None => false
  end.

(** The [categoryCredits] object: keys in insertion order. *)
Definition CategoryCredits : Type := list (string * JS.number).

Definition initialCategoryCredits : CategoryCredits :=
  [ ("Foundation", JS.Num 0); ("English", JS.Num 0); ("Arabic", JS.Num 0);
    ("Communication", JS.Num 0); ("Humanities", JS.Num 0);
    ("French", JS.Num 0); ("Art", JS.Num 0); ("History", JS.Num 0);
    ("Social", JS.Num 0); ("Civic", JS.Num 0) ].

Fixpoint getCredits (key : string) (cc : CategoryCredits) : option JS.number :=
  match cc with
  | [] => None
  | (k, v) :: r => if String.eqb k key then Some v else getCredits key r
  end.

(** [categoryCredits[key] += n]; on a key that is not there yet the
    sum of [undefined] and a number is [NaN]. *)
Fixpoint addCredits (key : string) (n : Z) (cc : CategoryCredits)
  : CategoryCredits :=
  match cc with
  | [] => [(key, JS.NaN)]
  | (k, v) :: r =>
      if String.eqb k key then (k, JS.add v (JS.Num n)) :: r
      else (k, v) :: addCredits key n r
  end.

(** [a < b] where either side may be [undefined]. *)
Definition lessThan (a : option JS.number) (b : option Z) : bool :=
  match a, b with
  | Some (JS.Num x), Some y => x <? y
  | _, _ => false
  end.

(** The [prerequisiteMap]: a later [set] of a key replaces the value. *)
Definition PrerequisiteMap : Type := list (string * list string).

Fixpoint mapSet (key : string) (v : list string) (m : PrerequisiteMap)
  : PrerequisiteMap :=
  match m with
  | [] => [(key, v)]
  | (k, w) :: r =>
      if String.eqb k key then (k, v) :: r else (k, w) :: mapSet key v r
  end.

Fixpoint mapGet (key : string) (m : PrerequisiteMap) : option (list string) :=
  match m with
  | [] => None
  | (k, w) :: r => if String.eqb k key then Some w else mapGet key r
  end.

Definition sumCredits (cs : list Course) : Z :=
  fold_left (fun sum course => sum + credits course) cs 0.

Definition firstCourse (c n : string) (cr : Z) : Course :=
  {| code := c; name := n; credits := cr; prerequisites := [];
     semester := Some 1; category := None; required := false;
     isPlaceholder := None; courseType := None |}.

Definition firstSemesterCourses : list Course :=
  [ firstCourse "ARB 1241" "Arabic Literature" 2;
    firstCourse "CSC 1401" "Computer Programming + LAB" 4;
    firstCourse "ENG 1301" "English Composition" 3;
    firstCourse "FAS 0210" "Strategic Academic Skills" 2;
    firstCourse "FYE 1101" "FYE Seminar I" 1;
    firstCourse "MTH 1303" "Calculus I" 3 ].

(** The comparator handed to [sort]: foundation courses first. *)
Definition foundationFirst (a b : Course) : Z :=
  let isFoundation c :=
    match category c with
    | Some k => String.eqb k "Foundation"
    | None => false
    end in
  if isFoundation a && negb (isFoundation b) then -1
  else if isFoundation b && negb (isFoundation a) then 1
  else 0.

(** The state the [while] loop updates. *)
Record LoopState : Type := {
  currentSemester : Z;
  totalSoFar : Z;
  remainingSummerTerms : Z;
  takenCourses : list string;
  categoryCredits : CategoryCredits;
  semesterPlans : list SemesterPlan
}.

Section WithSort.

(** [Array.prototype.sort], which the language leaves to the engine. *)
Variable arraySort : (Course -> Course -> Z) -> list Course -> list Course.

Variable requirements : MajorRequirements.
Variable options : DegreePlanOptions.

Definition inSomeSpecialization (c : Course) : bool :=
  existsb (fun spec => isSpecializationCourse (code c) spec)
          (specializations options).

Definition initialAreas : list CourseArea :=
  [ {| areaName := "Technical Core";
       minCredits := 83;
       areaCourses :=
         filter
           (fun c =>
              JS.startsWith (code c) "MTH" || JS.startsWith (code c) "PHY"
              || JS.startsWith (code c) "CHE" || JS.startsWith (code c) "EGR"
              || JS.startsWith (code c) "ACC" || JS.startsWith (code c) "FIN"
              || JS.startsWith (code c) "MGT"
              || (JS.startsWith (code c) "CSC"
                  && negb (inSomeSpecialization c)))
           (courses requirements) |};
    {| areaName := "General Education";
       minCredits := 31;
       areaCourses :=
         map (fun course =>
                {| code := geCode course;
                   name := geName course;
                   credits := geCredits course;
                   prerequisites := gePrerequisites course;
                   semester := None;
                   category := Some (geCategory course);
                   required := geRequired course;
                   isPlaceholder := Some (negb (geRequired course));
                   courseType :=
                     Some (if geRequired course then "course" else "choice")
                |})
             GENERAL_EDUCATION_COURSES |};
    {| areaName := "Specialization";
       minCredits := 12;
       areaCourses := filter inSomeSpecialization (courses requirements) |} ].

Definition prerequisiteMap : PrerequisiteMap :=
  fold_left
    (fun m area =>
       fold_left (fun m' course => mapSet (code course) (prerequisites course) m')
                 (areaCourses area) m)
    initialAreas [].

(** The areas once the first-semester courses are taken out. *)
Definition areas : list CourseArea :=
  let firstSemesterCodes := map code firstSemesterCourses in
  map (fun area =>
         {| areaName := areaName area;
            minCredits := minCredits area;
            areaCourses :=
              filter (fun course => negb (has firstSemesterCodes (code course)))
                     (areaCourses area) |})
      initialAreas.

Definition area (i : nat) : list Course :=
  match nth_error areas i with
  | Some a => areaCourses a
  | None => []
  end.

Definition arePrerequisitesMet (taken : list string) (course : Course)
  : bool :=
  match mapGet (code course) prerequisiteMap with
  | None => true
  | Some [] => true
  | Some ps => forallb (fun prereq => has taken prereq) ps
  end.

Definition getAvailableGenEdCourses (taken : list string)
           (cc : CategoryCredits) (maxCourses : nat) : list Course :=
  let requiredCourses :=
    arraySort foundationFirst
      (filter (fun c => required c && negb (has taken (code c))
                        && arePrerequisitesMet taken c)
              (area 1)) in
  let availableCourses := firstn maxCourses requiredCourses in
  if Nat.ltb (length availableCourses) maxCourses then
    let remainingSlots := (maxCourses - length availableCourses)%nat in
    let electiveCourses :=
      firstn remainingSlots
        (filter
           (fun c =>
              negb (required c) && negb (has taken (code c))
              && arePrerequisitesMet taken c
              && match category c with
                 | Some k =>
                     lessThan
                       (getCredits k cc)
                       (option_map creditsRequired
                          (find (fun g => String.eqb (categoryName g) k)
                                GE_CATEGORIES))
                 | None => false
                 end)
           (area 1)) in
    availableCourses ++ electiveCourses
  else availableCourses.

(** The state after the first semester is fixed. *)
Definition afterFirstSemester : LoopState :=
  {| currentSemester := 2;
     totalSoFar := sumCredits firstSemesterCourses;
     remainingSummerTerms := summerTerms options;
     takenCourses := map code firstSemesterCourses;
     categoryCredits :=
       fold_left
         (fun cc course =>
            if JS.startsWith (code course) "FAS"
               || JS.startsWith (code course) "FYE"
            then addCredits "Foundation" (credits course) cc
            else if JS.startsWith (code course) "ENG"
            then addCredits "English" (credits course) cc
            else if JS.startsWith (code course) "ARB"
            then addCredits "Arabic" (credits course) cc
            else cc)
         firstSemesterCourses initialCategoryCredits;
     semesterPlans :=
       [ {| planSemester := 1;
            planCourses := firstSemesterCourses;
            planCredits := sumCredits firstSemesterCourses;
            planType := regular |} ] |}.

(** One turn of the body of the [while] loop. *)
Definition planOneSemester (s : LoopState) : LoopState :=
  let taken := takenCourses s in
  let isSummer := (currentSemester s) mod 3 =? 0 in
  let '(semesterCourses, remaining) :=
    if negb isSummer then
      let technicalCourses :=
        firstn 3
          (filter (fun c => negb (has taken (code c))
                            && arePrerequisitesMet taken c)
                  (area 0 ++ area 2)) in
      let genEdCourses :=
        getAvailableGenEdCourses taken (categoryCredits s) 3 in
      ((technicalCourses ++ genEdCourses)%list, remainingSummerTerms s)
    else if includeSummer options && (remainingSummerTerms s >? 0) then
      let genEdCourses :=
        getAvailableGenEdCourses taken (categoryCredits s) 2 in
      let lightTechnicalCourses :=
        firstn 1
          (filter (fun c => negb (has taken (code c))
                            && arePrerequisitesMet taken c
                            && (credits c <=? 3)
                            && negb (JS.startsWith (code c) "CSC"))
                  (area 0)) in
      ((genEdCourses ++ lightTechnicalCourses)%list, remainingSummerTerms s - 1)
    else ([], remainingSummerTerms s) in
  match semesterCourses with
  | [] =>
      {| currentSemester := currentSemester s + 1;
         totalSoFar := totalSoFar s;
         remainingSummerTerms := remaining;
         takenCourses := taken;
         categoryCredits := categoryCredits s;
         semesterPlans := semesterPlans s |}
  | _ :: _ =>
      let semesterCredits := sumCredits semesterCourses in
      {| currentSemester := currentSemester s + 1;
         totalSoFar := totalSoFar s + semesterCredits;
         remainingSummerTerms := remaining;
         takenCourses :=
           fold_left
             (fun t course =>
                if has t (code course) then t else (t ++ [code course])%list)
             semesterCourses taken;
         categoryCredits :=
           fold_left
             (fun cc course =>
                match category course with
                | Some k =>
                    if String.eqb k "" then cc
                    else addCredits k (credits course) cc
                | None => cc
                end)
             semesterCourses (categoryCredits s);
         semesterPlans :=
           semesterPlans s
           ++ [ {| planSemester := currentSemester s;
                   planCourses := semesterCourses;
                   planCredits := semesterCredits;
                   planType := if isSummer then summer else regular |} ] |}
  end.

(** The [while] loop; [fuel] bounds its turns. *)
Fixpoint planRemaining (fuel : nat) (s : LoopState) : LoopState :=
  match fuel with
  | O => s
  | S fuel' =>
      if (currentSemester s <=? MAX_SEMESTERS)
         && (totalSoFar s <? totalCredits requirements)
      then planRemaining fuel' (planOneSemester s)
      else s
  end.

(** The loop starts at semester 2 and stops after semester 12. *)
Definition generateDegreePlan : list SemesterPlan :=
  semesterPlans
    (planRemaining (Z.to_nat (MAX_SEMESTERS - 1)) afterFirstSemester).

End WithSort.

(** What the language promises of [sort] when the comparator is
    consistent: the result is ordered, and elements that compare equal
    keep their relative order. *)
Record Consistent (cmp : Course -> Course -> Z) : Prop := {
  cmp_refl : forall a, cmp a a = 0;
  cmp_antisym : forall a b, cmp a b < 0 <-> cmp b a > 0;
  cmp_trans_le : forall a b c, cmp a b <= 0 -> cmp b c <= 0 -> cmp a c <= 0;
  cmp_trans_eq : forall a b c, cmp a b = 0 -> cmp a c = 0 -> cmp b c = 0
}.

Definition Ordered (cmp : Course -> Course -> Z) (l : list Course) : Prop :=
  StronglySorted (fun a b => cmp a b <= 0) l.

Definition Stable (cmp : Course -> Course -> Z) (l l' : list Course) : Prop :=
  forall x,
    filter (fun y => cmp x y =? 0) l' = filter (fun y => cmp x y =? 0) l.

(** An engine's [sort] together with the language's promise. *)
Record ArraySort : Type := {
  sortWith : (Course -> Course -> Z) -> list Course -> list Course;
  sort_ordered : forall cmp l, Consistent cmp -> Ordered cmp (sortWith cmp l);
  sort_stable : forall cmp l, Consistent cmp -> Stable cmp l (sortWith cmp l)
}.

(** One such engine: insertion sort, inserting before the first element
    that is not smaller. *)
Fixpoint insert (cmp : Course -> Course -> Z) (x : Course) (l : list Course)
  : list Course :=
  match l with
  | [] => [x]
  | y :: r => if cmp x y <=? 0 then x :: l else y :: insert cmp x r
  end.

Definition insertionSort (cmp : Course -> Course -> Z) (l : list Course)
  : list Course :=
  fold_right (insert cmp) [] l.

(** Another engine: the elements taken from the left, each inserted
    after the elements that are not greater. *)
Fixpoint insertLast (cmp : Course -> Course -> Z) (x : Course) (l : list Course)
  : list Course :=
  match l with
  | [] => [x]
  | y :: r => if cmp x y <? 0 then x :: l else y :: insertLast cmp x r
  end.

Definition leftToRightSort (cmp : Course -> Course -> Z) (l : list Course)
  : list Course :=
  fold_left (fun sorted x => insertLast cmp x sorted) l [].

(** A [sort] that orders but does not keep equal elements in place. *)
Definition reversingSort (cmp : Course -> Course -> Z) (l : list Course)
  : list Course :=
  insertionSort cmp (rev l).

(** A sample catalogue and options, for examples. *)
Definition catalogueCourse (c n : string) (cr : Z) (ps : list string)
           (sem : Z) : Course :=
  {| code := c; name := n; credits := cr; prerequisites := ps;
     semester := Some sem; category := None; required := false;
     isPlaceholder := None; courseType := None |}.

Definition sampleRequirements : MajorRequirements :=
  {| majorName := "Computer Science";
     majorCode := "CS";
     school := "CSC-based Academic Programs";
     totalCredits := 134;
     courses :=
       [ catalogueCourse "MTH 1303" "Calculus I" 3 [] 1;
         catalogueCourse "CSC 1401" "Introduction to Programming" 3 [] 1;
         catalogueCourse "MTH 1304" "Discrete Mathematics" 3 ["MTH 1303"] 2;
         catalogueCourse "MTH 2301" "Calculus II: Multivariable Calculus" 3
                         ["MTH 1303"] 3;
         catalogueCourse "CSC 2302" "Data Structures" 3 ["CSC 1401"] 2;
         catalogueCourse "CSC 3309" "Artificial Intelligence" 3
                         ["CSC 2302"] 5 ] |}.

Definition sampleOptions : DegreePlanOptions :=
  {| includeSummer := true; summerTerms := 1; transferCredits := [];
     specializations := ["ai"] |}.

End Generator.

(** ** Strings as the page and the parsers handle them *)

Module Text.

(** [s.slice(0, n)] and [s.slice(n)] *)
Fixpoint take (n : nat) (s : string) : string :=
  match n, s with
  | S n', String c r => String c (take n' r)
  | _, _ => EmptyString
  end.

Fixpoint drop (n : nat) (s : string) : string :=
  match n, s with
  | S n', String _ r => drop n' r
  | _, _ => s
  end.

(** [s.substring(a, b)] for [a <= b] *)
Definition substring (a b : nat) (s : string) : string :=
  take (b - a) (drop a s).

Fixpoint trimEnd (s : string) : string :=
  match s with
  | EmptyString => EmptyString
  | String c r =>
      match trimEnd r with
      | EmptyString => if JS.isWhiteSpace c then EmptyString else String c EmptyString
      | r' => String c r'
      end
  end.

(** [s.trim()] *)
Definition trim (s : string) : string := trimEnd (JS.trimStart s).

(** [s.split(sep)] for a separator of one character *)
Fixpoint split (sep : ascii) (s : string) : list string :=
  match s with
  | EmptyString => [EmptyString]
  | String c r =>
      if Ascii.eqb c sep then EmptyString :: split sep r
      else match split sep r with
           | [] => [String c EmptyString]
           | h :: t => String c h :: t
           end
  end.

(** [s.includes(sub)] *)
Fixpoint includes (s sub : string) : bool :=
  String.prefix sub s
  || match s with
     | EmptyString => false
     | String _ r => includes r sub
     end.

Fixpoint spaces (n : nat) : string :=
  match n with
  | O => EmptyString
  | S n' => String " " (spaces n')
  end.

(** [s.padEnd(n, ' ')] *)
Definition padEnd (n : nat) (s : string) : string :=
  s ++ spaces (n - String.length s).

Definition toLowerChar (c : ascii) : ascii :=
  let n := nat_of_ascii c in
  if (Nat.leb 65 n && Nat.leb n 90)%bool then ascii_of_nat (n + 32) else c.

Fixpoint toLowerCase (s : string) : string :=
  match s with
  | EmptyString => EmptyString
  | String c r => String (toLowerChar c) (toLowerCase r)
  end.

End Text.

(** ** The rest of the store's file *)

Module StoreMore.
Import Store.

(** What [getPrereqCode] may be handed: a code, or a prerequisite
    object. *)
Inductive PrereqValue : Type :=
| PrereqString (s : string)
| PrereqObject (p : Prerequisite).

(** [getPrereqCode]: a code as it is, the value of a course
    prerequisite with a space after its third character, otherwise the
    empty string. *)
Definition getPrereqCode (prereq : PrereqValue) : string :=
  match prereq with
  | PrereqString s => s
  | PrereqObject p =>
      if String.eqb (type p) "course" && negb (String.eqb (value p) "") then
        let code := value p in
        Text.take 3 code ++ " " ++ Text.drop 3 code
      else ""
  end.

(** [setCourseData] and [setUserInfo] *)
Definition setCourseData (data : list Course) (st : DegreePlanState)
  : DegreePlanState :=
  {| courseData := Some data;
     semesterPlans := semesterPlans st;
     error := error st;
     userInfo := userInfo st |}.

Definition setUserInfo (info : UserInfo) (st : DegreePlanState)
  : DegreePlanState :=
  {| courseData := courseData st;
     semesterPlans := semesterPlans st;
     error := error st;
     userInfo := Some info |}.

End StoreMore.

(** ** The degree-plan page: what it computes around the store *)

Module Page.
Import Store StoreMore.

(** The [while] loop of [getAllSemesters], the same walk as the one of
    [resetPlan], collecting names. *)
Fixpoint collectSemesters (fuel : nat) (endYear : Z) (endSemester : string)
         (currentYear : Z) (currentSemester : string)
         (allSemesters : list string) : list string :=
  match fuel with
  | O => allSemesters
  | S fuel' =>
      if beforeEnd endYear endSemester currentYear currentSemester then
        let displayYear :=
          if String.eqb currentSemester "Fall" then currentYear
          else currentYear + 1 in
        let nextSemesterIndex :=
          (JS.indexOf semesterOrder currentSemester + 1)
            mod Z.of_nat (length semesterOrder) in
        let currentSemester' :=
          nth (Z.to_nat nextSemesterIndex) semesterOrder "undefined" in
        let currentYear' :=
          if nextSemesterIndex =? 0 then currentYear + 1 else currentYear in
        collectSemesters fuel' endYear endSemester currentYear' currentSemester'
          (allSemesters
           ++ [currentSemester ++ " " ++ JS.toString displayYear])
      else allSemesters
  end.

(** [getAllSemesters]: no check of the start term here; an unknown
    term counts as index -1 and the walk goes on from the next Fall. *)
Definition getAllSemesters (userInfo : option UserInfo) : list string :=
  match userInfo with
  | None => []
  | Some info =>
      collectSemesters
        (loopBound (endYear info) (startYear info) (startSemester info))
        (endYear info) (endSemester info)
        (startYear info) (startSemester info) []
  end.

(** [addedCourses] of the course picker of a semester: the codes of
    the semesters up to and including that one, or of all semesters when
    the name is not found. *)
Definition addedCourses (semesterPlans : list SemesterPlan) (sem : string)
  : list string :=
  let allCourses := flat_map (fun plan => map course_code (courses plan))
                             semesterPlans in
  match JS.findIndex (fun plan => String.eqb (semester plan) sem)
                     semesterPlans with
  | None => allCourses
  | Some currentSemesterIndex =>
      flat_map (fun plan => map course_code (courses plan))
               (firstn (currentSemesterIndex + 1) semesterPlans)
  end.

(** [currentSemesterCourses] of the picker. *)
Definition currentSemesterCourses (semesterPlans : list SemesterPlan)
           (sem : string) : list string :=
  match find (fun plan => String.eqb (semester plan) sem) semesterPlans with
  | Some currentSemester => map course_code (courses currentSemester)
  | None => []
  end.

Definition courseCodesMatch (code1 code2 : string) : bool :=
  String.eqb (normalizeCourseCode code1) (normalizeCourseCode code2).

(** [arePrerequisitesSatisfied] of the picker, on prerequisites of the
    declared type (groups that are arrays of prerequisite objects). *)
Definition arePrerequisitesSatisfied (addedCourses : list string)
           (course : Course) : bool :=
  match prerequisites course with
  | [] => true
  | _ :: _ =>
      if existsb (fun group => match group with [] => true | _ => false end)
                 (prerequisites course)
      then true
      else if String.eqb (course_code course) "CSC 2302"
              && existsb (fun code => courseCodesMatch code "CSC1401")
                         addedCourses
      then true
      else
        forallb
          (fun orGroup =>
             match orGroup with
             | [] => true
             | _ =>
                 existsb
                   (fun prereq =>
                      existsb (fun code => courseCodesMatch code (value prereq))
                              addedCourses)
                   orGroup
             end)
          (prerequisites course)
  end.

(** [filteredCourses] of the picker: the catalogue narrowed by the
    search term, without the courses of the semester, and unless all
    courses are asked for without those whose prerequisites the picker
    finds unmet. *)
Definition filteredCourses (courseData : option (list Course))
           (searchTerm : string) (showAllCourses : bool)
           (semesterPlans : list SemesterPlan) (sem : string) : list Course :=
  match courseData with
  | None => []
  | Some data =>
      let searchLower := Text.toLowerCase searchTerm in
      let filtered :=
        filter (fun course =>
                  Text.includes (Text.toLowerCase (course_code course))
                                searchLower
                  || Text.includes (Text.toLowerCase (course_name course))
                                   searchLower)
               data in
      let filtered :=
        filter (fun course =>
                  negb (existsb (String.eqb (course_code course))
                                (currentSemesterCourses semesterPlans sem)))
               filtered in
      if negb showAllCourses then
        filter
          (fun course =>
             match prerequisites course with
             | [] => true
             | _ :: _ =>
                 if existsb
                      (fun group => match group with [] => true | _ => false end)
                      (prerequisites course)
                 then true
                 else arePrerequisitesSatisfied
                        (addedCourses semesterPlans sem) course
             end)
          filtered
      else filtered
  end.

(** *** Import and export of a plan as text *)

Definition tab : ascii := ascii_of_nat 9.
Definition newline : ascii := ascii_of_nat 10.

(** One course of a semester in the exported document, without the
    line break that ends it: the code padded to 15 characters, the name
    padded to 40, the credits. *)
Definition courseLine (course : Course) : string :=
  Text.padEnd 15 (course_code course)
  ++ Text.padEnd 40 (course_name course)
  ++ credits course.

(** The text under a semester's heading in the exported document. Each
    [content += line + '\n'] of the source is one element of [written]. *)
Fixpoint written (lines : list string) : string :=
  match lines with
  | [] => EmptyString
  | line :: rest => line ++ String newline (written rest)
  end.

Fixpoint tabs (n : nat) : string :=
  match n with
  | O => EmptyString
  | S n' => String tab (tabs n')
  end.

Definition rule : string :=
  "-----------------------------------------------------------------------".

Definition tableHeader : string :=
  "Course ID" ++ tabs 2 ++ "Course Title" ++ tabs 4 ++ "SCH".

Definition placeholderLine : string :=
  "NONE" ++ tabs 2 ++ "No courses added" ++ tabs 4 ++ "0".

(** [`${n}`] for a number of the plan. *)
Definition numberText (n : JS.number) : string :=
  match n with
  | JS.NaN => "NaN"
  | JS.Num z => JS.toString z
  end.

Definition semesterTable (courses : list Course) (planCredits : JS.number)
  : string :=
  let total := "Total SCH: " ++ numberText planCredits in
  written
    ([tableHeader; rule]
       ++ match courses with
          | [] => [placeholderLine]
          | _ :: _ => map courseLine courses
          end
       ++ [rule; total])%list.

(** [s.match(/^=+$/)] *)
Fixpoint allEquals (s : string) : bool :=
  match s with
  | EmptyString => true
  | String c r => Ascii.eqb c "=" && allEquals r
  end.

Definition isRuleOfEquals (s : string) : bool :=
  match s with
  | EmptyString => false
  | _ => allEquals s
  end.

(** [a || b] on strings that may be undefined. *)
Definition orElse (a b : option string) : option string :=
  match a with
  | Some x => if String.eqb x "" then b else a
  | None => b
  end.

Definition lastOf (parts : list string) : option string :=
  match rev parts with
  | [] => None
  | x :: _ => Some x
  end.

(** The body of the loop of [extractCoursesFromSemesterContent]: what
    one line of a semester's table adds to the courses, if anything. *)
Definition parseCourseLine (rawLine : string) : option Course :=
  let line := Text.trim rawLine in
  if String.eqb line "" || JS.startsWith line "-"
     || Text.includes line "Total SCH:"
  then None
  else if JS.startsWith line "NONE" || Text.includes line "No courses added"
  then None
  else
    let '(courseCode, courseName, credits) :=
      if Text.includes line (String tab EmptyString) then
        let parts :=
          filter (fun part => negb (String.eqb (Text.trim part) ""))
                 (Text.split tab line) in
        (option_map Text.trim (nth_error parts 0),
         option_map Text.trim (nth_error parts 1),
         orElse (option_map Text.trim (nth_error parts 2))
                (option_map Text.trim (lastOf parts)))
      else
        (Some (Text.trim (Text.substring 0 15 line)),
         Some (Text.trim (Text.substring 15 55 line)),
         Some (Text.trim (Text.drop 55 line))) in
    match courseCode, courseName, credits with
    | Some courseCode, Some courseName, Some credits =>
        if String.eqb courseCode "" || String.eqb courseName ""
           || String.eqb credits ""
        then None
        else
          match JS.parseInt credits with
          | JS.NaN => None
          | JS.Num parsedCredits =>
              Some {| course_code := courseCode;
                      course_name := courseName;
                      credits := JS.toString parsedCredits;
                      prerequisites := [];
                      corequisites := [];
                      sections := [] |}
          end
    | _, _, _ => None
    end.

Definition isHeaderLine (line : string) : bool :=
  Text.includes line "Course ID" || Text.includes line "Course Title"
  || Text.includes line "SCH".

(** [extractCoursesFromSemesterContent] *)
Definition extractCoursesFromSemesterContent (content : string) : list Course :=
  let lines := Text.split newline content in
  let cleanedLines :=
    filter (fun line => negb (isRuleOfEquals (Text.trim line))) lines in
  match JS.findIndex isHeaderLine cleanedLines with
  | None => []
  | Some headerLineIndex =>
      flat_map (fun line =>
                  match parseCourseLine line with
                  | Some course => [course]
                  | None => []
                  end)
               (skipn (headerLineIndex + 2) cleanedLines)
  end.

(** The semesters [parseDegreePlanFile] hands over: each name with the
    courses extracted from the text under its heading. *)
Definition parsedSemesters (sections : list (string * string))
  : list (string * list Course) :=
  map (fun section =>
         (fst section, extractCoursesFromSemesterContent (snd section)))
      sections.

(** The store calls of an import: the user data is set, the plan is
    reset and every course of every parsed semester goes through
    [addCourse], in order. The years of the user data are numbers here,
    as in [UserInfo]; a file whose headings give no year is not
    covered. *)
Definition importPlan (info : UserInfo)
           (semesters : list (string * list Course))
           (st : DegreePlanState) : DegreePlanState :=
  fold_left
    (fun st sem =>
       fold_left (fun st course => addCourse (fst sem) course st) (snd sem) st)
    semesters (resetPlan (setUserInfo info st)).

End Page.

(** ** Sample courses and ledgers *)

Module Samples.
Import Store.

Definition mkCourse (c cr : string) (groups : list (list string)) : Course :=
  {| course_code := c;
     course_name := "";
     credits := cr;
     prerequisites :=
       map (map (fun v => {| type := "course"; value := v |})) groups;
     corequisites := [];
     sections := [] |}.

(** The twelve empty semesters [resetPlan] makes without user data. *)
Definition fresh : DegreePlanState := resetPlan initialState.

Definition calculus1 : Course := mkCourse "MTH 1303" "3" [].
Definition calculus2 : Course := mkCourse "MTH 2301" "3" [["MTH1303"]].
Definition physics1 : Course := mkCourse "PHY 1401" "4" [].

(** Calculus I again, spelled without the space. *)
Definition calculus1Respelled : Course := mkCourse "MTH1303" "3" [].

(** Calculus I placed in the first semester. *)
Definition withCalculus1 : DegreePlanState :=
  addCourse "Fall 2024" calculus1 fresh.

(** Calculus I in the first semester, Calculus II in the second. *)
Definition withBothCalculus : DegreePlanState :=
  addCourse "Spring 2025" calculus2 withCalculus1.

(** Two alternatives in the first semester and a course that needs
    either of them in the second; codes and prerequisite values are
    spelled alike here. *)
Definition statistics : Course := mkCourse "MTH2320" "3" [].
Definition algebra : Course := mkCourse "MTH2303" "3" [].
Definition modelling : Course :=
  mkCourse "EGR3301" "3" [["MTH2320"; "MTH2303"]].

Definition withAlternatives : DegreePlanState :=
  addCourse "Spring 2025" modelling
    (addCourse "Fall 2024" algebra (addCourse "Fall 2024" statistics fresh)).

(** Four light courses for a summer term, and a course whose credits
    are not a number. *)
Definition art1 : Course := mkCourse "ART 1301" "3" [].
Definition art2 : Course := mkCourse "ART 1302" "3" [].
Definition art3 : Course := mkCourse "ART 1303" "3" [].
Definition art4 : Course := mkCourse "ART 1304" "3" [].
Definition seminar : Course := mkCourse "FYE 1101" "one" [].

Definition fullSummer : DegreePlanState :=
  addCourse "Summer 2025" art3
    (addCourse "Summer 2025" art2 (addCourse "Summer 2025" art1 fresh)).

(** A student whose start term is not a term. *)
Definition winterStudent : UserInfo :=
  {| name := "A. Student"; studentId := "00000"; major := "CS";
     startSemester := "Winter"; startYear := 2024;
     endSemester := "Spring"; endYear := 2028;
     totalCreditsToGraduate := 134 |}.

Definition winterState : DegreePlanState :=
  {| courseData := None; semesterPlans := []; error := None;
     userInfo := Some winterStudent |}.

Definition springStudent : UserInfo :=
  {| name := "A. Student"; studentId := "00000"; major := "CS";
     startSemester := "Spring"; startYear := 2024;
     endSemester := "Fall"; endYear := 2025;
     totalCreditsToGraduate := 134 |}.

Definition springState : DegreePlanState :=
  {| courseData := None; semesterPlans := []; error := None;
     userInfo := Some springStudent |}.

End Samples.

(** ** Sample files *)

Module ImportSamples.
Import Store Page Samples.

(** Two courses as the catalogue has them, the second semester's course
    with its prerequisite. *)
Definition namedCalculus2 : Course :=
  {| course_code := "MTH 2301";
     course_name := "Calculus II";
     credits := "3";
     prerequisites := [[{| type := "course"; value := "MTH1303" |}]];
     corequisites := [];
     sections := [] |}.

Definition namedPhysics1 : Course :=
  {| course_code := "PHY 1401";
     course_name := "Physics I";
     credits := "4";
     prerequisites := [];
     corequisites := [];
     sections := [] |}.

(** What follows the table of the last semester of an academic year. *)
Definition yearTotal : string :=
  written [""; "Total SCH for 2025/2026: 7"; ""].

(** The text under a semester's heading in an exported file, from the
    line break that ends the heading. *)
Definition exportedSemester : string :=
  String newline
         (semesterTable [namedCalculus2; namedPhysics1] (JS.Num 7)
          ++ yearTotal).

(** A name that runs past its column, into the credits. *)
Definition longNamed : Course :=
  {| course_code := "CSC 4301";
     course_name := "Selected Topics in Distributed Computing 2";
     credits := "3";
     prerequisites := [];
     corequisites := [];
     sections := [] |}.

(** The same line as the parser reads it. *)
Definition longNamedAsRead : Course :=
  {| course_code := "CSC 4301";
     course_name := "Selected Topics in Distributed Computing";
     credits := "23";
     prerequisites := [];
     corequisites := [];
     sections := [] |}.

(** An import of a file with that one semester under the heading of
    the last semester of [springStudent]. *)
Definition importedSections : list (string * string) :=
  [("Fall 2025", exportedSemester)].

Definition importedState : DegreePlanState :=
  importPlan springStudent (parsedSemesters importedSections) initialState.

End ImportSamples.

Module RuleSamples.
Import Store Samples.

(** Programming I in the first semester, and Data Structures with a
    prerequisite that is placed nowhere. *)
Definition programming1 : Course := mkCourse "CSC 1401" "4" [].
Definition dataStructures : Course := mkCourse "CSC 2302" "3" [["MTH 9999"]].

(** Data Structures again, as a catalogue entry that asks for
    Calculus I, and the expression an override table would put in its
    place. *)
Definition dataStructuresAfterCalculus : Course :=
  mkCourse "CSC 2302" "3" [["MTH1303"]].

Definition programmingFirst : list (list Prerequisite) :=
  [[{| type := "course"; value := "CSC1401" |}]].

Definition withProgramming1 : DegreePlanState :=
  addCourse "Fall 2024" programming1 fresh.

(** A run over three semesters: two placements in the first, one in the
    second that needs the first, a duplicate in the third that is
    refused, a placement in the third, and a removal from the first. *)
Definition sampleRun : list Validator.Operation :=
  [ Validator.Add "Fall 2024" calculus1;
    Validator.Add "Fall 2024" physics1;
    Validator.Add "Spring 2025" calculus2;
    Validator.Add "Summer 2025" calculus1;
    Validator.Add "Summer 2025" art1;
    Validator.Remove "Fall 2024" "PHY 1401" ].

End RuleSamples.

(** ** Facts about the store *)

Module StoreProofs.
Import Store Validator.

Definition named (sem : string) (plan : SemesterPlan) : bool :=
  String.eqb (semester plan) sem.

(** *** Searching a list *)

Lemma findIndex_Some {A : Type} (p : A -> bool) (xs : list A) (i : nat) :
  JS.findIndex p xs = Some i ->
  exists x, nth_error xs i = Some x /\ p x = true /\ find p xs = Some x
            /\ forall y, In y (firstn i xs) -> p y = false.
Proof.
  revert i. induction xs as [|a xs IH]; intros i H; simpl in H.
  - discriminate.
  - destruct (p a) eqn:Hpa.
    + injection H as <-. exists a. simpl. rewrite Hpa.
      repeat split; auto. intros y [].
    + destruct (JS.findIndex p xs) as [j|] eqn:Hj; [|discriminate].
      injection H as <-. destruct (IH j eq_refl) as (x & Hn & Hp & Hf & Hb).
      exists x. simpl. rewrite Hpa. repeat split; auto.
      intros y [<-|Hy]; auto.
Qed.

Lemma findIndex_None {A : Type} (p : A -> bool) (xs : list A) :
  JS.findIndex p xs = None -> find p xs = None.
Proof.
  induction xs as [|a xs IH]; simpl; intros H; auto.
  destruct (p a); [discriminate|].
  destruct (JS.findIndex p xs); [discriminate|]. auto.
Qed.

Lemma find_findIndex {A : Type} (p : A -> bool) (xs : list A) (x : A) :
  find p xs = Some x ->
  exists i, JS.findIndex p xs = Some i /\ nth_error xs i = Some x.
Proof.
  intros H. destruct (JS.findIndex p xs) as [i|] eqn:Hi.
  - exists i. split; auto.
    destruct (findIndex_Some p xs i Hi) as (y & Hn & _ & Hf & _).
    congruence.
  - apply findIndex_None in Hi. congruence.
Qed.

Lemma find_named sem plans target :
  find (named sem) plans = Some target -> semester target = sem.
Proof.
  intros H. apply find_some in H as [_ H]. now apply String.eqb_eq in H.
Qed.

(** *** The courses of the earlier semesters *)

Lemma previousSemestersOf_firstn sem plans i :
  JS.findIndex (named sem) plans = Some i ->
  previousSemestersOf sem plans = flat_map courses (firstn i plans).
Proof.
  revert i. induction plans as [|plan plans IH]; intros i H; simpl in H.
  - discriminate.
  - unfold named in H at 1. simpl. destruct (String.eqb (semester plan) sem).
    + now injection H as <-.
    + destruct (JS.findIndex (named sem) plans) as [j|]; [|discriminate].
      injection H as <-. simpl. now rewrite (IH j eq_refl).
Qed.

Lemma available_member (n : string) (cs : list Course) :
  existsb (fun c => String.eqb (normalizeCourseCode (course_code c)) n) cs
  = member n (map (fun c => normalizeCourseCode (course_code c)) cs).
Proof.
  unfold member. induction cs as [|c cs IH]; simpl; auto.
  now rewrite IH, String.eqb_sym.
Qed.

Lemma forallb_pointwise {A : Type} (f g : A -> bool) (l : list A) :
  (forall a, f a = g a) -> forallb f l = forallb g l.
Proof. intros H. induction l as [|a l IH]; simpl; congruence. Qed.

Lemma existsb_pointwise {A : Type} (f g : A -> bool) (l : list A) :
  (forall a, f a = g a) -> existsb f l = existsb g l.
Proof. intros H. induction l as [|a l IH]; simpl; congruence. Qed.

Lemma prerequisitesSatisfied_evaluate (course : Course) (cs : list Course) :
  prerequisitesSatisfied course cs
  = evaluate (prerequisites course)
             (map (fun c => normalizeCourseCode (course_code c)) cs).
Proof.
  unfold prerequisitesSatisfied, evaluate.
  apply forallb_pointwise. intros [|alt group]; auto.
  apply existsb_pointwise. intros a. apply available_member.
Qed.

Lemma evaluate_nil (available : list string) : evaluate [] available = true.
Proof. reflexivity. Qed.

(** What [addCourse] decides once the semester is found and the
    first three rules pass: the course goes in exactly when the
    override applies or the expression holds of the earlier courses. *)
Lemma addCourse_prerequisite_step sem course plans st :
  (match prerequisites course with
   | [] => setPlans (withCourseAdded sem course plans) st
   | _ :: _ =>
       let previousSemesters := previousSemestersOf sem plans in
       if String.eqb (course_code course) "CSC 2302"
          && existsb
               (fun c =>
                  String.eqb (normalizeCourseCode (course_code c))
                             (normalizeCourseCode "CSC1401"))
               previousSemesters
       then setPlans (withCourseAdded sem course plans) st
       else if negb (prerequisitesSatisfied course previousSemesters)
       then setError ("Prerequisites for " ++ course_code course
                      ++ " are not satisfied") st
       else setPlans (withCourseAdded sem course plans) st
   end)
  = let available :=
      map (fun c => normalizeCourseCode (course_code c))
          (previousSemestersOf sem plans) in
    if overridden course available || evaluate (prerequisites course) available
    then setPlans (withCourseAdded sem course plans) st
    else setError (reasonMessage PrerequisitesUnmet (course_code course) sem) st.
Proof.
  cbv zeta. unfold overridden.
  rewrite <- prerequisitesSatisfied_evaluate, <- available_member.
  change (normalizeCourseCode "CSC1401") with "CSC1401".
  destruct (prerequisites course) as [|g gs] eqn:Hp.
  - unfold prerequisitesSatisfied. rewrite Hp. simpl forallb.
    now rewrite orb_true_r.
  - destruct (String.eqb (course_code course) "CSC 2302"
              && existsb _ (previousSemestersOf sem plans)); simpl orb; auto.
    destruct (prerequisitesSatisfied course (previousSemestersOf sem plans));
      reflexivity.
Qed.

Lemma withCourseAdded_map sem course plans :
  withCourseAdded sem course plans
  = map (fun plan => if named sem plan then placeIn course plan else plan) plans.
Proof. reflexivity. Qed.

(** [addCourse] on a semester of the ledger, in terms of the rules. *)
Lemma addCourse_found sem course st target index :
  JS.findIndex (named sem) (semesterPlans st) = Some index ->
  nth_error (semesterPlans st) index = Some target ->
  addCourse sem course st =
    if duplicateInSemester course target
    then setError (reasonMessage DuplicateInSemester (course_code course) sem) st
    else if duplicateElsewhere course sem (semesterPlans st)
    then setError (reasonMessage DuplicateElsewhere (course_code course) sem) st
    else if creditLimitExceeded course target
    then setError (reasonMessage CreditLimitExceeded (course_code course) sem) st
    else if overridden course (availableCodes index (semesterPlans st))
            || evaluate (prerequisites course)
                        (availableCodes index (semesterPlans st))
    then setPlans (withCourseAdded sem course (semesterPlans st)) st
    else setError (reasonMessage PrerequisitesUnmet (course_code course) sem) st.
Proof.
  intros Hi Hn.
  destruct (findIndex_Some _ _ _ Hi) as (x & Hx & _ & Hf & _).
  assert (x = target) as -> by congruence.
  unfold addCourse. fold (named sem). rewrite Hf.
  unfold duplicateInSemester, duplicateElsewhere, creditLimitExceeded, sameCode.
  destruct (existsb _ (courses target)); [reflexivity|].
  destruct (existsb _ (semesterPlans st)); [reflexivity|].
  replace (match semesterType target with summer => 10 | regular => 22 end)
    with (cap (semesterType target)) by (now destruct (semesterType target)).
  destruct (JS.gt _ _); [reflexivity|].
  rewrite addCourse_prerequisite_step. cbv zeta.
  unfold availableCodes. now rewrite (previousSemestersOf_firstn _ _ _ Hi).
Qed.

Import Samples.


(** *** The prerequisite rule *)




(** *** The credit rule *)

Lemma setError_setPlans msg plans st : setError msg st <> setPlans plans st.
Proof. intros H. apply (f_equal error) in H. discriminate. Qed.




(** *** A semester that is not in the ledger *)

(** C9, as the claim has it, fails: a call that names a semester the
    ledger does not have returns the state it was given, error
    included. *)
Lemma unknown_semester_is_silent :
  find (named "Winter 2030") (semesterPlans withCalculus1) = None
  /\ addCourse "Winter 2030" calculus2 withCalculus1 = withCalculus1
  /\ removeCourse "Winter 2030" "MTH 1303" withCalculus1 = withCalculus1
  /\ error withCalculus1 = None.
Proof. repeat split. Qed.

(** C9, amended.  On a semester name the ledger does not have,
    [addCourse] and [removeCourse] each return the state unchanged: no
    plan is touched and the error message is left as it was. *)
Theorem unknown_semester_no_op sem course code st :
  find (named sem) (semesterPlans st) = None ->
  addCourse sem course st = st /\ removeCourse sem code st = st.
Proof.
  intros H. unfold addCourse, removeCourse. fold (named sem). rewrite H.
  split; [reflexivity|].
  destruct (JS.findIndex (named sem) (semesterPlans st)) as [i|] eqn:Hi;
    [|reflexivity].
  destruct (findIndex_Some _ _ _ Hi) as (x & _ & _ & Hf & _). congruence.
Qed.

Lemma unknown_semester_no_op_witness :
  addCourse "Winter 2030" calculus2 withCalculus1 = withCalculus1
  /\ removeCourse "Winter 2030" "MTH 1303" withCalculus1 = withCalculus1.
Proof.
  apply (unknown_semester_no_op "Winter 2030" calculus2 "MTH 1303"
                                withCalculus1).
  reflexivity.
Defined.

(** *** Removing a course *)

Lemma scanCourses_find code cs :
  scanCourses code cs =
    match find (isRequired code) cs with
    | Some d => (true, course_code d)
    | None => (false, "")
    end.
Proof.
  induction cs as [|c cs IH]; simpl; auto.
  destruct (prerequisites c) as [|g gs] eqn:Hp.
  - unfold isRequired at 1. rewrite Hp. simpl. exact IH.
  - destruct (isRequired code c); auto.
Qed.

Lemma find_append {A : Type} (p : A -> bool) (xs ys : list A) :
  find p (xs ++ ys) =
    match find p xs with
    | Some x => Some x
    | None => find p ys
    end.
Proof. induction xs as [|x xs IH]; simpl; auto. now destruct (p x). Qed.

Lemma scanSemesters_find code later :
  scanSemesters code later =
    match find (isRequired code) (flat_map courses later) with
    | Some d => (true, course_code d)
    | None => (false, "")
    end.
Proof.
  induction later as [|plan later IH]; simpl; auto.
  rewrite scanCourses_find, find_append.
  destruct (find (isRequired code) (courses plan)); auto.
Qed.

(** The first later course whose prerequisites hold [code] as spelled:
    what the two loops of [removeCourse] find. *)
Definition firstRequiring (code : string) (index : nat)
           (ledger : list SemesterPlan) : option Course :=
  find (isRequired code) (flat_map courses (skipn (S index) ledger)).

(** [removeCourse] once the semester and the course are found. *)
Lemma removeCourse_found sem code st index plan course :
  JS.findIndex (named sem) (semesterPlans st) = Some index ->
  nth_error (semesterPlans st) index = Some plan ->
  find (fun c => String.eqb (course_code c) code) (courses plan) = Some course ->
  removeCourse sem code st =
    match firstRequiring code index (semesterPlans st) with
    | Some d =>
        setError (reasonMessage (RemovalBlocked (course_code d)) code sem) st
    | None =>
        setPlans (updateAt index (takeOut code course) (semesterPlans st)) st
    end.
Proof.
  intros Hi Hn Hc. unfold removeCourse. fold (named sem).
  rewrite Hi, Hn, Hc, scanSemesters_find. unfold firstRequiring.
  destruct (find (isRequired code) _); reflexivity.
Qed.

(** C3, as the claim has it, fails: Statistics and Algebra are both in
    the first semester and a later course needs either of them; without
    Statistics that course's prerequisites still hold, yet the removal
    is refused. *)
Lemma removal_refused_despite_alternative :
  let without :=
    updateAt 0 (takeOut "MTH2320" statistics) (semesterPlans withAlternatives)
  in
  evaluate (prerequisites modelling) (availableCodes 1 without) = true
  /\ removeCourse "Fall 2024" "MTH2320" withAlternatives
     = setError (reasonMessage (RemovalBlocked "EGR3301") "MTH2320" "Fall 2024")
                withAlternatives.
Proof. split; reflexivity. Qed.

Lemma find_pointwise_in {A : Type} (p q : A -> bool) (l : list A) :
  (forall x, In x l -> p x = q x) -> find p l = find q l.
Proof.
  induction l as [|a l IH]; simpl; intros H; auto.
  rewrite <- (H a) by auto. destruct (p a); auto.
Qed.

Lemma existsb_pointwise_in {A : Type} (p q : A -> bool) (l : list A) :
  (forall x, In x l -> p x = q x) -> existsb p l = existsb q l.
Proof.
  induction l as [|a l IH]; simpl; intros H; auto.
  rewrite (H a) by auto. f_equal. auto.
Qed.

(** On normalised spellings the store's comparison is the normalised
    one. *)
Lemma firstRequiring_normal code index ledger :
  normalizeCourseCode code = code ->
  spelledNormally (skipn (S index) ledger) = true ->
  firstRequiring code index ledger = firstDependent code index ledger.
Proof.
  intros Hcode Hnormal. unfold firstRequiring, firstDependent.
  apply find_pointwise_in. intros d Hd.
  apply in_flat_map in Hd as (plan & Hplan & Hd).
  unfold spelledNormally in Hnormal. rewrite forallb_forall in Hnormal.
  specialize (Hnormal plan Hplan). rewrite forallb_forall in Hnormal.
  specialize (Hnormal d Hd). rewrite forallb_forall in Hnormal.
  unfold isRequired, listsAsPrerequisite.
  apply existsb_pointwise_in. intros group Hgroup.
  specialize (Hnormal group Hgroup). rewrite forallb_forall in Hnormal.
  apply existsb_pointwise_in. intros alt Halt.
  apply Hnormal, String.eqb_eq in Halt. now rewrite Halt, Hcode.
Qed.

(** C3, amended.  With the removed code and the prerequisite values of
    the later semesters written in normalised form, [removeCourse]
    refuses, naming the dependent course, exactly when a course of a
    later semester lists the removed code among its prerequisite
    alternatives, whether or not another alternative is placed; the
    course named is the first such in ledger order.  Otherwise every
    entry with that code leaves the semester and the credits of the
    course leave its total. *)
Theorem removeCourse_blocked_by_listed_prerequisite
        sem code st index plan course :
  JS.findIndex (named sem) (semesterPlans st) = Some index ->
  nth_error (semesterPlans st) index = Some plan ->
  find (fun c => String.eqb (course_code c) code) (courses plan) = Some course ->
  normalizeCourseCode code = code ->
  spelledNormally (skipn (S index) (semesterPlans st)) = true ->
  (forall d,
      firstDependent code index (semesterPlans st) = Some d ->
      (exists j later,
          (index < j)%nat /\ nth_error (semesterPlans st) j = Some later
          /\ In d (courses later))
      /\ (exists group alt,
             In group (prerequisites d) /\ In alt group
             /\ normalizeCourseCode (value alt) = normalizeCourseCode code)
      /\ removeCourse sem code st
         = setError (reasonMessage (RemovalBlocked (course_code d)) code sem)
                    st)
  /\ (firstDependent code index (semesterPlans st) = None ->
      (forall j later d group alt,
          (index < j)%nat -> nth_error (semesterPlans st) j = Some later ->
          In d (courses later) -> In group (prerequisites d) -> In alt group ->
          normalizeCourseCode (value alt) <> normalizeCourseCode code)
      /\ removeCourse sem code st
         = setPlans (updateAt index (takeOut code course) (semesterPlans st))
                    st).
Proof.
  intros Hi Hn Hc Hcode Hnormal.
  rewrite (removeCourse_found sem code st index plan course Hi Hn Hc).
  rewrite (firstRequiring_normal code index _ Hcode Hnormal).
  split.
  - intros d Hd. rewrite Hd. split; [|split; [|reflexivity]].
    + unfold firstDependent in Hd. apply find_some in Hd as [Hin _].
      apply in_flat_map in Hin as (later & Hl & Hin).
      apply In_nth_error in Hl as (k & Hk).
      exists (S index + k)%nat, later. split; [lia|]. split; auto.
      now rewrite <- nth_error_skipn.
    + unfold firstDependent in Hd. apply find_some in Hd as [_ Hreq].
      unfold listsAsPrerequisite in Hreq.
      apply existsb_exists in Hreq as (group & Hg & Hreq).
      apply existsb_exists in Hreq as (alt & Ha & Heq).
      apply String.eqb_eq in Heq. now exists group, alt.
  - intros Hnone. rewrite Hnone. split; [|reflexivity].
    intros j later d group alt Hlt Hj Hd Hg Ha Heq.
    unfold firstDependent in Hnone.
    assert (listsAsPrerequisite code d = true) as Hreq.
    { unfold listsAsPrerequisite. apply existsb_exists. exists group.
      split; auto. apply existsb_exists. exists alt. split; auto.
      now apply String.eqb_eq. }
    rewrite (find_none _ _ Hnone d) in Hreq; [discriminate|].
    apply in_flat_map. exists later. split; auto.
    apply nth_error_In with (n := (j - S index)%nat).
    rewrite nth_error_skipn.
    now replace (S index + (j - S index))%nat with j by lia.
Qed.

Lemma removeCourse_blocked_by_listed_prerequisite_witness :
  firstDependent "MTH2320" 0 (semesterPlans withAlternatives) = Some modelling
  /\ removeCourse "Fall 2024" "MTH2320" withAlternatives
     = setError (reasonMessage (RemovalBlocked "EGR3301") "MTH2320" "Fall 2024")
                withAlternatives.
Proof.
  split; [reflexivity|].
  apply (proj1 (removeCourse_blocked_by_listed_prerequisite
                  "Fall 2024" "MTH2320" withAlternatives 0%nat
                  (placeIn algebra
                     (placeIn statistics (emptyPlan "Fall 2024" regular)))
                  statistics eq_refl eq_refl eq_refl eq_refl eq_refl)
               modelling eq_refl).
Defined.

(** *** Outcomes of the two actions *)

(** C10.  A call of [addCourse] or [removeCourse] ends in one of three
    ways: nothing is found and the state is returned as it is; a rule
    refuses and only the error message is set, the plans staying as they
    were; or the plans are updated and the error is reset to null. *)
Theorem rejections_leave_plans_untouched sem course code st :
  (forall msg, semesterPlans (setError msg st) = semesterPlans st
               /\ courseData (setError msg st) = courseData st
               /\ userInfo (setError msg st) = userInfo st
               /\ error (setError msg st) = Some msg)
  /\ (forall plans, error (setPlans plans st) = None)
  /\ ((find (named sem) (semesterPlans st) = None
       /\ addCourse sem course st = st)
      \/ (exists reason,
             In reason [DuplicateInSemester; DuplicateElsewhere;
                        CreditLimitExceeded; PrerequisitesUnmet]
             /\ addCourse sem course st
                = setError (reasonMessage reason (course_code course) sem) st)
      \/ addCourse sem course st
         = setPlans (withCourseAdded sem course (semesterPlans st)) st)
  /\ (removeCourse sem code st = st
      \/ (exists dependent,
             removeCourse sem code st
             = setError (reasonMessage (RemovalBlocked dependent) code sem) st)
      \/ (exists index course,
             removeCourse sem code st
             = setPlans
                 (updateAt index (takeOut code course) (semesterPlans st)) st)).
Proof.
  split; [intros msg; repeat split|]. split; [reflexivity|]. split.
  - destruct (JS.findIndex (named sem) (semesterPlans st)) as [index|] eqn:Hi.
    + destruct (findIndex_Some _ _ _ Hi) as (target & Hn & _).
      rewrite (addCourse_found sem course st target index Hi Hn).
      right.
      destruct (duplicateInSemester course target);
        [left; exists DuplicateInSemester; simpl; auto|].
      destruct (duplicateElsewhere course sem (semesterPlans st));
        [left; exists DuplicateElsewhere; simpl; auto|].
      destruct (creditLimitExceeded course target);
        [left; exists CreditLimitExceeded; simpl; auto|].
      destruct (overridden _ _ || evaluate _ _);
        [right; reflexivity|left; exists PrerequisitesUnmet; simpl; auto 6].
    + left. apply findIndex_None in Hi. split; auto.
      unfold addCourse. fold (named sem). now rewrite Hi.
  - destruct (JS.findIndex (named sem) (semesterPlans st)) as [index|] eqn:Hi.
    + destruct (findIndex_Some _ _ _ Hi) as (plan & Hn & _).
      destruct (find (fun c => String.eqb (course_code c) code) (courses plan))
        as [found|] eqn:Hc.
      * rewrite (removeCourse_found sem code st index plan found Hi Hn Hc).
        right. destruct (firstRequiring code index (semesterPlans st)) as [d|].
        -- left. now exists (course_code d).
        -- right. now exists index, found.
      * left. unfold removeCourse. fold (named sem). now rewrite Hi, Hn, Hc.
    + left. unfold removeCourse. fold (named sem). now rewrite Hi.
Qed.

(** *** Spellings of a course code *)

(** C6 does not hold of the store: only the prerequisite rule of
    [addCourse] compares normalised codes.  "MTH 1303" and "MTH1303"
    normalise alike and the prerequisite rule takes one for the other,
    but the duplicate rules accept the second spelling beside the
    first, in the same semester and in another one, and [removeCourse]
    takes out "MTH 1303" although a later course lists "MTH1303". *)
Theorem raw_comparisons_miss_respellings :
  normalizeCourseCode "MTH 1303" = normalizeCourseCode "MTH1303"
  /\ addCourse "Spring 2025" calculus2 withCalculus1
     = setPlans (withCourseAdded "Spring 2025" calculus2
                                 (semesterPlans withCalculus1))
                withCalculus1
  /\ addCourse "Fall 2024" calculus1Respelled withCalculus1
     = setPlans (withCourseAdded "Fall 2024" calculus1Respelled
                                 (semesterPlans withCalculus1))
                withCalculus1
  /\ addCourse "Spring 2025" calculus1Respelled withCalculus1
     = setPlans (withCourseAdded "Spring 2025" calculus1Respelled
                                 (semesterPlans withCalculus1))
                withCalculus1
  /\ removeCourse "Fall 2024" "MTH 1303" withBothCalculus
     = setPlans (updateAt 0 (takeOut "MTH 1303" calculus1)
                          (semesterPlans withBothCalculus))
                withBothCalculus
  /\ evaluate (prerequisites calculus2)
              (availableCodes 1
                 (semesterPlans
                    (removeCourse "Fall 2024" "MTH 1303" withBothCalculus)))
     = false.
Proof. repeat split. Qed.

(** *** Resetting the plan *)

Lemma indexOf_unrecognised (term : string) :
  term <> "Fall" -> term <> "Spring" -> term <> "Summer" ->
  JS.indexOf semesterOrder term = -1.
Proof.
  intros H1 H2 H3. unfold JS.indexOf, semesterOrder. cbn [JS.indexOfFrom].
  rewrite (String.eqb_sym "Fall"), (String.eqb_sym "Spring"),
    (String.eqb_sym "Summer").
  apply String.eqb_neq in H1, H2, H3. now rewrite H1, H2, H3.
Qed.

(** C7, as the claim has it, fails: for a start term "Winter" the reset
    puts the three default semesters in place and leaves the error
    null. *)
Lemma unrecognised_start_gets_default :
  ~ In (startSemester winterStudent) ["Fall"; "Spring"; "Summer"]
  /\ semesterPlans (resetPlan winterState)
     = [ emptyPlan "Fall 2024" regular; emptyPlan "Spring 2025" regular;
         emptyPlan "Summer 2025" summer ]
  /\ error (resetPlan winterState) = None.
Proof.
  split; [|split; reflexivity].
  simpl. intros [H|[H|[H|[]]]]; discriminate.
Qed.

(** C7, amended.  When the start term is none of Fall, Spring and
    Summer, [resetPlan] substitutes the default sequence Fall 2024,
    Spring 2025, Summer 2025; it reports no error, then or ever. *)
Theorem resetPlan_unrecognised_start st info :
  userInfo st = Some info ->
  ~ In (startSemester info) ["Fall"; "Spring"; "Summer"] ->
  resetPlan st = setPlans invalidStartPlans st
  /\ forall st', error (resetPlan st') = None.
Proof.
  intros Hu Hnot. split.
  - unfold resetPlan. rewrite Hu, indexOf_unrecognised; auto;
      intros Heq; apply Hnot; simpl; auto.
  - intros st'. unfold resetPlan. destruct (userInfo st'); [|reflexivity].
    now destruct (_ =? -1).
Qed.

Lemma resetPlan_unrecognised_start_witness :
  resetPlan winterState = setPlans invalidStartPlans winterState.
Proof.
  apply (resetPlan_unrecognised_start winterState winterStudent eq_refl).
  simpl. intros [H|[H|[H|[]]]]; discriminate.
Defined.

Definition nextIndex (term : string) : Z :=
  (JS.indexOf semesterOrder term + 1) mod Z.of_nat (length semesterOrder).

Definition nextSemester (term : string) : string :=
  nth (Z.to_nat (nextIndex term)) semesterOrder "undefined".

Definition nextYear (year : Z) (term : string) : Z :=
  if nextIndex term =? 0 then year + 1 else year.

Lemma generateSemesters_turn fuel endYear endSemester year term plans :
  generateSemesters (S fuel) endYear endSemester year term plans =
    if beforeEnd endYear endSemester year term then
      generateSemesters fuel endYear endSemester (nextYear year term)
        (nextSemester term)
        (plans
         ++ [emptyPlan
               (term ++ " "
                ++ JS.toString (if String.eqb term "Fall" then year
                                else year + 1))
               (if String.eqb term "Summer" then summer else regular)])
    else plans.
Proof. reflexivity. Qed.

Lemma term_cases (term : string) :
  In term semesterOrder ->
  (JS.indexOf semesterOrder term = 0 /\ nextSemester term = "Spring"
   /\ nextIndex term = 1)
  \/ (JS.indexOf semesterOrder term = 1 /\ nextSemester term = "Summer"
      /\ nextIndex term = 2)
  \/ (JS.indexOf semesterOrder term = 2 /\ nextSemester term = "Fall"
      /\ nextIndex term = 0).
Proof.
  intros [<-|[<-|[<-|[]]]];
    [left|right; left|right; right]; repeat split.
Qed.

(** The bound handed to the loop of [resetPlan] is enough: the loop
    stops on its condition, so more turns change nothing. *)
Lemma generateSemesters_bound_suffices fuel extra endYear endSemester :
  forall currentYear currentSemester plans,
    In currentSemester semesterOrder ->
    (loopBound endYear currentYear currentSemester <= fuel)%nat ->
    generateSemesters (fuel + extra) endYear endSemester currentYear
                      currentSemester plans
    = generateSemesters fuel endYear endSemester currentYear currentSemester
                        plans.
Proof.
  induction fuel as [|fuel IH]; intros Y s plans Hs Hb.
  - assert (beforeEnd endYear endSemester Y s = false) as Hstop.
    { unfold beforeEnd, loopBound in *.
      destruct (term_cases s Hs) as [(Hi & _)|[(Hi & _)|(Hi & _)]];
        rewrite Hi in *;
        (destruct (Z.ltb_spec Y endYear); [lia|]);
        (destruct (Z.eqb_spec Y endYear); [lia|reflexivity]). }
    destruct extra; [reflexivity|].
    change (0 + S extra)%nat with (S extra).
    now rewrite generateSemesters_turn, Hstop.
  - change (S fuel + extra)%nat with (S (fuel + extra)).
    rewrite !generateSemesters_turn.
    destruct (beforeEnd endYear endSemester Y s); [|reflexivity].
    apply IH.
    + destruct (term_cases s Hs) as [(_ & -> & _)|[(_ & -> & _)|(_ & -> & _)]];
        simpl; auto.
    + unfold loopBound, nextYear in *.
      destruct (term_cases s Hs)
        as [(Hi & -> & ->)|[(Hi & -> & ->)|(Hi & -> & ->)]];
        rewrite Hi in Hb;
        [change (JS.indexOf semesterOrder "Spring") with 1
        |change (JS.indexOf semesterOrder "Summer") with 2
        |change (JS.indexOf semesterOrder "Fall") with 0];
        cbn [Z.eqb]; lia.
Qed.

(** The summer scenario: three courses of three credits fit under the
    cap of ten, the fourth does not. *)
Example summer_cap :
  error fullSummer = None
  /\ nth_error (semesterPlans fullSummer) 2
     = Some {| semester := "Summer 2025"; semesterType := summer;
               courses := [art1; art2; art3]; planCredits := JS.Num 9 |}
  /\ addCourse "Summer 2025" art4 fullSummer
     = setError (reasonMessage CreditLimitExceeded "ART 1304" "Summer 2025")
                fullSummer.
Proof. repeat split. Qed.

(** An expression without conjuncts, or with an empty conjunct, holds. *)
Example vacuous_truth (available : list string) :
  evaluate [] available = true /\ evaluate [[]] available = true.
Proof. split; reflexivity. Qed.

(** *** The invariants of the ledger *)

Section LedgerInvariants.

(** What every semester of a reachable ledger satisfies. *)
Definition planOk (plan : SemesterPlan) : Prop :=
  NoDup (map course_code (courses plan))
  /\ planCredits plan = creditSum (courses plan)
  /\ Forall hasIntegerCredits (courses plan).

(** Two placements of one code are in semesters of one name. *)
Definition codesInOneSemester (ledger : list SemesterPlan) : Prop :=
  forall p q c d,
    In p ledger -> In q ledger -> In c (courses p) -> In d (courses q) ->
    course_code c = course_code d -> semester p = semester q.

Definition ledgerOk (ledger : list SemesterPlan) : Prop :=
  NoDup (map semester ledger)
  /\ Forall planOk ledger
  /\ codesInOneSemester ledger.

Definition creditsOf (c : Course) : Z :=
  match JS.parseInt (credits c) with
  | JS.Num n => n
  | JS.NaN => 0
  end.

Definition total (cs : list Course) : Z :=
  fold_right (fun c sum => creditsOf c + sum) 0 cs.

Definition sumFrom (start : JS.number) (cs : list Course) : JS.number :=
  fold_left (fun sum c => JS.add sum (JS.parseInt (credits c))) cs start.

Lemma sumFrom_total cs :
  Forall hasIntegerCredits cs ->
  forall a, sumFrom (JS.Num a) cs = JS.Num (a + total cs).
Proof.
  induction 1 as [|c cs [n Hn] _ IH]; intros a.
  - simpl. f_equal. lia.
  - change (sumFrom (JS.Num a) (c :: cs))
      with (sumFrom (JS.add (JS.Num a) (JS.parseInt (credits c))) cs).
    change (total (c :: cs)) with (creditsOf c + total cs).
    unfold creditsOf. rewrite Hn. simpl JS.add.
    rewrite IH. f_equal. lia.
Qed.

Lemma creditSum_total cs :
  Forall hasIntegerCredits cs -> creditSum cs = JS.Num (total cs).
Proof. intros H. apply (sumFrom_total cs H 0). Qed.

Lemma creditSum_append cs c :
  creditSum (cs ++ [c]) = JS.add (creditSum cs) (JS.parseInt (credits c)).
Proof. unfold creditSum. now rewrite fold_left_app. Qed.

Definition otherCode (code : string) (c : Course) : bool :=
  negb (String.eqb (course_code c) code).

Lemma filter_absent code cs :
  ~ In code (map course_code cs) -> filter (otherCode code) cs = cs.
Proof.
  induction cs as [|c cs IH]; simpl; intros H; auto.
  unfold otherCode at 1. destruct (String.eqb_spec (course_code c) code).
  - exfalso. auto.
  - simpl. f_equal. auto.
Qed.

(** Taking out the one course of a code lowers the sum by its
    credits. *)
Lemma total_without code cs course :
  NoDup (map course_code cs) ->
  find (fun c => String.eqb (course_code c) code) cs = Some course ->
  total (filter (otherCode code) cs) = total cs - creditsOf course.
Proof.
  induction cs as [|c cs IH]; simpl; intros Hnd Hf; [discriminate|].
  inversion Hnd as [|? ? Hnotin Hnd']; subst.
  unfold otherCode at 1. destruct (String.eqb_spec (course_code c) code).
  - injection Hf as <-. simpl. subst code.
    rewrite (filter_absent _ _ Hnotin). lia.
  - simpl. rewrite (IH Hnd' Hf). lia.
Qed.

Lemma NoDup_codes_filter (f : Course -> bool) cs :
  NoDup (map course_code cs) -> NoDup (map course_code (filter f cs)).
Proof.
  induction cs as [|c cs IH]; simpl; intros H; auto.
  inversion H as [|? ? Hnotin Hnd]; subst.
  destruct (f c); simpl; auto. constructor; auto.
  intros Hin. apply Hnotin. apply in_map_iff in Hin as (x & Hx & Hin).
  apply in_map_iff. exists x. split; auto.
  now apply filter_In in Hin as [Hin _].
Qed.

Lemma same_name_same_plan ledger p q :
  NoDup (map semester ledger) -> In p ledger -> In q ledger ->
  semester p = semester q -> p = q.
Proof.
  induction ledger as [|x ledger IH]; simpl; intros Hnd Hp Hq Heq; [easy|].
  inversion Hnd as [|? ? Hnotin Hnd']; subst.
  destruct Hp as [<-|Hp], Hq as [<-|Hq]; auto.
  - exfalso. apply Hnotin. rewrite Heq. now apply in_map.
  - exfalso. apply Hnotin. rewrite <- Heq. now apply in_map.
Qed.

Lemma updateAt_names {A : Type} (f : A -> A) (g : A -> string) i xs :
  (forall x, g (f x) = g x) -> map g (updateAt i f xs) = map g xs.
Proof.
  intros H. revert i. induction xs as [|x xs IH]; intros [|i]; simpl; auto.
  - now rewrite H.
  - now rewrite IH.
Qed.

Lemma updateAt_In {A : Type} (f : A -> A) i xs y :
  In y (updateAt i f xs) ->
  In y xs \/ exists x, nth_error xs i = Some x /\ y = f x.
Proof.
  revert i. induction xs as [|x xs IH]; intros [|i]; simpl; auto.
  - intros [<-|H]; eauto.
  - intros [<-|H]; auto. destruct (IH i H) as [?|?]; auto.
Qed.

Lemma updateAt_Forall {A : Type} (P : A -> Prop) (f : A -> A) i xs x :
  Forall P xs -> nth_error xs i = Some x -> P (f x) ->
  Forall P (updateAt i f xs).
Proof.
  intros HF. revert i. induction HF as [|a xs Ha HF IH]; intros [|i];
    simpl; intros Hn Hp; try discriminate.
  - injection Hn as ->. constructor; auto.
  - constructor; auto.
Qed.

(** Placing a course that passed the two duplicate rules keeps the
    ledger well formed. *)
Lemma ledgerOk_add sem course ledger target :
  ledgerOk ledger ->
  find (named sem) ledger = Some target ->
  duplicateInSemester course target = false ->
  duplicateElsewhere course sem ledger = false ->
  hasIntegerCredits course ->
  ledgerOk (withCourseAdded sem course ledger).
Proof.
  intros (Hnames & Hplans & Hcodes) Hfind Hdup1 Hdup2 Hint.
  pose proof (find_named _ _ _ Hfind) as Hsem.
  apply find_some in Hfind as [Htarget _].
  assert (forall p, In p ledger -> semester p = sem -> p = target) as Hone.
  { intros p Hp Hn. apply (same_name_same_plan ledger); congruence. }
  assert (forall p d, In p ledger -> semester p <> sem -> In d (courses p) ->
                      course_code d <> course_code course) as Helse.
  { intros p d Hp Hn Hd Heq. unfold duplicateElsewhere in Hdup2.
    rewrite <- not_true_iff_false in Hdup2. apply Hdup2.
    apply existsb_exists. exists p. split; auto.
    apply andb_true_iff. split.
    - apply negb_true_iff. now apply String.eqb_neq.
    - apply existsb_exists. exists d. split; auto. now apply String.eqb_eq. }
  assert (~ In (course_code course) (map course_code (courses target)))
    as Hfresh.
  { intros Hin. apply in_map_iff in Hin as (d & Heq & Hd).
    unfold duplicateInSemester in Hdup1.
    rewrite <- not_true_iff_false in Hdup1. apply Hdup1.
    apply existsb_exists. exists d. split; auto. now apply String.eqb_eq. }
  rewrite withCourseAdded_map. split; [|split].
  - rewrite map_map.
    replace (map (fun x => semester (if named sem x then placeIn course x
                                     else x)) ledger)
      with (map semester ledger); auto.
    apply map_ext. intros p. now destruct (named sem p).
  - apply Forall_forall. intros p' Hp'.
    apply in_map_iff in Hp' as (p & <- & Hp).
    rewrite Forall_forall in Hplans. specialize (Hplans p Hp).
    destruct (named sem p) eqn:Hnamed; auto.
    apply String.eqb_eq in Hnamed. rewrite (Hone p Hp Hnamed) in *.
    destruct Hplans as (Hnd & Hsum & Hall). repeat split; simpl.
    + rewrite map_app. simpl. apply NoDup_app; [| |]; auto.
      * constructor; [intros []|constructor].
      * intros x Hx [<-|[]]. auto.
    + now rewrite creditSum_append, Hsum.
    + apply Forall_app. split; auto.
  - intros p' q' c d Hp' Hq' Hc Hd Heq.
    apply in_map_iff in Hp' as (p & <- & Hp).
    apply in_map_iff in Hq' as (q & <- & Hq).
    assert (forall r, semester (if named sem r then placeIn course r else r)
                      = semester r) as Hkeep
      by (intros r; now destruct (named sem r)).
    rewrite !Hkeep.
    assert (forall r x, In r ledger ->
              In x (courses (if named sem r then placeIn course r else r)) ->
              In x (courses r) \/ (semester r = sem /\ x = course)) as Hsplit.
    { intros r x Hr Hx. destruct (named sem r) eqn:Hnamed; auto.
      simpl in Hx. apply in_app_or in Hx as [Hx|[<-|[]]]; auto.
      right. split; auto. now apply String.eqb_eq. }
    destruct (Hsplit p c Hp Hc) as [Hc'|[Hpn ->]];
      destruct (Hsplit q d Hq Hd) as [Hd'|[Hqn ->]].
    + exact (Hcodes p q c d Hp Hq Hc' Hd' Heq).
    + destruct (String.eqb_spec (semester p) sem) as [|Hne]; [congruence|].
      exfalso. exact (Helse p c Hp Hne Hc' Heq).
    + destruct (String.eqb_spec (semester q) sem) as [|Hne]; [congruence|].
      exfalso. exact (Helse q d Hq Hne Hd' (eq_sym Heq)).
    + congruence.
Qed.

(** Taking a placed course out keeps the ledger well formed. *)
Lemma ledgerOk_remove code course ledger index plan :
  ledgerOk ledger ->
  nth_error ledger index = Some plan ->
  find (fun c => String.eqb (course_code c) code) (courses plan)
  = Some course ->
  ledgerOk (updateAt index (takeOut code course) ledger).
Proof.
  intros (Hnames & Hplans & Hcodes) Hn Hf.
  pose proof (nth_error_In _ _ Hn) as Hplan.
  split; [|split].
  - now rewrite updateAt_names.
  - apply (updateAt_Forall planOk _ index ledger plan); auto.
    rewrite Forall_forall in Hplans.
    destruct (Hplans plan Hplan) as (Hnd & Hsum & Hall).
    assert (Forall hasIntegerCredits (filter (otherCode code) (courses plan)))
      as Hall'.
    { rewrite Forall_forall in *. intros x Hx.
      apply filter_In in Hx as [Hx _]. auto. }
    repeat split; simpl.
    + now apply NoDup_codes_filter.
    + fold (otherCode code). rewrite Hsum, !creditSum_total; auto.
      rewrite (total_without code _ course Hnd Hf).
      apply find_some in Hf as [Hin _].
      rewrite Forall_forall in Hall. destruct (Hall course Hin) as [n Hc].
      unfold creditsOf. now rewrite Hc.
    + exact Hall'.
  - assert (forall p', In p' (updateAt index (takeOut code course) ledger) ->
              exists p, In p ledger /\ semester p = semester p'
                        /\ incl (courses p') (courses p)) as Hfrom.
    { intros p' Hp'. apply updateAt_In in Hp' as [Hp'|(x & Hx & ->)].
      - exists p'. repeat split; auto. apply incl_refl.
      - assert (x = plan) as -> by congruence.
        exists plan. repeat split; auto. simpl.
        intros c Hc. now apply filter_In in Hc as [Hc _]. }
    intros p' q' c d Hp' Hq' Hc Hd Heq.
    destruct (Hfrom p' Hp') as (p & Hp & <- & Hpi).
    destruct (Hfrom q' Hq') as (q & Hq & <- & Hqi).
    exact (Hcodes p q c d Hp Hq (Hpi c Hc) (Hqi d Hd) Heq).
Qed.

Lemma perform_ledgerOk st op :
  ledgerOk (semesterPlans st) -> addsIntegerCredits op ->
  ledgerOk (semesterPlans (perform st op)).
Proof.
  intros Hok Hint. destruct op as [sem course|sem code]; simpl in *.
  - destruct (JS.findIndex (named sem) (semesterPlans st)) as [index|] eqn:Hi.
    + destruct (findIndex_Some _ _ _ Hi) as (target & Hn & _ & Hf & _).
      rewrite (addCourse_found sem course st target index Hi Hn).
      destruct (duplicateInSemester course target) eqn:H1; auto.
      destruct (duplicateElsewhere course sem (semesterPlans st)) eqn:H2;
        auto.
      destruct (creditLimitExceeded course target); auto.
      destruct (overridden _ _ || evaluate _ _); auto.
      simpl. now apply (ledgerOk_add sem course _ target).
    + apply findIndex_None in Hi. unfold addCourse. fold (named sem).
      now rewrite Hi.
  - destruct (JS.findIndex (named sem) (semesterPlans st)) as [index|] eqn:Hi.
    + destruct (findIndex_Some _ _ _ Hi) as (plan & Hn & _).
      destruct (find (fun c => String.eqb (course_code c) code)
                     (courses plan)) as [course|] eqn:Hc.
      * rewrite (removeCourse_found sem code st index plan course Hi Hn Hc).
        destruct (firstRequiring code index (semesterPlans st)); auto.
        simpl. now apply (ledgerOk_remove code course _ index plan).
      * unfold removeCourse. fold (named sem). now rewrite Hi, Hn, Hc.
    + unfold removeCourse. fold (named sem). now rewrite Hi.
Qed.

Lemma run_ledgerOk ops :
  forall st,
    ledgerOk (semesterPlans st) -> Forall addsIntegerCredits ops ->
    ledgerOk (semesterPlans (run ops st)).
Proof.
  induction ops as [|op ops IH]; intros st Hok Hall; simpl; auto.
  inversion Hall; subst. apply IH; auto. now apply perform_ledgerOk.
Qed.

Lemma emptyLedger_ok ledger : emptyLedger ledger -> ledgerOk ledger.
Proof.
  intros [Hnames Hempty]. rewrite Forall_forall in Hempty.
  split; [auto|split].
  - apply Forall_forall. intros p Hp. unfold planOk.
    destruct (Hempty p Hp) as [-> ->]. repeat split; constructor.
  - intros p q c d Hp _ Hc. destruct (Hempty p Hp) as [Hnil _].
    rewrite Hnil in Hc. destruct Hc.
Qed.

Lemma ledgerOk_invariants ledger :
  ledgerOk ledger -> uniqueAcrossSemesters ledger /\ creditsAddUp ledger.
Proof.
  intros (Hnames & Hplans & Hcodes). split.
  - intros i j p q c d Hij Hi Hj Hc Hd Heq. apply Hij.
    apply (proj1 (NoDup_nth_error _) Hnames).
    + rewrite length_map. apply nth_error_Some. congruence.
    + rewrite !nth_error_map, Hi, Hj. simpl. f_equal.
      exact (Hcodes p q c d (nth_error_In _ _ Hi) (nth_error_In _ _ Hj)
                    Hc Hd Heq).
  - intros plan Hplan. rewrite Forall_forall in Hplans.
    now destruct (Hplans plan Hplan) as (_ & Hsum & _).
Qed.

End LedgerInvariants.

(** Outside the data model: credits that do not read as a number make
    the stored total [NaN], and it stays [NaN] when that course leaves. *)
Remark non_numeric_credits_break_the_sum :
  ~ creditsAddUp
      (semesterPlans
         (run [ Add "Fall 2024" seminar; Add "Fall 2024" calculus1;
                Remove "Fall 2024" "FYE 1101" ] fresh)).
Proof.
  intros H.
  specialize (H {| semester := "Fall 2024"; semesterType := regular;
                   courses := [calculus1]; planCredits := JS.NaN |}
                (or_introl eq_refl)).
  discriminate.
Qed.

(** *** Every reset gives an empty plan *)

Lemma toString_inj a b : JS.toString a = JS.toString b -> a = b.
Proof.
  unfold JS.toString. intros H. apply DecimalZ.to_int_inj.
  assert (forall z, NilZero.int_of_string (NilZero.string_of_int (Z.to_int z))
                    = Some (Z.to_int z)) as Hread.
  { intros z. apply NilZero.isi; destruct z; simpl; try discriminate;
      intros [= E]; now apply DecimalPos.Unsigned.to_uint_nonnil in E. }
  apply (f_equal NilZero.int_of_string) in H. rewrite !Hread in H.
  now injection H.
Qed.

Definition semesterName (year : Z) (term : string) : string :=
  term ++ " " ++ JS.toString (if String.eqb term "Fall" then year else year + 1).

(** The place of a term of an academic year in the run of terms. *)
Definition position (year : Z) (term : string) : Z :=
  3 * year + JS.indexOf semesterOrder term.

Lemma semesterName_inj y t y' t' :
  In t semesterOrder -> In t' semesterOrder ->
  semesterName y t = semesterName y' t' -> y = y' /\ t = t'.
Proof.
  intros [<-|[<-|[<-|[]]]] [<-|[<-|[<-|[]]]]; unfold semesterName;
    cbn -[JS.toString]; intros H; try discriminate;
    injection H as H; apply toString_inj in H; split; (lia || reflexivity).
Qed.

Lemma indexOf_recognised (term : string) :
  JS.indexOf semesterOrder term <> -1 -> In term semesterOrder.
Proof.
  unfold JS.indexOf, semesterOrder. cbn [JS.indexOfFrom].
  destruct (String.eqb_spec "Fall" term); [simpl; auto|].
  destruct (String.eqb_spec "Spring" term); [simpl; auto|].
  destruct (String.eqb_spec "Summer" term); [simpl; auto|].
  intros H. now destruct H.
Qed.

Definition isEmptyPlan (plan : SemesterPlan) : Prop :=
  courses plan = [] /\ planCredits plan = JS.Num 0.

Lemma generateSemesters_empty fuel endYear endSemester :
  forall year term plans,
    Forall isEmptyPlan plans ->
    Forall isEmptyPlan
           (generateSemesters fuel endYear endSemester year term plans).
Proof.
  induction fuel as [|fuel IH]; intros year term plans Hall; auto.
  rewrite generateSemesters_turn.
  destruct (beforeEnd endYear endSemester year term); auto.
  apply IH, Forall_app. split; auto. repeat constructor.
Qed.

Lemma generateSemesters_names fuel endYear endSemester :
  forall year term plans,
    In term semesterOrder ->
    NoDup (map semester plans) ->
    (forall n, In n (map semester plans) ->
               exists y t, In t semesterOrder /\ n = semesterName y t
                           /\ position y t < position year term) ->
    NoDup (map semester
               (generateSemesters fuel endYear endSemester year term plans)).
Proof.
  induction fuel as [|fuel IH]; intros year term plans Hterm Hnd Hbefore; auto.
  rewrite generateSemesters_turn.
  destruct (beforeEnd endYear endSemester year term); auto.
  assert (position (nextYear year term) (nextSemester term)
          = position year term + 1) as Hnext.
  { unfold position, nextYear.
    destruct (term_cases term Hterm)
      as [(Hi & -> & ->)|[(Hi & -> & ->)|(Hi & -> & ->)]];
      rewrite Hi;
      [change (JS.indexOf semesterOrder "Spring") with 1
      |change (JS.indexOf semesterOrder "Summer") with 2
      |change (JS.indexOf semesterOrder "Fall") with 0];
      cbn [Z.eqb]; lia. }
  apply IH.
  - destruct (term_cases term Hterm)
      as [(_ & -> & _)|[(_ & -> & _)|(_ & -> & _)]]; simpl; auto.
  - rewrite map_app. apply NoDup_app; auto.
    + constructor; [intros []|constructor].
    + intros n Hn [<-|[]].
      destruct (Hbefore _ Hn) as (y & t & Ht & Heq & Hlt).
      change (semesterName year term = semesterName y t) in Heq.
      apply semesterName_inj in Heq as [-> ->]; auto. lia.
  - intros n Hn. rewrite map_app in Hn. apply in_app_or in Hn as [Hn|[<-|[]]].
    + destruct (Hbefore _ Hn) as (y & t & Ht & Heq & Hlt).
      exists y, t. repeat split; auto. lia.
    + exists year, term. repeat split; auto. lia.
Qed.

Lemma resetPlan_emptyLedger st : emptyLedger (semesterPlans (resetPlan st)).
Proof.
  unfold resetPlan. destruct (userInfo st) as [info|].
  - destruct (Z.eqb_spec (JS.indexOf semesterOrder (startSemester info)) (-1))
      as [|Hterm].
    + split; [|repeat constructor].
      repeat (constructor; [simpl; intuition discriminate|]). constructor.
    + apply indexOf_recognised in Hterm. split.
      * apply generateSemesters_names; auto; [constructor|intros n []].
      * apply generateSemesters_empty. constructor.
  - split; [|repeat constructor].
    repeat (constructor; [simpl; intuition discriminate|]). constructor.
Qed.


End StoreProofs.

(** ** Facts about the generator *)

Module GeneratorProofs.
Import Generator.

Definition isFoundation (c : Course) : bool :=
  match category c with
  | Some k => String.eqb k "Foundation"
  | None => false
  end.

Lemma foundationFirst_cases a b :
  foundationFirst a b =
    if isFoundation a && negb (isFoundation b) then -1
    else if isFoundation b && negb (isFoundation a) then 1
    else 0.
Proof. reflexivity. Qed.

Lemma foundationFirst_le a b :
  foundationFirst a b <= 0 <-> (isFoundation b = true -> isFoundation a = true).
Proof.
  rewrite foundationFirst_cases.
  destruct (isFoundation a), (isFoundation b); simpl; split; intros H;
    auto; try lia; try discriminate.
Qed.

Lemma foundationFirst_consistent : Consistent foundationFirst.
Proof.
  split.
  - intros a. rewrite foundationFirst_cases. now destruct (isFoundation a).
  - intros a b. rewrite !foundationFirst_cases.
    destruct (isFoundation a), (isFoundation b); simpl; lia.
  - intros a b c. rewrite !foundationFirst_le. auto.
  - intros a b c. rewrite !foundationFirst_cases.
    destruct (isFoundation a), (isFoundation b), (isFoundation c); simpl; lia.
Qed.

(** *** A list ordered by the comparator is its own partition *)

Lemma filter_none {A : Type} (f : A -> bool) (l : list A) :
  (forall x, In x l -> f x = false) -> filter f l = [].
Proof.
  induction l as [|a l IH]; simpl; intros H; auto.
  rewrite (H a) by auto. auto.
Qed.

Lemma filter_all {A : Type} (f : A -> bool) (l : list A) :
  (forall x, In x l -> f x = true) -> filter f l = l.
Proof.
  induction l as [|a l IH]; simpl; intros H; auto.
  rewrite (H a) by auto. f_equal. auto.
Qed.

Lemma ordered_is_partition (l : list Course) :
  Ordered foundationFirst l ->
  l = (filter isFoundation l
       ++ filter (fun c => negb (isFoundation c)) l)%list.
Proof.
  induction 1 as [|x r Hsorted IH Hall]; simpl; auto.
  destruct (isFoundation x) eqn:Hx; simpl.
  - now rewrite <- IH.
  - rewrite Forall_forall in Hall.
    assert (forall y, In y r -> isFoundation y = false) as Hnone.
    { intros y Hy. destruct (isFoundation y) eqn:Hfy; auto.
      pose proof (proj1 (foundationFirst_le x y) (Hall y Hy) Hfy). congruence. }
    rewrite (filter_none _ _ Hnone), filter_all; auto.
    intros y Hy. now rewrite (Hnone y Hy).
Qed.

Definition aFoundationCourse : Course :=
  {| code := ""; name := ""; credits := 0; prerequisites := [];
     semester := None; category := Some "Foundation"; required := true;
     isPlaceholder := None; courseType := None |}.

Definition anUncategorisedCourse : Course :=
  {| code := ""; name := ""; credits := 0; prerequisites := [];
     semester := None; category := None; required := true;
     isPlaceholder := None; courseType := None |}.

(** Any engine's [sort] with this comparator gives the foundation
    courses in their order, then the others in theirs. *)
Lemma sort_foundationFirst (engine : ArraySort) (l : list Course) :
  sortWith engine foundationFirst l
  = (filter isFoundation l ++ filter (fun c => negb (isFoundation c)) l)%list.
Proof.
  pose proof (sort_ordered engine foundationFirst l foundationFirst_consistent)
    as Hord.
  pose proof (sort_stable engine foundationFirst l foundationFirst_consistent)
    as Hst.
  rewrite (ordered_is_partition _ Hord) at 1. f_equal.
  - rewrite <- (filter_ext (fun y => foundationFirst aFoundationCourse y =? 0)).
    + rewrite (Hst aFoundationCourse). apply filter_ext.
      intros y. rewrite foundationFirst_cases.
      change (isFoundation aFoundationCourse) with true.
      now destruct (isFoundation y).
    + intros y. rewrite foundationFirst_cases.
      change (isFoundation aFoundationCourse) with true.
      now destruct (isFoundation y).
  - rewrite <- (filter_ext (fun y => foundationFirst anUncategorisedCourse y =? 0)).
    + rewrite (Hst anUncategorisedCourse). apply filter_ext.
      intros y. rewrite foundationFirst_cases.
      change (isFoundation anUncategorisedCourse) with false.
      now destruct (isFoundation y).
    + intros y. rewrite foundationFirst_cases.
      change (isFoundation anUncategorisedCourse) with false.
      now destruct (isFoundation y).
Qed.

(** *** Insertion sort is such an engine *)

Section InsertionSort.
Variable cmp : Course -> Course -> Z.
Hypothesis consistent : Consistent cmp.

Lemma insert_In x l z : In z (insert cmp x l) <-> z = x \/ In z l.
Proof.
  induction l as [|y r IH]; simpl.
  - intuition.
  - destruct (cmp x y <=? 0); simpl; [intuition|].
    rewrite IH. intuition.
Qed.

Lemma insert_ordered x l : Ordered cmp l -> Ordered cmp (insert cmp x l).
Proof.
  induction 1 as [|y r Hsorted IH Hall]; simpl.
  - repeat constructor.
  - destruct (Z.leb_spec (cmp x y) 0) as [Hle|Hgt].
    + constructor; [now constructor|]. constructor; auto.
      rewrite Forall_forall in *. intros z Hz.
      exact (cmp_trans_le cmp consistent x y z Hle (Hall z Hz)).
    + constructor; auto. apply Forall_forall. intros z Hz.
      apply insert_In in Hz as [->|Hz].
      * assert (cmp y x < 0)
          by (apply (cmp_antisym cmp consistent); lia). lia.
      * rewrite Forall_forall in Hall. auto.
Qed.

Lemma insert_stable x l z :
  filter (fun y => cmp z y =? 0) (insert cmp x l)
  = filter (fun y => cmp z y =? 0) (x :: l).
Proof.
  induction l as [|y r IH]; auto.
  simpl insert. destruct (Z.leb_spec (cmp x y) 0) as [Hle|Hgt]; auto.
  change (filter (fun y0 => cmp z y0 =? 0) (y :: insert cmp x r))
    with (if cmp z y =? 0
          then y :: filter (fun y0 => cmp z y0 =? 0) (insert cmp x r)
          else filter (fun y0 => cmp z y0 =? 0) (insert cmp x r)).
  rewrite IH. simpl.
  destruct (Z.eqb_spec (cmp z x) 0) as [Hx|Hx];
    destruct (Z.eqb_spec (cmp z y) 0) as [Hy|Hy]; auto.
  pose proof (cmp_trans_eq cmp consistent z x y Hx Hy). lia.
Qed.

Lemma insertionSort_ordered l : Ordered cmp (insertionSort cmp l).
Proof.
  induction l as [|a l IH]; simpl; [constructor|]. now apply insert_ordered.
Qed.

Lemma insertionSort_stable l : Stable cmp l (insertionSort cmp l).
Proof.
  intros z. induction l as [|a l IH]; auto.
  simpl insertionSort. rewrite insert_stable. simpl. now rewrite IH.
Qed.

Lemma cmp_zero_sym a b : cmp a b = 0 -> cmp b a = 0.
Proof.
  intros H. pose proof (cmp_antisym cmp consistent a b).
  pose proof (cmp_antisym cmp consistent b a). lia.
Qed.

Lemma insertLast_In x l z : In z (insertLast cmp x l) <-> z = x \/ In z l.
Proof.
  induction l as [|y r IH]; simpl.
  - intuition.
  - destruct (cmp x y <? 0); simpl; [intuition|].
    rewrite IH. intuition.
Qed.

Lemma insertLast_ordered x l : Ordered cmp l -> Ordered cmp (insertLast cmp x l).
Proof.
  induction 1 as [|y r Hsorted IH Hall]; simpl.
  - repeat constructor.
  - destruct (Z.ltb_spec (cmp x y) 0) as [Hlt|Hge].
    + constructor; [now constructor|]. constructor; [lia|].
      rewrite Forall_forall in *. intros z Hz.
      apply (cmp_trans_le cmp consistent x y z); [lia|auto].
    + constructor; auto. apply Forall_forall. intros z Hz.
      apply insertLast_In in Hz as [->|Hz].
      * pose proof (cmp_antisym cmp consistent x y). lia.
      * rewrite Forall_forall in Hall. auto.
Qed.

Lemma insertLast_stable x l z :
  Ordered cmp l ->
  filter (fun y => cmp z y =? 0) (insertLast cmp x l)
  = (filter (fun y => cmp z y =? 0) l ++ filter (fun y => cmp z y =? 0) [x])%list.
Proof.
  induction 1 as [|y r Hsorted IH Hall]; auto.
  simpl insertLast. destruct (Z.ltb_spec (cmp x y) 0) as [Hlt|Hge].
  - change (filter (fun y0 => cmp z y0 =? 0) (x :: y :: r))
      with (if cmp z x =? 0 then x :: filter (fun y0 => cmp z y0 =? 0) (y :: r)
            else filter (fun y0 => cmp z y0 =? 0) (y :: r)).
    change (filter (fun y0 => cmp z y0 =? 0) [x])
      with (if cmp z x =? 0 then [x] else []).
    destruct (Z.eqb_spec (cmp z x) 0) as [Hx|Hx]; [|now rewrite app_nil_r].
    rewrite filter_none; auto.
    intros w Hw. apply Z.eqb_neq. intros Hzw.
    pose proof (cmp_trans_eq cmp consistent z x w Hx Hzw) as Hxw.
    apply cmp_zero_sym in Hxw.
    assert (cmp y w <= 0) as Hyw.
    { destruct Hw as [<-|Hw].
      - rewrite (cmp_refl cmp consistent). lia.
      - rewrite Forall_forall in Hall. auto. }
    assert (cmp y x <= 0)
      by (apply (cmp_trans_le cmp consistent y w x); [auto|lia]).
    pose proof (cmp_antisym cmp consistent x y). lia.
  - change (filter (fun y0 => cmp z y0 =? 0) (y :: insertLast cmp x r))
      with (if cmp z y =? 0
            then y :: filter (fun y0 => cmp z y0 =? 0) (insertLast cmp x r)
            else filter (fun y0 => cmp z y0 =? 0) (insertLast cmp x r)).
    rewrite IH. simpl. now destruct (cmp z y =? 0).
Qed.

Lemma leftToRight_from sorted l z :
  Ordered cmp sorted ->
  Ordered cmp (fold_left (fun acc x => insertLast cmp x acc) l sorted)
  /\ filter (fun y => cmp z y =? 0)
            (fold_left (fun acc x => insertLast cmp x acc) l sorted)
     = (filter (fun y => cmp z y =? 0) sorted
        ++ filter (fun y => cmp z y =? 0) l)%list.
Proof.
  revert sorted. induction l as [|a l IH]; intros sorted Hs.
  - split; auto. simpl. now rewrite app_nil_r.
  - destruct (IH (insertLast cmp a sorted) (insertLast_ordered a sorted Hs))
      as [Hord Hfil].
    split; auto. simpl fold_left. rewrite Hfil, insertLast_stable; auto.
    rewrite <- app_assoc. f_equal. simpl. now destruct (cmp z a =? 0).
Qed.

Lemma leftToRightSort_ordered l : Ordered cmp (leftToRightSort cmp l).
Proof. apply (leftToRight_from [] l aFoundationCourse). constructor. Qed.

Lemma leftToRightSort_stable l : Stable cmp l (leftToRightSort cmp l).
Proof. intros z. apply (leftToRight_from [] l z). constructor. Qed.

End InsertionSort.

Definition insertionEngine : ArraySort :=
  {| sortWith := insertionSort;
     sort_ordered := fun cmp l H => insertionSort_ordered cmp H l;
     sort_stable := fun cmp l H => insertionSort_stable cmp H l |}.

Definition leftToRightEngine : ArraySort :=
  {| sortWith := leftToRightSort;
     sort_ordered := fun cmp l H => leftToRightSort_ordered cmp H l;
     sort_stable := fun cmp l H => leftToRightSort_stable cmp H l |}.

(** *** The plan does not depend on the engine *)

Section TwoEngines.
Variables engine1 engine2 : ArraySort.
Variable requirements : MajorRequirements.
Variable options : DegreePlanOptions.

Lemma getAvailableGenEdCourses_engine taken cc maxCourses :
  getAvailableGenEdCourses (sortWith engine1) requirements options
                           taken cc maxCourses
  = getAvailableGenEdCourses (sortWith engine2) requirements options
                             taken cc maxCourses.
Proof.
  unfold getAvailableGenEdCourses. now rewrite !sort_foundationFirst.
Qed.

Lemma planOneSemester_engine s :
  planOneSemester (sortWith engine1) requirements options s
  = planOneSemester (sortWith engine2) requirements options s.
Proof.
  unfold planOneSemester. now rewrite !getAvailableGenEdCourses_engine.
Qed.

Lemma planRemaining_engine fuel :
  forall s,
    planRemaining (sortWith engine1) requirements options fuel s
    = planRemaining (sortWith engine2) requirements options fuel s.
Proof.
  induction fuel as [|fuel IH]; intros s; simpl; auto.
  destruct ((currentSemester s <=? MAX_SEMESTERS)
            && (totalSoFar s <? totalCredits requirements)); auto.
  now rewrite planOneSemester_engine, IH.
Qed.

End TwoEngines.

(** The loop of the generator stops on its condition: past the eleven
    turns from semester 2 to semester 12 more turns change nothing. *)
Lemma planRemaining_bound_suffices sort requirements options fuel extra :
  forall s,
    (Z.to_nat (MAX_SEMESTERS + 1 - currentSemester s) <= fuel)%nat ->
    planRemaining sort requirements options (fuel + extra) s
    = planRemaining sort requirements options fuel s.
Proof.
  unfold MAX_SEMESTERS.
  induction fuel as [|fuel IH]; intros s Hb.
  - destruct extra; simpl; auto.
    destruct (Z.leb_spec (currentSemester s) MAX_SEMESTERS) as [Hle|Hgt];
      unfold MAX_SEMESTERS in *; [lia|reflexivity].
  - simpl.
    destruct ((currentSemester s <=? MAX_SEMESTERS)
              && (totalSoFar s <? totalCredits requirements)); auto.
    apply IH.
    assert (currentSemester (planOneSemester sort requirements options s)
            = currentSemester s + 1) as ->; [|lia].
    unfold planOneSemester.
    match goal with
    | |- context [let '(_, _) := ?e in _] => destruct e as [[|c cs] rest]
    end; reflexivity.
Qed.

(** C8.  Two runs of [generateDegreePlan] on the same requirements and
    options return the same sequence of semester plans, whichever
    engines carry them out: nothing in the plan depends on how [sort]
    is implemented, as long as it is ordered and stable. *)
Theorem generateDegreePlan_deterministic
        (engine1 engine2 : ArraySort) requirements options :
  generateDegreePlan (sortWith engine1) requirements options
  = generateDegreePlan (sortWith engine2) requirements options.
Proof.
  unfold generateDegreePlan.
  now rewrite (planRemaining_engine engine1 engine2).
Qed.

Lemma generateDegreePlan_deterministic_witness :
  generateDegreePlan insertionSort sampleRequirements sampleOptions
  = generateDegreePlan leftToRightSort sampleRequirements sampleOptions.
Proof.
  exact (generateDegreePlan_deterministic insertionEngine leftToRightEngine
           sampleRequirements sampleOptions).
Defined.

Example sample_plan :
  map (fun p => (planSemester p, map code (planCourses p), planCredits p))
      (generateDegreePlan insertionSort sampleRequirements sampleOptions)
  = [ (1, ["ARB 1241"; "CSC 1401"; "ENG 1301"; "FAS 0210"; "FYE 1101";
           "MTH 1303"], 15);
      (2, ["MTH 1304"; "MTH 2301"; "CSC 2302"; "FYE 1102"; "FAS 1220";
           "ENG 2303"], 15);
      (3, ["COM 1301"; "FRN 3210"], 5);
      (4, ["CSC 3309"; "SLP 1101"; "HUM 2305"; "HUM 2306"], 12) ].
Proof. vm_compute. reflexivity. Qed.

(** Stability matters: a [sort] that orders but reverses equal elements
    gives another plan. *)
Remark unstable_sort_changes_the_plan :
  generateDegreePlan reversingSort sampleRequirements sampleOptions
  <> generateDegreePlan insertionSort sampleRequirements sampleOptions.
Proof. vm_compute. discriminate. Qed.

End GeneratorProofs.

(** ** More about the store: how the two actions compose *)

Module StoreExtras.
Import Store Validator Samples StoreProofs.

(** *** Lists updated in place *)

Lemma find_map_same {A : Type} (p : A -> bool) (f : A -> A) (l : list A) :
  (forall x, p (f x) = p x) ->
  find p (map f l) = option_map f (find p l).
Proof.
  intros H. induction l as [|a l IH]; simpl; auto.
  rewrite H. destruct (p a); auto.
Qed.

Lemma findIndex_map_same {A : Type} (p : A -> bool) (f : A -> A) (l : list A) :
  (forall x, p (f x) = p x) ->
  JS.findIndex p (map f l) = JS.findIndex p l.
Proof.
  intros H. induction l as [|a l IH]; simpl; auto.
  rewrite H, IH. reflexivity.
Qed.

Lemma existsb_last {A : Type} (p : A -> bool) (l : list A) (x : A) :
  p x = true -> existsb p (l ++ [x]) = true.
Proof.
  intros H. rewrite existsb_app. simpl. rewrite H. apply orb_true_iff.
  right. reflexivity.
Qed.

Lemma placeIn_named sem course plan :
  named sem (if named sem plan then placeIn course plan else plan)
  = named sem plan.
Proof. now destruct (named sem plan) eqn:H. Qed.

(** The rules that let a placement through. *)
Lemma canPlace_None course target ledger :
  canPlace course target ledger = None ->
  duplicateInSemester course target = false
  /\ duplicateElsewhere course (semester target) ledger = false
  /\ creditLimitExceeded course target = false
  /\ prerequisitesUnmet course (semester target) ledger = false.
Proof.
  unfold canPlace, firstFailing.
  destruct (duplicateInSemester course target); [discriminate|].
  destruct (duplicateElsewhere course (semester target) ledger); [discriminate|].
  destruct (creditLimitExceeded course target); [discriminate|].
  destruct (prerequisitesUnmet course (semester target) ledger); [discriminate|].
  auto.
Qed.

(** An accepted placement, as a state. *)
Lemma addCourse_accepted sem course st target :
  find (named sem) (semesterPlans st) = Some target ->
  canPlace course target (semesterPlans st) = None ->
  addCourse sem course st
  = setPlans (withCourseAdded sem course (semesterPlans st)) st.
Proof.
  intros Hfind Hcan.
  destruct (find_findIndex _ _ _ Hfind) as (index & Hi & Hn).
  pose proof (find_named _ _ _ Hfind) as Hsem.
  destruct (canPlace_None _ _ _ Hcan) as (H1 & H2 & H3 & H4).
  rewrite Hsem in H2, H4.
  rewrite (addCourse_found sem course st target index Hi Hn), H1, H2, H3.
  unfold prerequisitesUnmet in H4. fold (named sem) in H4. rewrite Hi in H4.
  apply negb_false_iff in H4. now rewrite H4.
Qed.

(** X1.  [removeCourse] on a semester that does not hold the code gives
    the state back as it was, error message included. *)
Theorem removeCourse_absent_course sem code st index plan :
  JS.findIndex (named sem) (semesterPlans st) = Some index ->
  nth_error (semesterPlans st) index = Some plan ->
  (forall c, In c (courses plan) -> course_code c <> code) ->
  removeCourse sem code st = st.
Proof.
  intros Hi Hn Habsent. unfold removeCourse. fold (named sem).
  rewrite Hi, Hn.
  destruct (find (fun c => String.eqb (course_code c) code) (courses plan))
    as [c|] eqn:Hc; [|reflexivity].
  apply find_some in Hc as [Hin Heq]. apply String.eqb_eq in Heq.
  now destruct (Habsent c Hin).
Qed.

Lemma removeCourse_absent_course_witness :
  removeCourse "Fall 2024" "PHY 1401" withBothCalculus = withBothCalculus.
Proof.
  apply (removeCourse_absent_course "Fall 2024" "PHY 1401" withBothCalculus
           0%nat (placeIn calculus1 (emptyPlan "Fall 2024" regular)));
    [reflexivity|reflexivity|].
  intros c [<-|[]]. discriminate.
Defined.

(** X2.  A course that was placed cannot be placed again: a second
    [addCourse] into the same semester is refused as a duplicate in the
    semester, and into any other semester of the ledger as a duplicate
    elsewhere; the plans stay as the first placement left them. *)
Theorem placed_course_is_refused_again sem course st target :
  find (named sem) (semesterPlans st) = Some target ->
  canPlace course target (semesterPlans st) = None ->
  let placed := addCourse sem course st in
  addCourse sem course placed
  = setError (reasonMessage DuplicateInSemester (course_code course) sem) placed
  /\ forall other target',
      other <> sem ->
      find (named other) (semesterPlans st) = Some target' ->
      addCourse other course placed
      = setError (reasonMessage DuplicateElsewhere (course_code course) other)
                 placed.
Proof.
  intros Hfind Hcan placed. subst placed.
  rewrite (addCourse_accepted sem course st target Hfind Hcan).
  pose proof (find_named _ _ _ Hfind) as Hsem.
  destruct (canPlace_None _ _ _ Hcan) as (H1 & H2 & _). rewrite Hsem in H2.
  assert (forall name found,
            find (named name) (semesterPlans st) = Some found ->
            find (named name) (withCourseAdded sem course (semesterPlans st))
            = Some (if named sem found then placeIn course found else found))
    as Hafter.
  { intros name found Hf. rewrite withCourseAdded_map, find_map_same.
    - now rewrite Hf.
    - intros x. unfold named. now destruct (String.eqb (semester x) sem). }
  split.
  - unfold addCourse. fold (named sem). cbn [semesterPlans setPlans].
    rewrite (Hafter sem target Hfind).
    assert (named sem target = true) as -> by (now apply String.eqb_eq).
    cbn [courses placeIn]. rewrite existsb_last; [reflexivity|].
    apply String.eqb_refl.
  - intros other target' Hother Hfind'.
    pose proof (find_named _ _ _ Hfind') as Hname.
    assert (named sem target' = false) as Hnot
      by (apply String.eqb_neq; congruence).
    unfold addCourse. fold (named other). cbn [semesterPlans setPlans].
    rewrite (Hafter other target' Hfind'), Hnot.
    assert (existsb (fun c => sameCode c course) (courses target') = false)
      as ->.
    { destruct (existsb (fun c => sameCode c course) (courses target'))
        eqn:Hdup; auto.
      unfold duplicateElsewhere in H2. rewrite <- not_true_iff_false in H2.
      destruct H2. apply existsb_exists. exists target'. split.
      - now apply find_some in Hfind' as [Hin _].
      - rewrite Hname. apply andb_true_iff. split; auto.
        apply negb_true_iff. now apply String.eqb_neq. }
    assert (existsb
              (fun plan =>
                 negb (String.eqb (semester plan) other)
                 && existsb (fun c => sameCode c course) (courses plan))
              (withCourseAdded sem course (semesterPlans st)) = true) as ->;
      [|reflexivity].
    apply existsb_exists. exists (placeIn course target). split.
    + rewrite withCourseAdded_map. apply in_map_iff. exists target.
      assert (named sem target = true) as -> by (now apply String.eqb_eq).
      split; auto. now apply find_some in Hfind as [Hin _].
    + apply andb_true_iff. split.
      * apply negb_true_iff. apply String.eqb_neq. cbn [semester placeIn].
        congruence.
      * cbn [courses placeIn]. apply existsb_last. apply String.eqb_refl.
Qed.

Lemma placed_course_is_refused_again_witness :
  addCourse "Fall 2024" calculus1 withCalculus1
  = setError (reasonMessage DuplicateInSemester "MTH 1303" "Fall 2024")
             withCalculus1.
Proof.
  apply (placed_course_is_refused_again "Fall 2024" calculus1 fresh
           (emptyPlan "Fall 2024" regular));
    reflexivity.
Defined.

(** *** What one action can do to the plans *)

(** The plans after an action: as before, or one accepted placement, or
    one accepted removal. *)
Inductive Step (ledger : list SemesterPlan) : list SemesterPlan -> Prop :=
| StepNone : Step ledger ledger
| StepAdd sem course index target :
    JS.findIndex (named sem) ledger = Some index ->
    nth_error ledger index = Some target ->
    duplicateInSemester course target = false ->
    duplicateElsewhere course sem ledger = false ->
    creditLimitExceeded course target = false ->
    overridden course (availableCodes index ledger)
    || evaluate (prerequisites course) (availableCodes index ledger) = true ->
    Step ledger (withCourseAdded sem course ledger)
| StepRemove sem code index plan course :
    JS.findIndex (named sem) ledger = Some index ->
    nth_error ledger index = Some plan ->
    find (fun c => String.eqb (course_code c) code) (courses plan)
    = Some course ->
    firstRequiring code index ledger = None ->
    Step ledger (updateAt index (takeOut code course) ledger).

Lemma perform_step st op :
  Step (semesterPlans st) (semesterPlans (perform st op)).
Proof.
  destruct op as [sem course|sem code]; simpl.
  - destruct (JS.findIndex (named sem) (semesterPlans st)) as [index|] eqn:Hi.
    + destruct (findIndex_Some _ _ _ Hi) as (target & Hn & _).
      rewrite (addCourse_found sem course st target index Hi Hn).
      destruct (duplicateInSemester course target) eqn:H1; [constructor|].
      destruct (duplicateElsewhere course sem (semesterPlans st)) eqn:H2;
        [constructor|].
      destruct (creditLimitExceeded course target) eqn:H3; [constructor|].
      destruct (overridden _ _ || evaluate _ _) eqn:H4; [|constructor].
      now apply (StepAdd _ sem course index target).
    + apply findIndex_None in Hi. unfold addCourse. fold (named sem).
      rewrite Hi. constructor.
  - destruct (JS.findIndex (named sem) (semesterPlans st)) as [index|] eqn:Hi.
    + destruct (findIndex_Some _ _ _ Hi) as (plan & Hn & _).
      destruct (find (fun c => String.eqb (course_code c) code) (courses plan))
        as [course|] eqn:Hc.
      * rewrite (removeCourse_found sem code st index plan course Hi Hn Hc).
        destruct (firstRequiring code index (semesterPlans st)) eqn:Hd;
          [constructor|].
        now apply (StepRemove _ sem code index plan course).
      * unfold removeCourse. fold (named sem). rewrite Hi, Hn, Hc.
        constructor.
    + unfold removeCourse. fold (named sem). rewrite Hi. constructor.
Qed.

(** The same, keeping track of the course an [Add] brings. *)
Lemma perform_step_course st sem course :
  semesterPlans (perform st (Add sem course)) = semesterPlans st
  \/ exists index target,
      JS.findIndex (named sem) (semesterPlans st) = Some index
      /\ nth_error (semesterPlans st) index = Some target
      /\ duplicateInSemester course target = false
      /\ duplicateElsewhere course sem (semesterPlans st) = false
      /\ creditLimitExceeded course target = false
      /\ overridden course (availableCodes index (semesterPlans st))
         || evaluate (prerequisites course)
                     (availableCodes index (semesterPlans st)) = true
      /\ semesterPlans (perform st (Add sem course))
         = withCourseAdded sem course (semesterPlans st).
Proof.
  simpl.
  destruct (JS.findIndex (named sem) (semesterPlans st)) as [index|] eqn:Hi.
  - destruct (findIndex_Some _ _ _ Hi) as (target & Hn & _).
    rewrite (addCourse_found sem course st target index Hi Hn).
    destruct (duplicateInSemester course target) eqn:H1; [now left|].
    destruct (duplicateElsewhere course sem (semesterPlans st)) eqn:H2;
      [now left|].
    destruct (creditLimitExceeded course target) eqn:H3; [now left|].
    destruct (overridden _ _ || evaluate _ _) eqn:H4; [|now left].
    right. exists index, target. repeat split; auto.
  - apply findIndex_None in Hi. unfold addCourse. fold (named sem).
    rewrite Hi. now left.
Qed.

Lemma updateAt_map {A B : Type} (f : A -> A) (g : A -> B) i xs :
  (forall x, g (f x) = g x) -> map g (updateAt i f xs) = map g xs.
Proof.
  intros H. revert i. induction xs as [|x xs IH]; intros [|i]; simpl; auto.
  - now rewrite H.
  - now rewrite IH.
Qed.

Lemma withCourseAdded_keeps {B : Type} (g : SemesterPlan -> B) sem course ledger :
  (forall plan, g (placeIn course plan) = g plan) ->
  map g (withCourseAdded sem course ledger) = map g ledger.
Proof.
  intros H. rewrite withCourseAdded_map, map_map. apply map_ext.
  intros plan. destruct (named sem plan); auto.
Qed.

Lemma step_keeps {B : Type} (g : SemesterPlan -> B) ledger ledger' :
  (forall course plan, g (placeIn course plan) = g plan) ->
  (forall code course plan, g (takeOut code course plan) = g plan) ->
  Step ledger ledger' -> map g ledger' = map g ledger.
Proof.
  intros Hadd Hremove [| |]; auto.
  - now apply withCourseAdded_keeps.
  - now apply updateAt_map.
Qed.

Lemma semesters_names_kept st op :
  map semester (semesterPlans (perform st op)) = map semester (semesterPlans st)
  /\ map semesterType (semesterPlans (perform st op))
     = map semesterType (semesterPlans st).
Proof.
  pose proof (perform_step st op) as Hstep. split.
  - now apply (step_keeps semester _ _ (fun _ _ => eq_refl)
                          (fun _ _ _ => eq_refl)).
  - now apply (step_keeps semesterType _ _ (fun _ _ => eq_refl)
                          (fun _ _ _ => eq_refl)).
Qed.

(** X3.  No run of [addCourse] and [removeCourse] calls adds, drops,
    reorders, renames or retypes a semester: the names and the types of
    the semesters stay as they were. *)
Theorem semesters_are_fixed ops st :
  map semester (semesterPlans (run ops st)) = map semester (semesterPlans st)
  /\ map semesterType (semesterPlans (run ops st))
     = map semesterType (semesterPlans st).
Proof.
  revert st. induction ops as [|op ops IH]; intros st; [now split|].
  simpl. destruct (IH (perform st op)) as [-> ->].
  apply semesters_names_kept.
Qed.

(** *** The credit caps *)

Lemma no_other_named sem ledger :
  (forall x, In x ledger -> named sem x = false) ->
  forall course, withCourseAdded sem course ledger = ledger.
Proof.
  intros H course. rewrite withCourseAdded_map.
  induction ledger as [|a l IH]; simpl; auto.
  rewrite (H a) by (simpl; auto). f_equal. apply IH.
  intros x Hx. apply H. simpl. auto.
Qed.

(** With distinct names a placement touches the one semester found. *)
Lemma withCourseAdded_updateAt sem course ledger :
  NoDup (map semester ledger) ->
  forall index,
    JS.findIndex (named sem) ledger = Some index ->
    withCourseAdded sem course ledger = updateAt index (placeIn course) ledger.
Proof.
  induction ledger as [|a l IH]; intros Hnd index Hi; simpl in Hi;
    [discriminate|].
  inversion Hnd as [|? ? Hnotin Hnd']; subst.
  destruct (named sem a) eqn:Ha.
  - injection Hi as <-. rewrite withCourseAdded_map. simpl. rewrite Ha.
    f_equal. rewrite <- withCourseAdded_map. apply no_other_named.
    intros x Hx. apply String.eqb_neq. intros Heq. apply Hnotin.
    apply String.eqb_eq in Ha. rewrite Ha, <- Heq. now apply in_map.
  - destruct (JS.findIndex (named sem) l) as [j|] eqn:Hj; [|discriminate].
    injection Hi as <-. rewrite withCourseAdded_map. simpl. rewrite Ha.
    f_equal. rewrite <- withCourseAdded_map. now apply IH.
Qed.

(** A course whose credits read as an integer that is not negative. *)
Definition hasNaturalCredits (c : Course) : Prop :=
  exists n, JS.parseInt (credits c) = JS.Num n /\ 0 <= n.

Definition addsNaturalCredits (op : Operation) : Prop :=
  match op with
  | Add _ course => hasNaturalCredits course
  | Remove _ _ => True
  end.

(** The stored total of a semester is a number within the cap of its
    type. *)
Definition withinCap (plan : SemesterPlan) : Prop :=
  exists t, planCredits plan = JS.Num t /\ t <= cap (semesterType plan).

Definition capped (plan : SemesterPlan) : Prop :=
  withinCap plan /\ Forall hasNaturalCredits (courses plan).

Lemma capped_add course target :
  capped target -> hasNaturalCredits course ->
  creditLimitExceeded course target = false ->
  capped (placeIn course target).
Proof.
  intros [(t & Ht & Hle) Hall] (n & Hn & Hpos) Hlimit.
  unfold creditLimitExceeded in Hlimit. rewrite Ht, Hn in Hlimit.
  cbn [JS.add JS.gt] in Hlimit.
  split.
  - exists (t + n). cbn [planCredits semesterType placeIn].
    rewrite Ht, Hn. split; [reflexivity|].
    destruct (Z.gtb_spec (t + n) (cap (semesterType target)));
      [discriminate|lia].
  - cbn [courses placeIn]. apply Forall_app. split; auto.
    constructor; [|constructor]. now exists n.
Qed.

Lemma capped_remove code course plan :
  capped plan ->
  find (fun c => String.eqb (course_code c) code) (courses plan) = Some course ->
  capped (takeOut code course plan).
Proof.
  intros [(t & Ht & Hle) Hall] Hfind.
  apply find_some in Hfind as [Hin _].
  rewrite Forall_forall in Hall. destruct (Hall course Hin) as (n & Hn & Hpos).
  split.
  - exists (t - n). cbn [planCredits semesterType takeOut].
    rewrite Ht, Hn. split; [reflexivity|lia].
  - cbn [courses takeOut]. apply Forall_forall. intros x Hx.
    apply filter_In in Hx as [Hx _]. auto.
Qed.

(** What a [removeCourse] call does to the plans. *)
Lemma perform_remove_shape st sem code :
  semesterPlans (perform st (Remove sem code)) = semesterPlans st
  \/ exists index plan course,
      JS.findIndex (named sem) (semesterPlans st) = Some index
      /\ nth_error (semesterPlans st) index = Some plan
      /\ find (fun c => String.eqb (course_code c) code) (courses plan)
         = Some course
      /\ firstRequiring code index (semesterPlans st) = None
      /\ semesterPlans (perform st (Remove sem code))
         = updateAt index (takeOut code course) (semesterPlans st).
Proof.
  simpl.
  destruct (JS.findIndex (named sem) (semesterPlans st)) as [index|] eqn:Hi.
  - destruct (findIndex_Some _ _ _ Hi) as (plan & Hn & _).
    destruct (find (fun c => String.eqb (course_code c) code) (courses plan))
      as [course|] eqn:Hc.
    + rewrite (removeCourse_found sem code st index plan course Hi Hn Hc).
      destruct (firstRequiring code index (semesterPlans st)) eqn:Hd;
        [now left|].
      right. exists index, plan, course. repeat split; auto.
    + left. unfold removeCourse. fold (named sem). now rewrite Hi, Hn, Hc.
  - left. unfold removeCourse. fold (named sem). now rewrite Hi.
Qed.

Lemma perform_capped st op :
  NoDup (map semester (semesterPlans st)) ->
  Forall capped (semesterPlans st) ->
  addsNaturalCredits op ->
  Forall capped (semesterPlans (perform st op)).
Proof.
  intros Hnd Hall Hop. destruct op as [sem course|sem code].
  - destruct (perform_step_course st sem course)
      as [->|(index & target & Hi & Hn & _ & _ & H3 & _ & ->)]; auto.
    rewrite (withCourseAdded_updateAt sem course _ Hnd index Hi).
    apply (updateAt_Forall capped _ index _ target); auto.
    apply capped_add; auto.
    rewrite Forall_forall in Hall. apply Hall. eapply nth_error_In; eauto.
  - destruct (perform_remove_shape st sem code)
      as [->|(index & plan & course & Hi & Hn & Hc & _ & ->)]; auto.
    apply (updateAt_Forall capped _ index _ plan); auto.
    apply capped_remove; auto.
    rewrite Forall_forall in Hall. apply Hall. eapply nth_error_In; eauto.
Qed.

(** X4.  From an empty plan, after any sequence of [addCourse] and
    [removeCourse] calls with courses whose credits are integers that
    are not negative, every semester's stored total is within the cap of
    its type: at most 22 in a regular semester, at most 10 in a summer
    one. *)
Theorem totals_stay_within_caps init ops :
  emptyLedger (semesterPlans init) ->
  Forall addsNaturalCredits ops ->
  forall plan,
    In plan (semesterPlans (run ops init)) ->
    exists t,
      planCredits plan = JS.Num t
      /\ t <= match semesterType plan with regular => 22 | summer => 10 end.
Proof.
  intros [Hnames Hempty] Hops.
  assert (Forall capped (semesterPlans init)) as Hcap.
  { rewrite Forall_forall in *. intros p Hp. destruct (Hempty p Hp) as [Hc Ht].
    split.
    - exists 0. split; [exact Ht|].
      destruct (semesterType p); vm_compute; discriminate.
    - rewrite Hc. constructor. }
  clear Hempty. revert init Hnames Hcap.
  induction Hops as [|op ops Hop Hops IH]; intros init Hnames Hcap plan Hplan.
  - rewrite Forall_forall in Hcap. destruct (Hcap plan Hplan) as [(t & Ht & Hle) _].
    exists t. split; [exact Ht|]. destruct (semesterType plan); exact Hle.
  - simpl in Hplan. apply (IH (perform init op)); auto.
    + destruct (semesters_names_kept init op) as [-> _]. exact Hnames.
    + now apply perform_capped.
Qed.

Lemma totals_stay_within_caps_witness :
  let ops := [ Add "Summer 2025" art1; Add "Summer 2025" art2;
               Add "Summer 2025" art3; Add "Summer 2025" art4;
               Remove "Summer 2025" "ART 1301" ] in
  let third := nth 2 (semesterPlans (run ops fresh)) (emptyPlan "" regular) in
  exists t,
    planCredits third = JS.Num t
    /\ t <= match semesterType third with regular => 22 | summer => 10 end.
Proof.
  intros ops third.
  apply (totals_stay_within_caps fresh ops).
  - split.
    + repeat (constructor; [simpl; intuition discriminate|]). constructor.
    + repeat constructor.
  - assert (forall c, JS.parseInt (credits c) = JS.Num 3 ->
                      hasNaturalCredits c) as Hthree
      by (intros c Hc; exists 3; split; [exact Hc|lia]).
    repeat (apply Forall_cons; [try (apply Hthree; reflexivity); exact I|]).
    apply Forall_nil.
  - vm_compute. auto.
Defined.

(** *** Prerequisites of what is placed *)

(** Every placed course has its prerequisites, or its override, met by
    the courses of the strictly earlier semesters. *)
Definition prerequisitesInOrder (ledger : list SemesterPlan) : Prop :=
  forall index plan c,
    nth_error ledger index = Some plan -> In c (courses plan) ->
    overridden c (availableCodes index ledger)
    || evaluate (prerequisites c) (availableCodes index ledger) = true.

Definition isAdd (op : Operation) : Prop :=
  match op with
  | Add _ _ => True
  | Remove _ _ => False
  end.

Lemma member_incl n codes codes' :
  incl codes codes' -> member n codes = true -> member n codes' = true.
Proof.
  unfold member. intros Hincl H. apply existsb_exists in H as (x & Hx & Heq).
  apply existsb_exists. exists x. split; auto.
Qed.

Lemma evaluate_incl expr codes codes' :
  incl codes codes' -> evaluate expr codes = true -> evaluate expr codes' = true.
Proof.
  unfold evaluate. intros Hincl H. rewrite forallb_forall in *.
  intros group Hg. specialize (H group Hg). destruct group as [|alt group]; auto.
  apply existsb_exists in H as (a & Ha & Hm). apply existsb_exists.
  exists a. split; auto. eapply member_incl; eauto.
Qed.

Lemma satisfied_incl c codes codes' :
  incl codes codes' ->
  overridden c codes || evaluate (prerequisites c) codes = true ->
  overridden c codes' || evaluate (prerequisites c) codes' = true.
Proof.
  intros Hincl H. apply orb_true_iff in H as [H|H]; apply orb_true_iff.
  - left. unfold overridden in *. apply andb_true_iff in H as [H1 H2].
    apply andb_true_iff. split; auto. eapply member_incl; eauto.
  - right. eapply evaluate_incl; eauto.
Qed.

(** A placement only adds to what is available at any index. *)
Lemma availableCodes_grow sem course ledger index :
  incl (availableCodes index ledger)
       (availableCodes index (withCourseAdded sem course ledger)).
Proof.
  unfold availableCodes. rewrite withCourseAdded_map, firstn_map.
  intros n Hn. apply in_map_iff in Hn as (c & <- & Hc).
  apply in_map_iff. exists c. split; auto.
  apply in_flat_map in Hc as (plan & Hplan & Hc).
  apply in_flat_map.
  exists (if named sem plan then placeIn course plan else plan). split.
  - apply in_map_iff. exists plan. split; auto.
  - destruct (named sem plan); auto. cbn [courses placeIn].
    apply in_or_app. now left.
Qed.

Lemma prerequisitesInOrder_add sem course ledger index target :
  NoDup (map semester ledger) ->
  prerequisitesInOrder ledger ->
  JS.findIndex (named sem) ledger = Some index ->
  nth_error ledger index = Some target ->
  overridden course (availableCodes index ledger)
  || evaluate (prerequisites course) (availableCodes index ledger) = true ->
  prerequisitesInOrder (withCourseAdded sem course ledger).
Proof.
  intros Hnd Hord Hi Hn Hok j plan' d Hj Hd.
  rewrite withCourseAdded_map, nth_error_map in Hj.
  destruct (nth_error ledger j) as [plan|] eqn:Hplan; [|discriminate].
  injection Hj as <-.
  apply (satisfied_incl d _ _ (availableCodes_grow sem course ledger j)).
  destruct (named sem plan) eqn:Hnamed; [|eauto].
  cbn [courses placeIn] in Hd. apply in_app_or in Hd as [Hd|[<-|[]]]; [eauto|].
  assert (j = index) as ->; [|exact Hok].
  destruct (findIndex_Some _ _ _ Hi) as (x & Hx & Hname & _).
  assert (x = target) as -> by congruence.
  apply String.eqb_eq in Hnamed, Hname.
  apply (proj1 (NoDup_nth_error _) Hnd).
  - rewrite length_map. apply nth_error_Some. congruence.
  - rewrite !nth_error_map, Hplan, Hn. simpl. congruence.
Qed.

(** X5.  From an empty plan, after any sequence of [addCourse] calls,
    every placed course has its prerequisite expression, or the CSC 2302
    override, satisfied by the courses of the strictly earlier
    semesters. *)
Theorem placements_keep_prerequisites_in_order init ops :
  emptyLedger (semesterPlans init) ->
  Forall isAdd ops ->
  prerequisitesInOrder (semesterPlans (run ops init)).
Proof.
  intros [Hnames Hempty] Hops.
  assert (prerequisitesInOrder (semesterPlans init)) as Hord.
  { intros index plan c Hn Hc. rewrite Forall_forall in Hempty.
    destruct (Hempty plan (nth_error_In _ _ Hn)) as [Hnil _].
    rewrite Hnil in Hc. destruct Hc. }
  clear Hempty. revert init Hnames Hord.
  induction Hops as [|op ops Hop Hops IH]; intros init Hnames Hord; auto.
  simpl. apply IH.
  - destruct (semesters_names_kept init op) as [-> _]. exact Hnames.
  - destruct op as [sem course|]; [|destruct Hop].
    destruct (perform_step_course init sem course)
      as [->|(index & target & Hi & Hn & _ & _ & _ & Hok & ->)]; auto.
    now apply (prerequisitesInOrder_add sem course _ index target).
Qed.

Lemma placements_keep_prerequisites_in_order_witness :
  prerequisitesInOrder
    (semesterPlans
       (run [ Add "Fall 2024" calculus1; Add "Fall 2024" calculus2;
              Add "Spring 2025" calculus2 ] fresh)).
Proof.
  apply (placements_keep_prerequisites_in_order fresh).
  - split.
    + repeat (constructor; [simpl; intuition discriminate|]). constructor.
    + repeat constructor.
  - repeat constructor.
Defined.

(** *** Placing and taking out again *)

Lemma updateAt_twice {A : Type} (f g : A -> A) i (xs : list A) :
  updateAt i f (updateAt i g xs) = updateAt i (fun x => f (g x)) xs.
Proof.
  revert i. induction xs as [|x xs IH]; intros [|i]; simpl; auto.
  now rewrite IH.
Qed.

Lemma updateAt_same {A : Type} (f : A -> A) i (xs : list A) x :
  nth_error xs i = Some x -> f x = x -> updateAt i f xs = xs.
Proof.
  revert i. induction xs as [|a xs IH]; intros [|i]; simpl; intros Hn Hf;
    try discriminate.
  - injection Hn as ->. now rewrite Hf.
  - f_equal. eauto.
Qed.

Lemma updateAt_ext {A : Type} (f g : A -> A) i (xs : list A) x :
  nth_error xs i = Some x -> f x = g x -> updateAt i f xs = updateAt i g xs.
Proof.
  revert i. induction xs as [|a xs IH]; intros [|i]; simpl; intros Hn Hf;
    try discriminate.
  - injection Hn as ->. now rewrite Hf.
  - f_equal. eauto.
Qed.

Lemma nth_error_updateAt {A : Type} (f : A -> A) i (xs : list A) x :
  nth_error xs i = Some x -> nth_error (updateAt i f xs) i = Some (f x).
Proof.
  revert i. induction xs as [|a xs IH]; intros [|i]; simpl; intros Hn;
    try discriminate.
  - now injection Hn as ->.
  - auto.
Qed.

Lemma skipn_updateAt {A : Type} (f : A -> A) i (xs : list A) :
  skipn (S i) (updateAt i f xs) = skipn (S i) xs.
Proof.
  revert i. induction xs as [|a xs IH]; intros [|i]; simpl; auto.
  apply (IH i).
Qed.

Lemma find_after_absent (p : Course -> bool) cs c :
  existsb p cs = false -> p c = true -> find p (cs ++ [c]) = Some c.
Proof.
  intros Habsent Hp. rewrite find_append.
  destruct (find p cs) as [d|] eqn:Hd.
  - apply find_some in Hd as [Hin Hpd].
    rewrite <- not_true_iff_false in Habsent. destruct Habsent.
    apply existsb_exists. eauto.
  - simpl. now rewrite Hp.
Qed.

(** X6.  Taking out a course right after it was placed restores the
    plans: when the semester names are distinct, the stored total and the
    course's credits are integers that are not negative (the accepted sum
    is then at most the cap, where the store's arithmetic is exact) and
    no later course lists the code, [removeCourse] after an accepted
    [addCourse] gives the plans as they were before, with no error. *)
Theorem add_then_remove_restores sem course st index target t n :
  NoDup (map semester (semesterPlans st)) ->
  JS.findIndex (named sem) (semesterPlans st) = Some index ->
  nth_error (semesterPlans st) index = Some target ->
  canPlace course target (semesterPlans st) = None ->
  planCredits target = JS.Num t -> 0 <= t ->
  JS.parseInt (credits course) = JS.Num n -> 0 <= n ->
  firstRequiring (course_code course) index (semesterPlans st) = None ->
  removeCourse sem (course_code course) (addCourse sem course st)
  = setPlans (semesterPlans st) st.
Proof.
  intros Hnd Hi Hn Hcan Ht _ Hc _ Hlater.
  destruct (findIndex_Some _ _ _ Hi) as (x & Hx & _ & Hfind & _).
  assert (x = target) as -> by congruence.
  destruct (canPlace_None _ _ _ Hcan) as (H1 & _).
  rewrite (addCourse_accepted sem course st target Hfind Hcan).
  rewrite (withCourseAdded_updateAt sem course _ Hnd index Hi).
  set (placed := updateAt index (placeIn course) (semesterPlans st)).
  assert (JS.findIndex (named sem) placed = Some index) as Hi'.
  { unfold placed.
    rewrite <- (withCourseAdded_updateAt sem course _ Hnd index Hi),
      withCourseAdded_map.
    rewrite findIndex_map_same; auto. intros p. apply placeIn_named. }
  assert (nth_error placed index = Some (placeIn course target)) as Hn'
    by (now apply nth_error_updateAt).
  assert (find (fun c => String.eqb (course_code c) (course_code course))
               (courses (placeIn course target)) = Some course) as Hc'.
  { cbn [courses placeIn]. apply find_after_absent; [exact H1|].
    apply String.eqb_refl. }
  rewrite (removeCourse_found sem (course_code course)
             (setPlans placed st) index (placeIn course target) course
             Hi' Hn' Hc').
  cbn [semesterPlans setPlans].
  assert (firstRequiring (course_code course) index placed = None) as ->.
  { unfold firstRequiring, placed. now rewrite skipn_updateAt. }
  unfold setPlans. cbn [courseData semesterPlans error userInfo]. f_equal.
  unfold placed. rewrite updateAt_twice. apply (updateAt_same _ _ _ target Hn).
  destruct target as [name type cs total]. unfold takeOut, placeIn.
  cbn [semester semesterType courses planCredits] in *. subst total.
  rewrite Hc. cbn [JS.add JS.sub]. f_equal.
  - rewrite filter_app. cbn [filter]. rewrite String.eqb_refl.
    cbn [negb]. rewrite app_nil_r.
    apply (filter_absent (course_code course) cs).
    intros Hin. apply in_map_iff in Hin as (d & Hd & Hin).
    unfold duplicateInSemester in H1. cbn [courses] in H1.
    rewrite <- not_true_iff_false in H1. destruct H1.
    apply existsb_exists. exists d. split; auto. now apply String.eqb_eq.
  - f_equal. lia.
Qed.

Lemma add_then_remove_restores_witness :
  removeCourse "Spring 2025" "MTH 2301"
               (addCourse "Spring 2025" calculus2 withCalculus1)
  = setPlans (semesterPlans withCalculus1) withCalculus1.
Proof.
  apply (add_then_remove_restores "Spring 2025" calculus2 withCalculus1
           1%nat (emptyPlan "Spring 2025" regular) 0 3);
    try reflexivity; try lia.
  repeat (constructor; [simpl; intuition discriminate|]). constructor.
Defined.

End StoreExtras.

(** ** The store against the rules of the specification *)

Module RulesProofs.
Import Store Validator Samples RuleSamples StoreProofs StoreExtras.

Lemma consistent_same codes a b :
  Rules.consistent codes = true -> In a codes -> In b codes ->
  Rules.equalCodes a b = String.eqb a b.
Proof.
  intros Hall Ha Hb. unfold Rules.consistent in Hall.
  rewrite forallb_forall in Hall. specialize (Hall a Ha).
  rewrite forallb_forall in Hall. specialize (Hall b Hb).
  destruct (String.eqb_spec a b) as [->|Hne].
  - unfold Rules.equalCodes. apply String.eqb_refl.
  - destruct (Rules.equalCodes a b); [discriminate|reflexivity].
Qed.

Lemma consistent_incl codes codes' :
  incl codes' codes -> Rules.consistent codes = true ->
  Rules.consistent codes' = true.
Proof.
  intros Hincl Hall. unfold Rules.consistent in *.
  rewrite forallb_forall in *. intros a Ha.
  specialize (Hall a (Hincl a Ha)). rewrite forallb_forall in *.
  intros b Hb. exact (Hall b (Hincl b Hb)).
Qed.

(** On consistently spelled codes the store's raw test is the rule. *)
Lemma present_raw codes code plan :
  Rules.consistent codes = true -> In code codes ->
  (forall c, In c (courses plan) -> In (course_code c) codes) ->
  existsb (fun c => String.eqb (course_code c) code) (courses plan)
  = Rules.present code plan.
Proof.
  intros Hall Hcode Hplan. unfold Rules.present.
  apply existsb_pointwise_in. intros c Hc. symmetry.
  apply (consistent_same codes); auto.
Qed.

Lemma split_at {A : Type} (xs : list A) i x :
  nth_error xs i = Some x -> xs = (firstn i xs ++ x :: skipn (S i) xs)%list.
Proof.
  revert i. induction xs as [|y xs IH]; intros [|i] H; try discriminate.
  - injection H as ->. reflexivity.
  - cbn [firstn skipn List.app]. f_equal. now apply IH.
Qed.

Lemma updateAt_split {A : Type} (f : A -> A) (xs : list A) i x :
  nth_error xs i = Some x ->
  updateAt i f xs = (firstn i xs ++ f x :: skipn (S i) xs)%list.
Proof.
  revert i. induction xs as [|y xs IH]; intros [|i] H; try discriminate.
  - injection H as ->. reflexivity.
  - cbn [updateAt firstn skipn List.app]. f_equal. now apply IH.
Qed.

Lemma others_not_named sem ledger index target :
  NoDup (map semester ledger) ->
  nth_error ledger index = Some target -> semester target = sem ->
  forall plan, In plan (Rules.others index ledger) -> named sem plan = false.
Proof.
  intros Hnd Hn Hsem plan Hin.
  rewrite (split_at _ _ _ Hn), map_app in Hnd. cbn [map] in Hnd.
  apply NoDup_remove_2 in Hnd. unfold named.
  destruct (String.eqb_spec (semester plan) sem) as [Heq|]; [|reflexivity].
  destruct Hnd. rewrite <- map_app. apply in_map_iff.
  exists plan. split; [congruence|exact Hin].
Qed.

Lemma duplicateElsewhere_raw codes course sem ledger index target :
  NoDup (map semester ledger) ->
  nth_error ledger index = Some target -> semester target = sem ->
  Rules.consistent codes = true -> In (course_code course) codes ->
  (forall plan c, In plan ledger -> In c (courses plan) ->
                  In (course_code c) codes) ->
  duplicateElsewhere course sem ledger
  = existsb (Rules.present (course_code course)) (Rules.others index ledger).
Proof.
  intros Hnd Hn Hsem Hall Hcode Hcodes.
  pose proof (others_not_named sem ledger index target Hnd Hn Hsem) as Hothers.
  unfold duplicateElsewhere.
  rewrite (split_at _ _ _ Hn) at 1.
  unfold Rules.others in *. rewrite !existsb_app. cbn [existsb].
  rewrite Hsem, String.eqb_refl. cbn [negb andb orb].
  assert (forall part,
             incl part ledger ->
             (forall plan, In plan part -> named sem plan = false) ->
             existsb
               (fun plan =>
                  negb (String.eqb (semester plan) sem)
                  && existsb
                       (fun c => String.eqb (course_code c) (course_code course))
                       (courses plan)) part
             = existsb (Rules.present (course_code course)) part) as Hpart.
  { intros part Hincl Hnot. apply existsb_pointwise_in. intros plan Hplan.
    specialize (Hnot plan Hplan). unfold named in Hnot. rewrite Hnot.
    cbn [negb andb]. apply (present_raw codes); auto.
    intros c. apply (Hcodes plan). auto. }
  rewrite !Hpart; try reflexivity.
  - intros x Hx. rewrite (split_at _ _ _ Hn). apply in_or_app. right. now right.
  - intros plan Hplan. apply Hothers. apply in_or_app. now right.
  - intros x Hx. rewrite (split_at _ _ _ Hn). apply in_or_app. now left.
  - intros plan Hplan. apply Hothers. apply in_or_app. now left.
Qed.

(** C1, as the claim has it, fails on the store's one exception to its
    fourth rule.  Data Structures lists a prerequisite that is placed
    nowhere, so [evaluate(course.prerequisites, availableCodes)] is
    false, and [addCourse] places the course all the same because
    Programming I is in an earlier semester.  Nor is the exception an
    override in the sense of 4.2, an expression put in the place of the
    course's own: with Calculus I but not Programming I in the earlier
    semester, the expression that asks for CSC1401 is false and
    [addCourse] places a Data Structures that asks for Calculus I. *)
Lemma exception_places_what_the_rule_refuses :
  let ledger := semesterPlans withProgramming1 in
  let target := emptyPlan "Spring 2025" regular in
  let placed course :=
    {| semester := "Spring 2025"; semesterType := regular;
       courses := [course]; planCredits := JS.Num 3 |} in
  (nth_error ledger 1 = Some target
   /\ Rules.canPlace dataStructures 3 target 0 1 ledger
      = Some PrerequisitesUnmet
   /\ error (addCourse "Spring 2025" dataStructures withProgramming1) = None
   /\ nth_error (semesterPlans
                   (addCourse "Spring 2025" dataStructures withProgramming1)) 1
      = Some (placed dataStructures))
  /\ (evaluate programmingFirst (availableCodes 1 (semesterPlans withCalculus1))
      = false
      /\ error (addCourse "Spring 2025" dataStructuresAfterCalculus
                          withCalculus1) = None
      /\ nth_error (semesterPlans
                      (addCourse "Spring 2025" dataStructuresAfterCalculus
                                 withCalculus1)) 1
         = Some (placed dataStructuresAfterCalculus)).
Proof. repeat split. Qed.

(** C1, amended.  On a ledger with distinct semester names, for a total
    and credits that are integers and not negative, codes spelled
    consistently, and a course to which the CSC 2302 exception does not
    apply: [addCourse] reports the first rule of [canPlace] that fails,
    in the order duplicate-in-semester, duplicate-elsewhere,
    credit-limit-exceeded, prerequisites-unmet, and leaves the plans as
    they are; when none fails it clears the error, appends the course to
    the target semester and sets its total to the old total plus the
    course's credits.  The course data and the user data are kept. *)
Theorem addCourse_follows_canPlace sem course st index target soFar credit :
  NoDup (map semester (semesterPlans st)) ->
  JS.findIndex (named sem) (semesterPlans st) = Some index ->
  nth_error (semesterPlans st) index = Some target ->
  planCredits target = JS.Num soFar -> 0 <= soFar ->
  JS.parseInt (credits course) = JS.Num credit -> 0 <= credit ->
  Rules.consistent
    (course_code course
     :: map course_code (flat_map courses (semesterPlans st))) = true ->
  overridden course (availableCodes index (semesterPlans st)) = false ->
  let after := addCourse sem course st in
  courseData after = courseData st /\ userInfo after = userInfo st
  /\ match Rules.canPlace course credit target soFar index (semesterPlans st)
     with
     | Some reason =>
         error after = Some (reasonMessage reason (course_code course) sem)
         /\ semesterPlans after = semesterPlans st
     | None =>
         error after = None
         /\ semesterPlans after
            = (firstn index (semesterPlans st)
               ++ {| semester := sem;
                     semesterType := semesterType target;
                     courses := courses target ++ [course];
                     planCredits := JS.Num (soFar + credit) |}
               :: skipn (S index) (semesterPlans st))%list
     end.
Proof.
  intros Hnd Hi Hn Hsofar _ Hcredit _ Hall Hover after.
  destruct (findIndex_Some _ _ _ Hi) as (x & Hx & Hnamed & _).
  assert (x = target) as -> by congruence.
  apply String.eqb_eq in Hnamed.
  assert (forall plan c, In plan (semesterPlans st) -> In c (courses plan) ->
                         In (course_code c)
                            (course_code course
                             :: map course_code
                                    (flat_map courses (semesterPlans st))))
    as Hcodes.
  { intros plan c Hplan Hc. right. apply in_map, in_flat_map. eauto. }
  unfold after.
  rewrite (addCourse_found sem course st target index Hi Hn).
  unfold Rules.canPlace, firstFailing.
  unfold duplicateInSemester.
  rewrite (present_raw _ _ target Hall (or_introl eq_refl)
             (fun c => Hcodes target c (nth_error_In _ _ Hn))).
  rewrite (duplicateElsewhere_raw _ course sem _ index target
             Hnd Hn Hnamed Hall (or_introl eq_refl) Hcodes).
  assert (creditLimitExceeded course target
          = (soFar + credit >? cap (semesterType target))) as ->.
  { unfold creditLimitExceeded. now rewrite Hsofar, Hcredit. }
  rewrite Hover. cbn [orb].
  destruct (Rules.present _ _); [repeat split|].
  destruct (existsb _ _); [repeat split|].
  destruct (_ >? _); [repeat split|].
  destruct (evaluate _ _); cbn [negb]; [|repeat split].
  repeat split. cbn [setPlans semesterPlans].
  rewrite (withCourseAdded_updateAt sem course _ Hnd index Hi).
  rewrite (updateAt_split _ _ _ _ Hn). do 2 f_equal.
  unfold placeIn. rewrite Hsofar, Hcredit, Hnamed. reflexivity.
Qed.

Lemma addCourse_follows_canPlace_witness :
  error (addCourse "Fall 2024" physics1 withCalculus1) = None
  /\ semesterPlans (addCourse "Fall 2024" physics1 withCalculus1)
     = (firstn 0 (semesterPlans withCalculus1)
        ++ {| semester := "Fall 2024";
              semesterType := regular;
              courses := [calculus1; physics1];
              planCredits := JS.Num (3 + 4) |}
        :: skipn 1 (semesterPlans withCalculus1))%list.
Proof.
  apply (addCourse_follows_canPlace
           "Fall 2024" physics1 withCalculus1 0%nat
           (placeIn calculus1 (emptyPlan "Fall 2024" regular)) 3 4);
    try reflexivity; try lia.
  repeat (constructor; [simpl; intuition discriminate|]). constructor.
Defined.


(** *** The invariants of the ledger *)







Lemma sumOfCredits_total cs : Rules.sumOfCredits cs = total cs.
Proof. reflexivity. Qed.



(** What the sample run leaves in the first three semesters. *)
Remark sampleRun_result :
  map (fun plan => (map course_code (courses plan), planCredits plan))
      (firstn 3 (semesterPlans (run sampleRun fresh)))
  = [ (["MTH 1303"], JS.Num 3);
      (["MTH 2301"], JS.Num 3);
      (["ART 1301"], JS.Num 3) ].
Proof. reflexivity. Qed.


End RulesProofs.

(** ** The sequence of semesters *)

Module SequenceProofs.
Import Store StoreMore Page Validator Samples StoreProofs.




Lemma indexOf_term (term : string) :
  In term semesterOrder -> 0 <= JS.indexOf semesterOrder term <= 2.
Proof.
  intros H. destruct (term_cases term H) as [(-> & _)|[(-> & _)|(-> & _)]]; lia.
Qed.











(** The two walks go in step. *)
Lemma collectSemesters_names endYear endSemester fuel :
  forall year term plans,
    collectSemesters fuel endYear endSemester year term (map semester plans)
    = map semester (generateSemesters fuel endYear endSemester year term plans).
Proof.
  induction fuel as [|fuel IH]; intros year term plans; auto.
  rewrite generateSemesters_turn. cbn [collectSemesters].
  destruct (beforeEnd endYear endSemester year term); auto.
  rewrite <- IH, map_app. reflexivity.
Qed.

(** X9.  The semesters the export lists are the semesters of the plan:
    for a student whose start term is a term, [getAllSemesters] gives
    the names of the semesters [resetPlan] makes, in the same order. *)
Theorem getAllSemesters_are_the_plan st info :
  userInfo st = Some info ->
  In (startSemester info) semesterOrder ->
  getAllSemesters (userInfo st) = map semester (semesterPlans (resetPlan st)).
Proof.
  intros Hinfo Hterm. unfold getAllSemesters, resetPlan. rewrite Hinfo.
  pose proof (indexOf_term _ Hterm).
  destruct (Z.eqb_spec (JS.indexOf semesterOrder (startSemester info)) (-1));
    [lia|].
  cbn [semesterPlans setPlans]. now rewrite <- collectSemesters_names.
Qed.

Lemma getAllSemesters_are_the_plan_witness :
  getAllSemesters (Some springStudent)
  = ["Spring 2025"; "Summer 2025"; "Fall 2025"].
Proof.
  apply (getAllSemesters_are_the_plan springState springStudent eq_refl).
  simpl. auto.
Defined.

End SequenceProofs.

(** ** The course picker and the store *)

Module PickerProofs.
Import Store StoreMore Page Validator Samples StoreProofs.

Lemma firstn_incl_succ {A : Type} (l : list A) (n : nat) :
  incl (firstn n l) (firstn (n + 1) l).
Proof.
  revert n. induction l as [|a l IH]; intros [|n]; simpl; intros x Hx; auto.
  - destruct Hx.
  - destruct Hx as [<-|Hx]; [now left|right]. now apply IH.
Qed.

(** A code available to the store is among the picker's added courses,
    up to spelling. *)
Lemma available_is_added ledger sem index v :
  JS.findIndex (named sem) ledger = Some index ->
  member (normalizeCourseCode v) (availableCodes index ledger) = true ->
  existsb (fun code => courseCodesMatch code v) (addedCourses ledger sem) = true.
Proof.
  intros Hi Hm. unfold addedCourses. fold (named sem). rewrite Hi.
  unfold member, availableCodes in Hm.
  apply existsb_exists in Hm as (n & Hn & Heq). apply String.eqb_eq in Heq.
  apply in_map_iff in Hn as (c & Hc & Hin).
  apply in_flat_map in Hin as (plan & Hplan & Hin).
  apply existsb_exists. exists (course_code c). split.
  - apply in_flat_map. exists plan. split.
    + now apply firstn_incl_succ.
    + now apply in_map.
  - unfold courseCodesMatch. apply String.eqb_eq. congruence.
Qed.

Lemma picker_follows_store ledger sem index course :
  JS.findIndex (named sem) ledger = Some index ->
  overridden course (availableCodes index ledger)
  || evaluate (prerequisites course) (availableCodes index ledger) = true ->
  arePrerequisitesSatisfied (addedCourses ledger sem) course = true.
Proof.
  intros Hi Hok. unfold arePrerequisitesSatisfied.
  destruct (prerequisites course) as [|g gs] eqn:Hp; auto. rewrite <- Hp.
  destruct (existsb _ (prerequisites course)); auto.
  apply orb_true_iff in Hok as [Hover|Heval].
  - unfold overridden in Hover. apply andb_true_iff in Hover as [Hcode Hm].
    rewrite Hcode.
    change "CSC1401" with (normalizeCourseCode "CSC1401") in Hm.
    now rewrite (available_is_added ledger sem index "CSC1401" Hi Hm).
  - destruct (String.eqb (course_code course) "CSC 2302" && _); auto.
    unfold evaluate in Heval. rewrite forallb_forall in *.
    intros group Hg. rewrite Hp in Hg. specialize (Heval group Hg).
    destruct group as [|alt group]; auto.
    apply existsb_exists in Heval as (a & Ha & Hm).
    apply existsb_exists. exists a. split; auto.
    now apply (available_is_added ledger sem index).
Qed.

(** X10.  The picker's prerequisite check never hides a course the
    store would take: a course that [addCourse] accepts into a semester
    of the ledger passes [arePrerequisitesSatisfied] for that
    semester. *)
Theorem accepted_course_passes_the_picker sem course st target :
  find (named sem) (semesterPlans st) = Some target ->
  addCourse sem course st
  = setPlans (withCourseAdded sem course (semesterPlans st)) st ->
  arePrerequisitesSatisfied (addedCourses (semesterPlans st) sem) course = true.
Proof.
  intros Hfind Hadd.
  destruct (find_findIndex _ _ _ Hfind) as (index & Hi & Hn).
  apply (picker_follows_store _ sem index); auto.
  rewrite (addCourse_found sem course st target index Hi Hn) in Hadd.
  destruct (duplicateInSemester course target);
    [now apply setError_setPlans in Hadd|].
  destruct (duplicateElsewhere course sem (semesterPlans st));
    [now apply setError_setPlans in Hadd|].
  destruct (creditLimitExceeded course target);
    [now apply setError_setPlans in Hadd|].
  destruct (overridden _ _ || evaluate _ _); auto.
  now apply setError_setPlans in Hadd.
Qed.

Lemma accepted_course_passes_the_picker_witness :
  arePrerequisitesSatisfied
    (addedCourses (semesterPlans withCalculus1) "Spring 2025") calculus2 = true.
Proof.
  apply (accepted_course_passes_the_picker "Spring 2025" calculus2
           withCalculus1 (emptyPlan "Spring 2025" regular));
    reflexivity.
Defined.

(** The picker is the looser of the two: it counts the semester's own
    courses. *)
Remark picker_counts_the_same_semester :
  arePrerequisitesSatisfied
    (addedCourses (semesterPlans withCalculus1) "Fall 2024") calculus2 = true
  /\ addCourse "Fall 2024" calculus2 withCalculus1
     = setError (reasonMessage PrerequisitesUnmet "MTH 2301" "Fall 2024")
                withCalculus1.
Proof. split; reflexivity. Qed.

(** X11.  Whatever the search term, a course the picker lists comes
    from the catalogue and [addCourse] does not refuse it as a duplicate
    in the semester; unless all courses are shown it also passes the
    picker's prerequisite check. *)
Theorem listed_course_is_new_to_the_semester
        data searchTerm showAll ledger sem target course :
  find (named sem) ledger = Some target ->
  In course (filteredCourses (Some data) searchTerm showAll ledger sem) ->
  In course data
  /\ duplicateInSemester course target = false
  /\ (showAll = false ->
      arePrerequisitesSatisfied (addedCourses ledger sem) course = true).
Proof.
  intros Hfind Hin. unfold filteredCourses in Hin.
  assert (In course
             (filter (fun course =>
                        negb (existsb (String.eqb (course_code course))
                                      (currentSemesterCourses ledger sem)))
                     (filter (fun course =>
                                Text.includes
                                  (Text.toLowerCase (course_code course))
                                  (Text.toLowerCase searchTerm)
                                || Text.includes
                                     (Text.toLowerCase (course_name course))
                                     (Text.toLowerCase searchTerm))
                             data))
          /\ (showAll = false ->
              arePrerequisitesSatisfied (addedCourses ledger sem) course = true))
    as [Hbase Hshown].
  { destruct showAll; cbn [negb] in Hin; [split; [exact Hin|discriminate]|].
    apply filter_In in Hin as [Hin Hok]. split; auto. intros _.
    destruct (prerequisites course) as [|g gs] eqn:Hp.
    - unfold arePrerequisitesSatisfied. now rewrite Hp.
    - destruct (existsb _ (g :: gs)) eqn:Hempty; auto.
      unfold arePrerequisitesSatisfied. now rewrite Hp, Hempty. }
  apply filter_In in Hbase as [Hbase Hnew].
  apply filter_In in Hbase as [Hdata _].
  repeat split; auto.
  unfold currentSemesterCourses in Hnew. fold (named sem) in Hnew.
  rewrite Hfind in Hnew. apply negb_true_iff in Hnew.
  unfold duplicateInSemester.
  destruct (existsb _ (courses target)) eqn:Hdup; auto.
  apply existsb_exists in Hdup as (c & Hc & Heq). apply String.eqb_eq in Heq.
  rewrite <- not_true_iff_false in Hnew. destruct Hnew.
  apply existsb_exists. exists (course_code c). split.
  - now apply in_map.
  - apply String.eqb_eq. congruence.
Qed.

Lemma listed_course_is_new_to_the_semester_witness :
  In calculus2 [calculus1; calculus2; physics1]
  /\ duplicateInSemester calculus2
       (placeIn calculus1 (emptyPlan "Fall 2024" regular)) = false
  /\ (false = false ->
      arePrerequisitesSatisfied
        (addedCourses (semesterPlans withCalculus1) "Fall 2024") calculus2
      = true).
Proof.
  apply (listed_course_is_new_to_the_semester
           [calculus1; calculus2; physics1] "mth" false
           (semesterPlans withCalculus1) "Fall 2024"
           (placeIn calculus1 (emptyPlan "Fall 2024" regular)) calculus2);
    [reflexivity|].
  vm_compute. auto.
Defined.

(** *** Prerequisite codes for display *)

Lemma take_drop n s : (Text.take n s ++ Text.drop n s)%string = s.
Proof.
  revert s. induction n as [|n IH]; intros [|c s]; simpl; auto.
  now rewrite IH.
Qed.

Lemma removeSpacesAndHyphens_app a b :
  JS.removeSpacesAndHyphens (a ++ b)
  = (JS.removeSpacesAndHyphens a ++ JS.removeSpacesAndHyphens b)%string.
Proof.
  induction a as [|c a IH]; simpl; auto.
  destruct (JS.isWhiteSpace c || Ascii.eqb c "-")%bool; simpl; now rewrite IH.
Qed.

Lemma normalizeCourseCode_nonempty code :
  code <> "" ->
  normalizeCourseCode code = JS.toUpperCase (JS.removeSpacesAndHyphens code).
Proof.
  intros H. unfold normalizeCourseCode.
  destruct (String.eqb_spec code ""); [contradiction|reflexivity].
Qed.

(** X12.  The code [getPrereqCode] shows for a course prerequisite, the
    value with a space after its third character, normalises to the same
    code as the value itself: the spaced spelling names the same
    course. *)
Theorem getPrereqCode_names_the_same_course p :
  type p = "course" ->
  normalizeCourseCode (getPrereqCode (PrereqObject p))
  = normalizeCourseCode (value p).
Proof.
  intros Htype. unfold getPrereqCode. rewrite Htype, String.eqb_refl.
  destruct (String.eqb_spec (value p) "") as [Hv|Hv]; cbn [negb andb].
  - now rewrite Hv.
  - rewrite (normalizeCourseCode_nonempty (value p) Hv).
    rewrite normalizeCourseCode_nonempty.
    + rewrite !removeSpacesAndHyphens_app. cbn [JS.removeSpacesAndHyphens].
      change (JS.isWhiteSpace " " || Ascii.eqb " " "-")%bool with true.
      cbn iota. cbn [append].
      now rewrite <- removeSpacesAndHyphens_app, take_drop.
    + destruct (Text.take 3 (value p)); discriminate.
Qed.

Lemma getPrereqCode_names_the_same_course_witness :
  normalizeCourseCode
    (getPrereqCode (PrereqObject {| type := "course"; value := "CSC1401" |}))
  = normalizeCourseCode "CSC1401".
Proof.
  apply (getPrereqCode_names_the_same_course
           {| type := "course"; value := "CSC1401" |}).
  reflexivity.
Defined.

End PickerProofs.

(** ** Invariants of the generated plan *)

Module GeneratorExtras.
Import Generator GeneratorProofs.

(** The codes scheduled in a list of semester plans. *)
Definition scheduledCodes (plans : list SemesterPlan) : list string :=
  flat_map (fun plan => map code (planCourses plan)) plans.

Lemma has_In (codes : list string) (k : string) :
  has codes k = true <-> In k codes.
Proof.
  unfold has. rewrite existsb_exists. split.
  - intros (x & Hx & Heq). apply String.eqb_eq in Heq. now subst.
  - intros H. exists k. split; auto. apply String.eqb_refl.
Qed.

Lemma has_false (codes : list string) (k : string) :
  has codes k = false <-> ~ In k codes.
Proof.
  rewrite <- has_In. destruct (has codes k); split; intros H; auto;
    try discriminate.
  now destruct H.
Qed.

Lemma firstn_In {A : Type} (n : nat) (l : list A) (x : A) :
  In x (firstn n l) -> In x l.
Proof.
  revert l. induction n as [|n IH]; intros [|a l]; simpl; try tauto.
  intros [<-|H]; auto.
Qed.

(** The [takenCourses] set after the courses of a semester are added. *)
Lemma taken_after (cs : list Course) :
  forall taken k,
    In k (fold_left
            (fun t course =>
               if has t (code course) then t else (t ++ [code course])%list)
            cs taken)
    <-> In k taken \/ In k (map code cs).
Proof.
  induction cs as [|c cs IH]; intros taken k; simpl; [tauto|].
  rewrite IH. destruct (has taken (code c)) eqn:Hc.
  - apply has_In in Hc. split; [tauto|].
    intros [H|[<-|H]]; auto.
  - rewrite in_app_iff. simpl. tauto.
Qed.

Section OnePlan.
Variable engine : ArraySort.
Variable requirements : MajorRequirements.
Variable options : DegreePlanOptions.

Let met := arePrerequisitesMet requirements options.
Let step := planOneSemester (sortWith engine) requirements options.

(** The end of a turn of the loop, given the courses picked and the
    summer terms left. *)
Definition finish (s : LoopState) (semesterCourses : list Course)
           (remaining : Z) : LoopState :=
  match semesterCourses with
  | [] =>
      {| currentSemester := currentSemester s + 1;
         totalSoFar := totalSoFar s;
         remainingSummerTerms := remaining;
         takenCourses := takenCourses s;
         categoryCredits := categoryCredits s;
         semesterPlans := semesterPlans s |}
  | _ :: _ =>
      {| currentSemester := currentSemester s + 1;
         totalSoFar := totalSoFar s + sumCredits semesterCourses;
         remainingSummerTerms := remaining;
         takenCourses :=
           fold_left
             (fun t course =>
                if has t (code course) then t else (t ++ [code course])%list)
             semesterCourses (takenCourses s);
         categoryCredits :=
           fold_left
             (fun cc course =>
                match category course with
                | Some k =>
                    if String.eqb k "" then cc
                    else addCredits k (credits course) cc
                | None => cc
                end)
             semesterCourses (categoryCredits s);
         semesterPlans :=
           (semesterPlans s
            ++ [ {| planSemester := currentSemester s;
                    planCourses := semesterCourses;
                    planCredits := sumCredits semesterCourses;
                    planType :=
                      if currentSemester s mod 3 =? 0 then summer else regular
                 |} ])%list |}
  end.

(** What the loop picks for a semester. *)
Record Picked (s : LoopState) (cs : list Course) (remaining : Z) : Prop := {
  picked_new : forall c, In c cs -> has (takenCourses s) (code c) = false;
  picked_met : forall c, In c cs -> met (takenCourses s) c = true;
  picked_load : (length cs <= 6)%nat;
  picked_summer :
    currentSemester s mod 3 = 0 ->
    (length cs <= 3)%nat
    /\ (cs <> [] ->
        includeSummer options = true /\ 0 < remainingSummerTerms s
        /\ remaining = remainingSummerTerms s - 1);
  picked_left :
    remaining = remainingSummerTerms s
    \/ (currentSemester s mod 3 = 0 /\ 0 < remainingSummerTerms s
        /\ remaining = remainingSummerTerms s - 1)
}.

Lemma genEd_picked taken cc maxCourses c :
  In c (getAvailableGenEdCourses (sortWith engine) requirements options
                                 taken cc maxCourses) ->
  has taken (code c) = false /\ met taken c = true.
Proof.
  unfold getAvailableGenEdCourses. rewrite sort_foundationFirst.
  assert (forall l,
             In c (filter isFoundation l
                   ++ filter (fun x => negb (isFoundation x)) l)%list ->
             In c l) as Hpart.
  { intros l H. apply in_app_or in H as [H|H];
      now apply filter_In in H as [H _]. }
  intros H.
  assert (In c (filter (fun c => required c && negb (has taken (code c))
                                 && arePrerequisitesMet requirements options
                                                        taken c)
                       (area requirements options 1))
          \/ In c (filter
                     (fun c =>
                        negb (required c) && negb (has taken (code c))
                        && arePrerequisitesMet requirements options taken c
                        && match category c with
                           | Some k =>
                               lessThan
                                 (getCredits k cc)
                                 (option_map creditsRequired
                                    (find (fun g => String.eqb (categoryName g) k)
                                          GE_CATEGORIES))
                           | None => false
                           end)
                     (area requirements options 1))) as [Hin|Hin].
  { destruct (Nat.ltb _ maxCourses).
    - apply in_app_or in H as [H|H].
      + left. apply Hpart. eapply firstn_In; eauto.
      + right. eapply firstn_In; eauto.
    - left. apply Hpart. eapply firstn_In; eauto. }
  - apply filter_In in Hin as [_ Hin].
    apply andb_true_iff in Hin as [Hin Hmet].
    apply andb_true_iff in Hin as [_ Hnew].
    now apply negb_true_iff in Hnew.
  - apply filter_In in Hin as [_ Hin].
    apply andb_true_iff in Hin as [Hin _].
    apply andb_true_iff in Hin as [Hin Hmet].
    apply andb_true_iff in Hin as [_ Hnew].
    now apply negb_true_iff in Hnew.
Qed.

Lemma genEd_load taken cc maxCourses :
  (length (getAvailableGenEdCourses (sortWith engine) requirements options
                                    taken cc maxCourses) <= maxCourses)%nat.
Proof.
  unfold getAvailableGenEdCourses.
  set (sorted := sortWith engine foundationFirst _).
  pose proof (firstn_le_length maxCourses sorted) as Hfirst.
  destruct (Nat.ltb_spec (length (firstn maxCourses sorted)) maxCourses); auto.
  rewrite length_app.
  set (electives := filter _ _).
  pose proof (firstn_le_length (maxCourses - length (firstn maxCourses sorted))
                               electives).
  lia.
Qed.

Lemma technical_picked (l : list Course) taken n c :
  In c (firstn n
          (filter (fun c => negb (has taken (code c))
                            && arePrerequisitesMet requirements options taken c)
                  l)) ->
  has taken (code c) = false
  /\ arePrerequisitesMet requirements options taken c = true.
Proof.
  intros Hin. apply firstn_In in Hin. apply filter_In in Hin as [_ Hin].
  apply andb_true_iff in Hin as [Hnew Hmet].
  now apply negb_true_iff in Hnew.
Qed.

Lemma light_picked (l : list Course) taken n c :
  In c (firstn n
          (filter (fun c => negb (has taken (code c))
                            && arePrerequisitesMet requirements options taken c
                            && (credits c <=? 3)
                            && negb (JS.startsWith (code c) "CSC"))
                  l)) ->
  has taken (code c) = false
  /\ arePrerequisitesMet requirements options taken c = true.
Proof.
  intros Hin. apply firstn_In in Hin. apply filter_In in Hin as [_ Hin].
  apply andb_true_iff in Hin as [Hin _].
  apply andb_true_iff in Hin as [Hin _].
  apply andb_true_iff in Hin as [Hnew Hmet].
  now apply negb_true_iff in Hnew.
Qed.

(** One turn of the loop ends as [finish] on courses that are new and
    have their prerequisites taken. *)
Lemma step_picks s :
  exists cs remaining, Picked s cs remaining /\ step s = finish s cs remaining.
Proof.
  unfold step, planOneSemester.
  destruct (Z.eqb_spec (currentSemester s mod 3) 0) as [Hsummer|Hregular];
    cbn [negb].
  - destruct (includeSummer options && (remainingSummerTerms s >? 0)) eqn:Hgo.
    + apply andb_true_iff in Hgo as [Hinc Hrem].
      assert (0 < remainingSummerTerms s) as Hpos
        by (destruct (Z.gtb_spec (remainingSummerTerms s) 0); [lia|discriminate]).
      eexists _, _. split; [|unfold finish; rewrite Hsummer; reflexivity].
      assert (forall c,
                 In c (getAvailableGenEdCourses
                         (sortWith engine) requirements options
                         (takenCourses s) (categoryCredits s) 2
                       ++ firstn 1
                            (filter
                               (fun c =>
                                  negb (has (takenCourses s) (code c))
                                  && arePrerequisitesMet requirements options
                                       (takenCourses s) c
                                  && (credits c <=? 3)
                                  && negb (JS.startsWith (code c) "CSC"))
                               (area requirements options 0)))%list ->
                 has (takenCourses s) (code c) = false
                 /\ met (takenCourses s) c = true) as Hboth.
      { intros c Hc. apply in_app_or in Hc as [Hc|Hc].
        - now apply genEd_picked in Hc.
        - now apply light_picked in Hc. }
      assert (length
                (getAvailableGenEdCourses
                   (sortWith engine) requirements options
                   (takenCourses s) (categoryCredits s) 2
                 ++ firstn 1
                      (filter
                         (fun c =>
                            negb (has (takenCourses s) (code c))
                            && arePrerequisitesMet requirements options
                                 (takenCourses s) c
                            && (credits c <=? 3)%Z
                            && negb (JS.startsWith (code c) "CSC"))
                         (area requirements options 0)))%list <= 3)%nat
        as Hload.
      { rewrite length_app.
        pose proof (genEd_load (takenCourses s) (categoryCredits s) 2).
        match goal with
        | |- context [firstn 1 ?l] => pose proof (firstn_le_length 1 l)
        end. lia. }
      split.
      * intros c Hc. now apply Hboth.
      * intros c Hc. now apply Hboth.
      * lia.
      * intros _. split; auto.
      * right. auto.
    + exists [], (remainingSummerTerms s).
      split; [|unfold finish; reflexivity].
      split.
      * intros c [].
      * intros c [].
      * simpl. lia.
      * intros _. split; [simpl; lia|]. intros H. now destruct H.
      * now left.
  - eexists _, _. split.
    2:{ unfold finish.
        destruct (Z.eqb_spec (currentSemester s mod 3) 0); [contradiction|].
        reflexivity. }
    assert (forall c,
               In c (firstn 3
                       (filter
                          (fun c =>
                             negb (has (takenCourses s) (code c))
                             && arePrerequisitesMet requirements options
                                  (takenCourses s) c)
                          (area requirements options 0
                           ++ area requirements options 2))
                     ++ getAvailableGenEdCourses
                          (sortWith engine) requirements options
                          (takenCourses s) (categoryCredits s) 3)%list ->
               has (takenCourses s) (code c) = false
               /\ met (takenCourses s) c = true) as Hboth.
    { intros c Hc. apply in_app_or in Hc as [Hc|Hc].
      - now apply technical_picked in Hc.
      - now apply genEd_picked in Hc. }
    split.
    + intros c Hc. now apply Hboth.
    + intros c Hc. now apply Hboth.
    + rewrite length_app.
      pose proof (genEd_load (takenCourses s) (categoryCredits s) 3).
      match goal with
      | |- context [firstn 3 ?l] => pose proof (firstn_le_length 3 l)
      end. lia.
    + intros H. contradiction.
    + now left.
Qed.

End OnePlan.

Section Invariants.
Variable engine : ArraySort.
Variable requirements : MajorRequirements.
Variable options : DegreePlanOptions.

(** The prerequisites the generator has on record for a course. *)
Definition prereqsOf (c : Course) : list string :=
  match mapGet (code c) (prerequisiteMap requirements options) with
  | Some ps => ps
  | None => []
  end.

Definition isSummerPlan (plan : SemesterPlan) : bool :=
  match planType plan with
  | summer => true
  | regular => false
  end.

Definition summerPlans (plans : list SemesterPlan) : Z :=
  Z.of_nat (length (filter isSummerPlan plans)).

Definition firstPlan : SemesterPlan :=
  {| planSemester := 1;
     planCourses := firstSemesterCourses;
     planCredits := 15;
     planType := regular |}.

Lemma met_prereqs taken c :
  arePrerequisitesMet requirements options taken c = true ->
  forall k, In k (prereqsOf c) -> In k taken.
Proof.
  unfold arePrerequisitesMet, prereqsOf.
  destruct (mapGet (code c) (prerequisiteMap requirements options))
    as [[|p ps]|]; intros H k Hk; try now destruct Hk.
  rewrite forallb_forall in H. now apply has_In, H.
Qed.

(** What holds of the loop's state after every turn. *)
Record Good (s : LoopState) : Prop := {
  good_taken :
    forall k, In k (takenCourses s) <-> In k (scheduledCodes (semesterPlans s));
  good_first : hd_error (semesterPlans s) = Some firstPlan;
  good_sorted : StronglySorted Z.lt (map planSemester (semesterPlans s));
  good_numbers :
    forall p, In p (semesterPlans s) ->
              1 <= planSemester p < currentSemester s
              /\ planSemester p <= MAX_SEMESTERS;
  good_unique :
    forall p q c d,
      In p (semesterPlans s) -> In q (semesterPlans s) ->
      planSemester p < planSemester q ->
      In c (planCourses p) -> In d (planCourses q) -> code c <> code d;
  good_prereqs :
    forall q c k,
      In q (semesterPlans s) -> planSemester q <> 1 ->
      In c (planCourses q) -> In k (prereqsOf c) ->
      exists e, In e (semesterPlans s) /\ planSemester e < planSemester q
                /\ In k (map code (planCourses e));
  good_load :
    forall q, In q (semesterPlans s) -> planSemester q <> 1 ->
              planCourses q <> [] /\ (length (planCourses q) <= 6)%nat
              /\ (planType q = summer -> (length (planCourses q) <= 3)%nat);
  good_credits :
    forall q, In q (semesterPlans s) ->
              planCredits q = sumCredits (planCourses q);
  good_type :
    forall q, In q (semesterPlans s) ->
              (planType q = summer <-> planSemester q mod 3 = 0);
  good_summer :
    (forall q, In q (semesterPlans s) -> planType q = summer ->
               includeSummer options = true)
    /\ summerPlans (semesterPlans s) + remainingSummerTerms s
       <= summerTerms options
    /\ (0 < summerPlans (semesterPlans s) -> 0 <= remainingSummerTerms s)
}.

Lemma good_start : Good (afterFirstSemester options).
Proof.
  split; cbn [afterFirstSemester semesterPlans takenCourses currentSemester
              remainingSummerTerms].
  - intros k. unfold scheduledCodes. cbn [flat_map planCourses].
    now rewrite app_nil_r.
  - reflexivity.
  - repeat constructor.
  - intros p [<-|[]]. vm_compute. repeat split; discriminate.
  - intros p q c d [<-|[]] [<-|[]] H. cbn [planSemester] in H. lia.
  - intros q c k [<-|[]] H. now destruct H.
  - intros q [<-|[]] H. now destruct H.
  - intros q [<-|[]]. reflexivity.
  - intros q [<-|[]]. cbn [planType planSemester]. split; discriminate.
  - split; [|split].
    + intros q [<-|[]]. discriminate.
    + cbn. lia.
    + cbn. lia.
Qed.

Lemma StronglySorted_snoc (l : list Z) (x : Z) :
  StronglySorted Z.lt l -> (forall y, In y l -> y < x) ->
  StronglySorted Z.lt (l ++ [x]).
Proof.
  induction 1 as [|a l Hs IH Ha]; intros Hx; simpl.
  - repeat constructor.
  - constructor.
    + apply IH. intros y Hy. apply Hx. now right.
    + apply Forall_app. split; auto. constructor; [|constructor].
      apply Hx. now left.
Qed.

Lemma scheduledCodes_snoc plans plan :
  scheduledCodes (plans ++ [plan])
  = (scheduledCodes plans ++ map code (planCourses plan))%list.
Proof.
  unfold scheduledCodes. rewrite flat_map_app. simpl. now rewrite app_nil_r.
Qed.

Lemma scheduledCodes_In plans k :
  In k (scheduledCodes plans) <->
  exists e, In e plans /\ In k (map code (planCourses e)).
Proof. unfold scheduledCodes. apply in_flat_map. Qed.

Lemma summerPlans_snoc plans plan :
  summerPlans (plans ++ [plan])
  = summerPlans plans + (if isSummerPlan plan then 1 else 0).
Proof.
  unfold summerPlans. rewrite filter_app, length_app. simpl.
  destruct (isSummerPlan plan); simpl; lia.
Qed.

(** A turn of the loop keeps the state good. *)
Lemma good_finish s cs remaining :
  Good s -> currentSemester s <= MAX_SEMESTERS ->
  Picked requirements options s cs remaining ->
  Good (finish s cs remaining).
Proof.
  intros G Hmax P. destruct G, P.
  destruct good_summer0 as (Hsum1 & Hsum2 & Hsum3).
  destruct cs as [|c0 cs0].
  - split; cbn [finish semesterPlans takenCourses currentSemester
                remainingSummerTerms]; auto.
    + intros p Hp. destruct (good_numbers0 p Hp). lia.
    + split; [auto|]. destruct picked_left0 as [->|(_ & Hpos & ->)]; lia.
  - unfold finish. set (cs := c0 :: cs0) in *.
    assert (cs <> []) as Hne by discriminate.
    set (new := {| planSemester := currentSemester s;
                   planCourses := cs;
                   planCredits := sumCredits cs;
                   planType := if currentSemester s mod 3 =? 0 then summer
                               else regular |}).
    assert (planSemester new = currentSemester s) as Hnumber by reflexivity.
    assert (planCourses new = cs) as Hcourses by reflexivity.
    assert (planCredits new = sumCredits cs) as Hcredits by reflexivity.
    assert (planType new = if currentSemester s mod 3 =? 0 then summer
                           else regular) as Htype by reflexivity.
    clearbody new.
    assert (forall p, In p (semesterPlans s ++ [new]) ->
                      In p (semesterPlans s) \/ p = new) as Hsplit.
    { intros p Hp. apply in_app_or in Hp as [Hp|[<-|[]]]; auto. }
    assert (forall d, In d cs -> ~ In (code d) (scheduledCodes (semesterPlans s)))
      as Hfresh.
    { intros d Hd Hin. apply good_taken0 in Hin.
      apply picked_new0 in Hd. apply has_false in Hd. contradiction. }
    assert (2 <= currentSemester s) as Htwo.
    { destruct (semesterPlans s) as [|f rest] eqn:Hplans; [discriminate|].
      injection good_first0 as ->.
      destruct (good_numbers0 firstPlan (or_introl eq_refl)) as [Hone _].
      cbn [planSemester firstPlan] in Hone. lia. }
    split; cbn [semesterPlans takenCourses currentSemester
                remainingSummerTerms].
    + intros k. rewrite taken_after, scheduledCodes_snoc, in_app_iff,
        good_taken0, Hcourses. reflexivity.
    + destruct (semesterPlans s); [discriminate|exact good_first0].
    + rewrite map_app. apply StronglySorted_snoc; auto.
      intros y Hy. apply in_map_iff in Hy as (p & <- & Hp).
      destruct (good_numbers0 p Hp). lia.
    + intros p Hp. destruct (Hsplit p Hp) as [Hold| ->].
      * destruct (good_numbers0 p Hold). lia.
      * lia.
    + intros p q c d Hp Hq Hlt Hc Hd.
      destruct (Hsplit p Hp) as [Hp'| ->], (Hsplit q Hq) as [Hq'| ->].
      * eauto.
      * intros Heq. rewrite Hcourses in Hd. apply (Hfresh d Hd).
        rewrite <- Heq. apply scheduledCodes_In. exists p. split; auto.
        now apply in_map.
      * destruct (good_numbers0 q Hq'). lia.
      * lia.
    + intros q c k Hq Hnot Hc Hk. destruct (Hsplit q Hq) as [Hq'| ->].
      * destruct (good_prereqs0 q c k Hq' Hnot Hc Hk) as (e & He & Hlt & Hin).
        exists e. split; auto. apply in_or_app. now left.
      * rewrite Hcourses in Hc.
        pose proof (met_prereqs _ _ (picked_met0 c Hc) k Hk) as Htaken.
        apply good_taken0, scheduledCodes_In in Htaken as (e & He & Hin).
        exists e. split; [apply in_or_app; now left|]. split; auto.
        destruct (good_numbers0 e He). lia.
    + intros q Hq Hnot. destruct (Hsplit q Hq) as [Hq'| ->]; auto.
      rewrite Hcourses, Htype. split; auto. split; auto.
      destruct (Z.eqb_spec (currentSemester s mod 3) 0) as [Hmod|];
        [|discriminate].
      intros _. now destruct (picked_summer0 Hmod).
    + intros q Hq. destruct (Hsplit q Hq) as [Hq'| ->]; auto.
      now rewrite Hcredits, Hcourses.
    + intros q Hq. destruct (Hsplit q Hq) as [Hq'| ->]; auto.
      rewrite Htype, Hnumber.
      destruct (Z.eqb_spec (currentSemester s mod 3) 0); split; auto;
        try discriminate. contradiction.
    + assert (isSummerPlan new = (currentSemester s mod 3 =? 0)) as Hsummer.
      { unfold isSummerPlan. rewrite Htype.
        now destruct (currentSemester s mod 3 =? 0). }
      rewrite summerPlans_snoc, Hsummer.
      assert (0 <= summerPlans (semesterPlans s)) as Hcount
        by (unfold summerPlans; lia).
      destruct (Z.eqb_spec (currentSemester s mod 3) 0) as [Hmod|Hmod].
      * destruct (picked_summer0 Hmod) as (_ & Hgo).
        destruct (Hgo Hne) as (Hinc & Hpos & ->).
        split; [|lia].
        intros q Hq Hs. destruct (Hsplit q Hq) as [Hq'| ->]; eauto.
      * destruct picked_left0 as [->|(Hmod' & _)]; [|contradiction].
        split; [|lia].
        intros q Hq Hs. destruct (Hsplit q Hq) as [Hq'| ->]; eauto.
        rewrite Htype in Hs.
        destruct (Z.eqb_spec (currentSemester s mod 3) 0);
          [contradiction|discriminate].
Qed.

Lemma good_planRemaining fuel :
  forall s,
    Good s ->
    Good (planRemaining (sortWith engine) requirements options fuel s).
Proof.
  induction fuel as [|fuel IH]; intros s G; simpl; auto.
  destruct (Z.leb_spec (currentSemester s) MAX_SEMESTERS) as [Hmax|]; auto.
  destruct (totalSoFar s <? totalCredits requirements); auto. cbn [andb].
  apply IH.
  destruct (step_picks engine requirements options s) as (cs & rem & P & ->).
  now apply good_finish.
Qed.

Lemma good_generated :
  exists s,
    Good s
    /\ generateDegreePlan (sortWith engine) requirements options
       = semesterPlans s.
Proof.
  eexists. split; [|reflexivity]. apply good_planRemaining, good_start.
Qed.

End Invariants.

Lemma sorted_nth (l : list Z) :
  StronglySorted Z.lt l ->
  forall i j x y,
    (i < j)%nat -> nth_error l i = Some x -> nth_error l j = Some y -> x < y.
Proof.
  induction 1 as [|a l Hs IH Ha]; intros i j x y Hlt Hi Hj.
  - now destruct i.
  - destruct j as [|j]; [lia|]. destruct i as [|i]; simpl in *.
    + injection Hi as <-. rewrite Forall_forall in Ha.
      apply Ha. eapply nth_error_In; eauto.
    + apply (IH i j); auto. lia.
Qed.

Section GeneratedPlan.
Variable engine : ArraySort.
Variable requirements : MajorRequirements.
Variable options : DegreePlanOptions.

Let plans := generateDegreePlan (sortWith engine) requirements options.

Lemma number_at j q :
  forall s, Good requirements options s -> plans = semesterPlans s ->
  nth_error plans j = Some q ->
  (0 < j)%nat -> planSemester q <> 1.
Proof.
  intros s G Hs Hq Hj. destruct G. rewrite <- Hs in *.
  destruct plans as [|f rest] eqn:Hplans; [discriminate|].
  injection good_first0 as ->.
  assert (planSemester firstPlan < planSemester q); [|cbn in *; lia].
  apply (sorted_nth _ good_sorted0 0%nat j); auto.
  rewrite nth_error_map, Hq. reflexivity.
Qed.

(** X13.  Whatever the catalogue and the options, the generated plan
    starts with the fixed first semester, numbered 1, and its semester
    numbers go strictly up and stay within 1 and 12. *)
Theorem generated_plan_is_numbered :
  hd_error plans = Some firstPlan
  /\ StronglySorted Z.lt (map planSemester plans)
  /\ forall p, In p plans -> 1 <= planSemester p <= 12.
Proof.
  destruct (good_generated engine requirements options) as (s & G & Hs).
  fold plans in Hs. rewrite Hs. destruct G. repeat split; auto.
  - now destruct (good_numbers0 p H).
  - destruct (good_numbers0 p H) as [_ Hmax]. exact Hmax.
Qed.

(** X14.  No course code is scheduled in two different semesters of the
    generated plan. *)
Theorem generated_plan_has_no_repeats i j p q c d :
  i <> j -> nth_error plans i = Some p -> nth_error plans j = Some q ->
  In c (planCourses p) -> In d (planCourses q) -> code c <> code d.
Proof.
  destruct (good_generated engine requirements options) as (s & G & Hs).
  fold plans in Hs. rewrite Hs. destruct G.
  intros Hij Hp Hq Hc Hd.
  assert (forall a b x y,
             (a < b)%nat -> nth_error (semesterPlans s) a = Some x ->
             nth_error (semesterPlans s) b = Some y ->
             planSemester x < planSemester y) as Horder.
  { intros a b x y Hab Ha Hb.
    apply (sorted_nth _ good_sorted0 a b); auto;
      rewrite nth_error_map; [now rewrite Ha|now rewrite Hb]. }
  destruct (Nat.lt_total i j) as [Hlt|[Heq|Hgt]]; [|contradiction|].
  - apply (good_unique0 p q); eauto using nth_error_In.
  - intros Heq. symmetry in Heq. revert Heq.
    apply (good_unique0 q p); eauto using nth_error_In.
Qed.

(** X15.  In the generated plan every course after the first semester
    has each prerequisite the generator has on record for it scheduled
    in a strictly earlier semester. *)
Theorem generated_plan_respects_prerequisites j q c k :
  nth_error plans j = Some q -> (0 < j)%nat ->
  In c (planCourses q) -> In k (prereqsOf requirements options c) ->
  exists i e,
    (i < j)%nat /\ nth_error plans i = Some e
    /\ In k (map code (planCourses e)).
Proof.
  destruct (good_generated engine requirements options) as (s & G & Hs).
  fold plans in Hs. intros Hq Hj Hc Hk.
  pose proof (number_at j q s G Hs Hq Hj) as Hnot.
  destruct G. rewrite Hs in *.
  destruct (good_prereqs0 q c k (nth_error_In _ _ Hq) Hnot Hc Hk)
    as (e & He & Hlt & Hin).
  apply In_nth_error in He as (i & Hi). exists i, e. repeat split; auto.
  destruct (Nat.lt_ge_cases i j) as [|Hge]; auto. exfalso.
  destruct (Nat.eq_dec i j) as [->|Hne]; [assert (e = q) by congruence; subst; lia|].
  assert (planSemester q < planSemester e); [|lia].
  apply (sorted_nth _ good_sorted0 j i); [lia| |];
    rewrite nth_error_map; [now rewrite Hq|now rewrite Hi].
Qed.

(** X16.  Every semester the generator adds after the first holds at
    least one course and at most six, a summer one at most three, and the
    credits of every semester are the sum of the credits of its
    courses. *)
Theorem generated_plan_loads j q :
  nth_error plans j = Some q ->
  planCredits q = sumCredits (planCourses q)
  /\ ((0 < j)%nat ->
      (1 <= length (planCourses q) <= 6)%nat
      /\ (planType q = summer -> (length (planCourses q) <= 3)%nat)).
Proof.
  destruct (good_generated engine requirements options) as (s & G & Hs).
  fold plans in Hs. intros Hq. split.
  - destruct G. rewrite Hs in Hq. apply good_credits0.
    eapply nth_error_In; eauto.
  - intros Hj. pose proof (number_at j q s G Hs Hq Hj) as Hnot.
    destruct G. rewrite Hs in Hq.
    destruct (good_load0 q (nth_error_In _ _ Hq) Hnot) as (Hne & Hsix & Hthree).
    repeat split; auto. destruct (planCourses q); [contradiction|simpl; lia].
Qed.

(** X17.  A semester of the generated plan is a summer one exactly when
    its number is a multiple of three; there is none unless summers are
    asked for, and never more of them than the summer terms allowed. *)
Theorem generated_plan_summers :
  (forall q, In q plans ->
             (planType q = summer <-> planSemester q mod 3 = 0)
             /\ (planType q = summer -> includeSummer options = true))
  /\ summerPlans plans <= Z.max 0 (summerTerms options).
Proof.
  destruct (good_generated engine requirements options) as (s & G & Hs).
  fold plans in Hs. rewrite Hs. destruct G.
  destruct good_summer0 as (H1 & H2 & H3). split.
  - intros q Hq. split; auto. intros Hsum. eauto.
  - assert (0 <= summerPlans (semesterPlans s)) by (unfold summerPlans; lia).
    lia.
Qed.

End GeneratedPlan.

(** The plan generated for the sample catalogue, and its semesters. *)
Definition samplePlan : list SemesterPlan :=
  generateDegreePlan insertionSort sampleRequirements sampleOptions.

Definition sampleSemester (i : nat) : SemesterPlan := nth i samplePlan firstPlan.

Definition sampleCourse (i k : nat) : Course :=
  nth k (planCourses (sampleSemester i)) (firstCourse "" "" 0).

Lemma generated_plan_has_no_repeats_witness :
  code (sampleCourse 1 0) <> code (sampleCourse 3 0).
Proof.
  apply (generated_plan_has_no_repeats insertionEngine sampleRequirements
           sampleOptions 1%nat 3%nat (sampleSemester 1) (sampleSemester 3));
    [discriminate|reflexivity|reflexivity|vm_compute; auto|vm_compute; auto].
Defined.

Lemma generated_plan_respects_prerequisites_witness :
  exists i e,
    (i < 3)%nat /\ nth_error samplePlan i = Some e
    /\ In "CSC 2302" (map code (planCourses e)).
Proof.
  apply (generated_plan_respects_prerequisites insertionEngine
           sampleRequirements sampleOptions 3%nat (sampleSemester 3)
           (sampleCourse 3 0) "CSC 2302");
    [reflexivity|lia|vm_compute; auto|vm_compute; auto].
Defined.

Lemma generated_plan_loads_witness :
  planCredits (sampleSemester 2) = sumCredits (planCourses (sampleSemester 2))
  /\ ((0 < 2)%nat ->
      (1 <= length (planCourses (sampleSemester 2)) <= 6)%nat
      /\ (planType (sampleSemester 2) = summer ->
          (length (planCourses (sampleSemester 2)) <= 3)%nat)).
Proof.
  apply (generated_plan_loads insertionEngine sampleRequirements sampleOptions
           2%nat (sampleSemester 2)).
  reflexivity.
Defined.

End GeneratorExtras.


(** ** Importing a plan *)

Module ImportProofs.
Import Store StoreMore Page Validator Samples ImportSamples StoreProofs.
Import RulesProofs.

(** *** Numbers written and read back *)

Lemma parseDigits_digit (c : ascii) (d : Z) (r : string) (acc : option Z) :
  JS.digitValue c = Some d -> (d <? 10) = true ->
  JS.parseDigits 10 (String c r) acc
  = JS.parseDigits 10 r
      (Some (10 * match acc with Some a => a | None => 0 end + d)).
Proof. intros Hd Hlt. cbn [JS.parseDigits]. now rewrite Hd, Hlt. Qed.

Lemma parseDigits_acc (d : Decimal.uint) :
  forall acc,
    JS.parseDigits 10 (NilEmpty.string_of_uint d) (Some (Z.pos acc))
    = Some (Z.pos (Pos.of_uint_acc d acc)).
Proof.
  induction d; intros acc; cbn [NilEmpty.string_of_uint Pos.of_uint_acc];
    [reflexivity|..];
    (erewrite parseDigits_digit by reflexivity);
    match goal with
    | |- JS.parseDigits 10 _ (Some (_ + ?v)) = _ =>
        let w := eval vm_compute in v in change v with w
    end;
    rewrite <- IHd; do 2 f_equal; lia.
Qed.

Lemma parseDigits_zero (d : Decimal.uint) :
  JS.parseDigits 10 (NilEmpty.string_of_uint d) (Some 0)
  = Some (Z.of_N (Pos.of_uint d)).
Proof.
  induction d; cbn [NilEmpty.string_of_uint Pos.of_uint];
    [reflexivity|..];
    (erewrite parseDigits_digit by reflexivity);
    match goal with
    | |- JS.parseDigits 10 _ (Some ?v) = _ =>
        let w := eval vm_compute in v in change v with w
    end;
    [exact IHd|..]; apply parseDigits_acc.
Qed.

Lemma parseDigits_start (d : Decimal.uint) :
  d <> Decimal.Nil ->
  JS.parseDigits 10 (NilEmpty.string_of_uint d) None
  = Some (Z.of_N (Pos.of_uint d)).
Proof.
  intros Hd. rewrite <- parseDigits_zero.
  destruct d; [contradiction|..]; cbn [NilEmpty.string_of_uint];
    (erewrite parseDigits_digit by reflexivity);
    symmetry; (erewrite parseDigits_digit by reflexivity); reflexivity.
Qed.

(** The digits of a number: no white space, no sign, no letter. *)
Definition isDigit (c : ascii) : bool :=
  let n := nat_of_ascii c in (Nat.leb 48 n && Nat.leb n 57)%bool.

Fixpoint allDigits (s : string) : bool :=
  match s with
  | EmptyString => true
  | String c r => isDigit c && allDigits r
  end.

Lemma string_of_uint_digits (d : Decimal.uint) :
  allDigits (NilEmpty.string_of_uint d) = true.
Proof. induction d; cbn; auto. Qed.

(** [parseInt] of a string of digits, read in base ten. *)
Lemma parseInt_digits (s : string) :
  s <> "" -> allDigits s = true ->
  JS.parseInt s
  = match JS.parseDigits 10 s None with
    | Some n => JS.Num n
    | None => JS.NaN
    end.
Proof.
  intros Hne Hd. destruct s as [|c r]; [contradiction|].
  cbn [allDigits] in Hd. apply andb_true_iff in Hd as [Hc Hr].
  assert (JS.isWhiteSpace c = false /\ c <> "-"%char /\ c <> "+"%char) as (Hw & Hm & Hp).
  { unfold isDigit in Hc. unfold JS.isWhiteSpace.
    apply andb_true_iff in Hc as [H1 H2].
    apply Nat.leb_le in H1, H2.
    repeat split.
    - repeat (apply orb_false_iff; split); apply Nat.eqb_neq; lia.
    - intros ->. cbn in H1. lia.
    - intros ->. cbn in H1. lia. }
  unfold JS.parseInt. cbn [JS.trimStart]. rewrite Hw.
  assert ((match String c r with
           | String "-" r0 => (-1, r0)
           | String "+" r0 => (1, r0)
           | _ => (1, String c r)
           end) = (1, String c r)) as ->.
  { destruct c as [[] [] [] [] [] [] [] []]; try reflexivity;
      exfalso; (now apply Hm) || (now apply Hp). }
  assert ((match String c r with
           | String "0" (String x r0) =>
               if (Ascii.eqb x "x" || Ascii.eqb x "X")%bool then (16, r0)
               else (10, String c r)
           | _ => (10, String c r)
           end) = (10, String c r)) as ->.
  { destruct r as [|x r0].
    - destruct c as [[] [] [] [] [] [] [] []]; reflexivity.
    - cbn [allDigits] in Hr. apply andb_true_iff in Hr as [Hx _].
      assert ((Ascii.eqb x "x" || Ascii.eqb x "X")%bool = false) as Hnot.
      { unfold isDigit in Hx. apply andb_true_iff in Hx as [H1 H2].
        apply Nat.leb_le in H1, H2.
        apply orb_false_iff. split; apply Ascii.eqb_neq; intros ->;
          cbn in H2; lia. }
      destruct c as [[] [] [] [] [] [] [] []]; try reflexivity.
      now rewrite Hnot. }
  destruct (JS.parseDigits 10 (String c r) None); [f_equal; lia | reflexivity].
Qed.

Lemma string_of_uint_nonempty (d : Decimal.uint) :
  d <> Decimal.Nil -> NilEmpty.string_of_uint d <> "".
Proof. destruct d; [contradiction|..]; discriminate. Qed.

Lemma toString_positive (p : positive) :
  JS.toString (Z.pos p) = NilEmpty.string_of_uint (Pos.to_uint p).
Proof.
  unfold JS.toString. cbn [Z.to_int NilZero.string_of_int].
  unfold NilZero.string_of_uint.
  pose proof (DecimalPos.Unsigned.to_uint_nonnil p).
  now destruct (Pos.to_uint p).
Qed.

Lemma parseInt_positive (p : positive) :
  JS.parseInt (NilEmpty.string_of_uint (Pos.to_uint p)) = JS.Num (Z.pos p).
Proof.
  pose proof (DecimalPos.Unsigned.to_uint_nonnil p) as Hnil.
  rewrite parseInt_digits.
  - rewrite (parseDigits_start _ Hnil), DecimalPos.Unsigned.of_to.
    reflexivity.
  - now apply string_of_uint_nonempty.
  - apply string_of_uint_digits.
Qed.

(** A number written by [toString] is read back by [parseInt]. *)
Lemma parseInt_toString (n : Z) : JS.parseInt (JS.toString n) = JS.Num n.
Proof.
  destruct n as [|p|p].
  - reflexivity.
  - rewrite toString_positive. apply parseInt_positive.
  - unfold JS.toString. cbn [Z.to_int NilZero.string_of_int].
    assert (NilZero.string_of_uint (Pos.to_uint p)
            = NilEmpty.string_of_uint (Pos.to_uint p)) as ->.
    { unfold NilZero.string_of_uint.
      pose proof (DecimalPos.Unsigned.to_uint_nonnil p).
      now destruct (Pos.to_uint p). }
    pose proof (parseInt_positive p) as Hpos.
    pose proof (DecimalPos.Unsigned.to_uint_nonnil p) as Hnil.
    pose proof (string_of_uint_digits (Pos.to_uint p)) as Hd.
    pose proof (string_of_uint_nonempty _ Hnil) as Hne.
    rewrite (parseInt_digits _ Hne Hd) in Hpos.
    unfold JS.parseInt. cbn [JS.trimStart].
    change (JS.isWhiteSpace "-") with false. cbv iota.
    destruct (NilEmpty.string_of_uint (Pos.to_uint p)) as [|c r] eqn:Hs;
      [contradiction|].
    assert ((match String c r with
             | String "0" (String x r0) =>
                 if (Ascii.eqb x "x" || Ascii.eqb x "X")%bool then (16, r0)
                 else (10, String c r)
             | _ => (10, String c r)
             end) = (10, String c r)) as ->.
    { destruct r as [|x r0].
      - destruct c as [[] [] [] [] [] [] [] []]; reflexivity.
      - cbn [allDigits] in Hd. apply andb_true_iff in Hd as [_ Hd].
        apply andb_true_iff in Hd as [Hx _].
        assert ((Ascii.eqb x "x" || Ascii.eqb x "X")%bool = false) as Hnot.
        { unfold isDigit in Hx. apply andb_true_iff in Hx as [H1 H2].
          apply Nat.leb_le in H1, H2.
          apply orb_false_iff. split; apply Ascii.eqb_neq; intros ->;
            cbn in H2; lia. }
        destruct c as [[] [] [] [] [] [] [] []]; try reflexivity.
        now rewrite Hnot. }
    destruct (JS.parseDigits 10 (String c r) None) as [m|];
      [|discriminate].
    injection Hpos as ->. reflexivity.
Qed.

(** *** Lengths, prefixes and suffixes *)

Lemma length_append (a b : string) :
  String.length (a ++ b) = (String.length a + String.length b)%nat.
Proof. induction a as [|c a IH]; cbn; [reflexivity|now rewrite IH]. Qed.

Lemma append_assoc (a b c : string) : (a ++ b) ++ c = a ++ (b ++ c).
Proof. induction a as [|x a IH]; cbn; [reflexivity|now rewrite IH]. Qed.

Lemma append_nonempty_r (a b : string) : b <> "" -> a ++ b <> "".
Proof. destruct a; cbn; [auto|discriminate]. Qed.

Lemma append_nonempty_l (a b : string) : a <> "" -> a ++ b <> "".
Proof. destruct a; cbn; [auto|discriminate]. Qed.

Lemma length_spaces n : String.length (Text.spaces n) = n.
Proof. induction n; cbn; auto. Qed.

Lemma length_padEnd n s :
  (String.length s <= n)%nat -> String.length (Text.padEnd n s) = n.
Proof.
  intros Hle. unfold Text.padEnd. rewrite length_append, length_spaces. lia.
Qed.

Lemma take_append (a b : string) : Text.take (String.length a) (a ++ b) = a.
Proof. induction a as [|c a IH]; cbn; [now destruct b|now rewrite IH]. Qed.

Lemma drop_append (a b : string) : Text.drop (String.length a) (a ++ b) = b.
Proof. induction a as [|c a IH]; cbn; [now destruct b|exact IH]. Qed.

Lemma take_padded n s rest :
  (String.length s <= n)%nat ->
  Text.take n (Text.padEnd n s ++ rest) = Text.padEnd n s.
Proof.
  intros Hle. generalize (length_padEnd n s Hle).
  generalize (Text.padEnd n s). intros p <-. apply take_append.
Qed.

Lemma drop_padded n s rest :
  (String.length s <= n)%nat -> Text.drop n (Text.padEnd n s ++ rest) = rest.
Proof.
  intros Hle. generalize (length_padEnd n s Hle).
  generalize (Text.padEnd n s). intros p <-. apply drop_append.
Qed.

Lemma drop_add n m s : Text.drop (n + m) s = Text.drop m (Text.drop n s).
Proof.
  revert s. induction n as [|n IH]; intros s; [reflexivity|].
  destruct s as [|c s]; cbn [Nat.add Text.drop]; [now destruct m|apply IH].
Qed.

(** *** Trimming *)

Lemma trimStart_length s :
  (String.length (JS.trimStart s) <= String.length s)%nat.
Proof.
  induction s as [|c r IH]; cbn; [lia|].
  destruct (JS.isWhiteSpace c); cbn; lia.
Qed.

Lemma trimEnd_length s :
  (String.length (Text.trimEnd s) <= String.length s)%nat.
Proof.
  induction s as [|c r IH]; cbn [Text.trimEnd]; [cbn; lia|].
  destruct (Text.trimEnd r) as [|x r'].
  - destruct (JS.isWhiteSpace c); cbn; lia.
  - cbn in *. lia.
Qed.

Lemma trimStart_fixed s :
  String.length (JS.trimStart s) = String.length s -> JS.trimStart s = s.
Proof.
  destruct s as [|c r]; cbn; [reflexivity|].
  destruct (JS.isWhiteSpace c); [|reflexivity].
  pose proof (trimStart_length r). lia.
Qed.

Lemma trim_fixed s :
  Text.trim s = s -> JS.trimStart s = s /\ Text.trimEnd s = s.
Proof.
  unfold Text.trim. intros Htrim.
  assert (JS.trimStart s = s) as Hstart.
  { apply trimStart_fixed.
    pose proof (trimStart_length s).
    pose proof (trimEnd_length (JS.trimStart s)) as Hend.
    rewrite Htrim in Hend. lia. }
  split; [exact Hstart|]. now rewrite Hstart in Htrim.
Qed.

Lemma trimStart_append s x :
  s <> "" -> JS.trimStart s = s -> JS.trimStart (s ++ x) = s ++ x.
Proof.
  destruct s as [|c r]; [contradiction|]. intros _. cbn.
  destruct (JS.isWhiteSpace c); [|reflexivity].
  intros Heq. pose proof (trimStart_length r) as Hlen.
  rewrite Heq in Hlen. cbn in Hlen. lia.
Qed.

Lemma trimEnd_spaces n : Text.trimEnd (Text.spaces n) = "".
Proof. induction n as [|n IH]; cbn; [reflexivity|now rewrite IH]. Qed.

Lemma trimEnd_append_blank a b :
  Text.trimEnd b = "" -> Text.trimEnd (a ++ b) = Text.trimEnd a.
Proof.
  intros Hb. induction a as [|c a IH]; cbn [append Text.trimEnd]; [exact Hb|].
  now rewrite IH.
Qed.

Lemma trimEnd_append_solid a b :
  Text.trimEnd b = b -> b <> "" -> Text.trimEnd (a ++ b) = a ++ b.
Proof.
  intros Hb Hne. induction a as [|c a IH]; cbn [append Text.trimEnd];
    [exact Hb|].
  rewrite IH. pose proof (append_nonempty_r a b Hne).
  now destruct (a ++ b).
Qed.

Lemma trim_padEnd n s : Text.trim s = s -> s <> "" -> Text.trim (Text.padEnd n s) = s.
Proof.
  intros Htrim Hne. destruct (trim_fixed _ Htrim) as [Hstart Hend].
  unfold Text.trim, Text.padEnd.
  rewrite (trimStart_append _ _ Hne Hstart).
  rewrite (trimEnd_append_blank _ _ (trimEnd_spaces _)). exact Hend.
Qed.

(** *** The digits of a written number *)

Lemma digit_solid c : isDigit c = true -> JS.isWhiteSpace c = false.
Proof.
  unfold isDigit, JS.isWhiteSpace. intros Hc.
  apply andb_true_iff in Hc as [H1 H2]. apply Nat.leb_le in H1, H2.
  repeat (apply orb_false_iff; split); apply Nat.eqb_neq; lia.
Qed.

Lemma trimEnd_digits d : allDigits d = true -> Text.trimEnd d = d.
Proof.
  induction d as [|c d IH]; cbn [allDigits Text.trimEnd]; [reflexivity|].
  intros Hd. apply andb_true_iff in Hd as [Hc Hd].
  rewrite (IH Hd), (digit_solid _ Hc). now destruct d.
Qed.

Lemma toString_shape n :
  exists d,
    allDigits d = true /\ d <> ""
    /\ (JS.toString n = d \/ JS.toString n = String "-" d).
Proof.
  destruct n as [|p|p].
  - exists "0". repeat split; [discriminate|now left].
  - exists (NilEmpty.string_of_uint (Pos.to_uint p)).
    split; [apply string_of_uint_digits|]. split.
    + apply string_of_uint_nonempty, DecimalPos.Unsigned.to_uint_nonnil.
    + left. apply toString_positive.
  - exists (NilEmpty.string_of_uint (Pos.to_uint p)).
    split; [apply string_of_uint_digits|]. split.
    + apply string_of_uint_nonempty, DecimalPos.Unsigned.to_uint_nonnil.
    + right. unfold JS.toString. cbn [Z.to_int NilZero.string_of_int].
      f_equal. unfold NilZero.string_of_uint.
      pose proof (DecimalPos.Unsigned.to_uint_nonnil p).
      now destruct (Pos.to_uint p).
Qed.

Lemma toString_nonempty n : JS.toString n <> "".
Proof.
  destruct (toString_shape n) as (d & _ & Hne & [->| ->]);
    [exact Hne|discriminate].
Qed.

Lemma trimEnd_toString n : Text.trimEnd (JS.toString n) = JS.toString n.
Proof.
  destruct (toString_shape n) as (d & Hd & Hne & [->| ->]).
  - now apply trimEnd_digits.
  - cbn [Text.trimEnd]. rewrite (trimEnd_digits _ Hd).
    destruct d; [contradiction|reflexivity].
Qed.

Lemma trimStart_toString n : JS.trimStart (JS.toString n) = JS.toString n.
Proof.
  destruct (toString_shape n) as (d & Hd & Hne & [->| ->]).
  - destruct d as [|c d]; [contradiction|]. cbn in *.
    apply andb_true_iff in Hd as [Hc _]. now rewrite (digit_solid _ Hc).
  - reflexivity.
Qed.

Lemma trim_toString n : Text.trim (JS.toString n) = JS.toString n.
Proof. unfold Text.trim. now rewrite trimStart_toString, trimEnd_toString. Qed.

(** *** One line *)

(** A field of the table: trimmed, not empty, within its width. *)
Definition fits (width : nat) (s : string) : Prop :=
  Text.trim s = s /\ s <> "" /\ (String.length s <= width)%nat.

(** The line is none of those the parser passes over, and has no tab. *)
Definition readAsFixedWidth (line : string) : bool :=
  negb (JS.startsWith line "-" || Text.includes line "Total SCH:")
  && negb (JS.startsWith line "NONE" || Text.includes line "No courses added")
  && negb (Text.includes line (String tab EmptyString)).

(** What is left of a course in the file. *)
Definition asWritten (c : Course) : Course :=
  {| course_code := course_code c;
     course_name := course_name c;
     credits := credits c;
     prerequisites := [];
     corequisites := [];
     sections := [] |}.

Lemma trim_courseLine c n :
  fits 15 (course_code c) -> credits c = JS.toString n ->
  Text.trim (courseLine c) = courseLine c.
Proof.
  intros (Hcode & Hne & _) Hcredits.
  destruct (trim_fixed _ Hcode) as [Hstart _].
  unfold Text.trim, courseLine, Text.padEnd.
  rewrite append_assoc, (trimStart_append _ _ Hne Hstart).
  rewrite <- append_assoc.
  apply trimEnd_append_solid.
  - apply trimEnd_append_solid.
    + rewrite Hcredits. apply trimEnd_toString.
    + rewrite Hcredits. apply toString_nonempty.
  - apply append_nonempty_r. rewrite Hcredits. apply toString_nonempty.
Qed.

Lemma parseCourseLine_courseLine c n :
  fits 15 (course_code c) -> fits 40 (course_name c) ->
  credits c = JS.toString n ->
  readAsFixedWidth (courseLine c) = true ->
  parseCourseLine (courseLine c) = Some (asWritten c).
Proof.
  intros Hcode Hname Hcredits Hread.
  pose proof (trim_courseLine c n Hcode Hcredits) as Htrim.
  destruct Hcode as (Hcode & Hcode_ne & Hcode_len).
  destruct Hname as (Hname & Hname_ne & Hname_len).
  unfold readAsFixedWidth in Hread.
  apply andb_true_iff in Hread as [Hread Htab].
  apply andb_true_iff in Hread as [Hskip Hnone].
  apply negb_true_iff in Hskip, Hnone, Htab.
  apply orb_false_iff in Hskip as [Hdash Htotal].
  unfold parseCourseLine. cbv zeta. rewrite Htrim.
  rewrite Hdash, Htotal, Hnone, Htab.
  assert (String.eqb (courseLine c) "" = false) as ->.
  { apply String.eqb_neq. unfold courseLine, Text.padEnd.
    rewrite append_assoc. now apply append_nonempty_l. }
  cbn [orb].
  assert (Text.substring 0 15 (courseLine c) = Text.padEnd 15 (course_code c))
    as ->.
  { unfold Text.substring, courseLine. cbn [Nat.sub Text.drop].
    now apply take_padded. }
  assert (Text.substring 15 55 (courseLine c)
          = Text.padEnd 40 (course_name c)) as ->.
  { unfold Text.substring, courseLine.
    change (55 - 15)%nat with 40%nat.
    rewrite drop_padded by assumption. now apply take_padded. }
  assert (Text.drop 55 (courseLine c) = credits c) as ->.
  { unfold courseLine. change 55%nat with (15 + 40)%nat.
    rewrite drop_add, !drop_padded by assumption. reflexivity. }
  rewrite !trim_padEnd by assumption.
  rewrite Hcredits, trim_toString, parseInt_toString.
  apply String.eqb_neq in Hcode_ne, Hname_ne.
  rewrite Hcode_ne, Hname_ne.
  pose proof (toString_nonempty n) as Hn. apply String.eqb_neq in Hn.
  rewrite Hn. cbn [orb]. unfold asWritten. now rewrite Hcredits.
Qed.


(** *** The lines of a text *)

Fixpoint mentions (ch : ascii) (s : string) : bool :=
  match s with
  | EmptyString => false
  | String c r => Ascii.eqb c ch || mentions ch r
  end.

Lemma includes_char s ch :
  Text.includes s (String ch EmptyString) = mentions ch s.
Proof.
  induction s as [|c r IH]; [reflexivity|].
  cbn [Text.includes mentions String.prefix]. rewrite IH.
  destruct (ascii_dec ch c) as [->|Hne].
  - rewrite Ascii.eqb_refl. now destruct r.
  - apply not_eq_sym in Hne. apply Ascii.eqb_neq in Hne. now rewrite Hne.
Qed.

Lemma mentions_append ch a b :
  mentions ch (a ++ b) = mentions ch a || mentions ch b.
Proof.
  induction a as [|c a IH]; cbn; [reflexivity|].
  now rewrite IH, orb_assoc.
Qed.

Lemma mentions_digits ch d :
  isDigit ch = false -> allDigits d = true -> mentions ch d = false.
Proof.
  intros Hch. induction d as [|c d IH]; cbn; [reflexivity|].
  intros Hd. apply andb_true_iff in Hd as [Hc Hd]. rewrite (IH Hd).
  destruct (Ascii.eqb_spec c ch) as [->|]; [congruence|reflexivity].
Qed.

Lemma mentions_toString ch n :
  isDigit ch = false -> ch <> "-"%char -> mentions ch (JS.toString n) = false.
Proof.
  intros Hch Hminus.
  destruct (toString_shape n) as (d & Hd & _ & [->| ->]).
  - now apply mentions_digits.
  - cbn [mentions]. rewrite (mentions_digits _ _ Hch Hd).
    apply not_eq_sym, Ascii.eqb_neq in Hminus. now rewrite Hminus.
Qed.

Lemma split_line a rest :
  mentions newline a = false ->
  Text.split newline (a ++ String newline rest)
  = a :: Text.split newline rest.
Proof.
  induction a as [|c a IH]; intros Ha.
  - cbn [append Text.split]. now rewrite Ascii.eqb_refl.
  - cbn [mentions] in Ha. apply orb_false_iff in Ha as [Hc Ha].
    cbn [append Text.split]. now rewrite Hc, (IH Ha).
Qed.

Lemma split_written lines rest :
  Forall (fun line => mentions newline line = false) lines ->
  Text.split newline (written lines ++ rest)
  = (lines ++ Text.split newline rest)%list.
Proof.
  induction 1 as [|line lines Hline _ IH]; [reflexivity|].
  cbn [written List.app]. rewrite append_assoc. cbn [append].
  now rewrite (split_line _ _ Hline), IH.
Qed.

(** *** Rules of equals signs *)

Lemma allEquals_append a b :
  allEquals (a ++ b) = allEquals a && allEquals b.
Proof.
  induction a as [|c a IH]; cbn; [reflexivity|].
  now rewrite IH, andb_assoc.
Qed.

Lemma allEquals_toString n : allEquals (JS.toString n) = false.
Proof.
  destruct (toString_shape n) as (d & Hd & Hne & [->| ->]);
    [|reflexivity].
  destruct d as [|c d]; [contradiction|]. cbn in *.
  apply andb_true_iff in Hd as [Hc _].
  destruct (Ascii.eqb_spec c "="); [subst; discriminate|reflexivity].
Qed.

Lemma isRuleOfEquals_courseLine c n :
  credits c = JS.toString n -> isRuleOfEquals (courseLine c) = false.
Proof.
  intros Hcredits.
  assert (allEquals (courseLine c) = false) as Hall.
  { unfold courseLine.
    rewrite !allEquals_append, Hcredits, allEquals_toString.
    now rewrite !andb_false_r. }
  unfold isRuleOfEquals. now destruct (courseLine c).
Qed.

(** *** The table of one semester *)

(** Credits written from a safe integer: the digits the source writes
    for it and reads back as the same number. *)
Definition writtenSafely (credits : string) : Prop :=
  exists n, JS.isSafeInteger n = true /\ credits = JS.toString n.

(** A course the exported table can carry. *)
Definition exportable (c : Course) : Prop :=
  fits 15 (course_code c) /\ fits 40 (course_name c)
  /\ writtenSafely (credits c)
  /\ readAsFixedWidth (courseLine c) = true
  /\ Text.includes (courseLine c) (String newline EmptyString) = false.

Definition kept (line : string) : bool := negb (isRuleOfEquals (Text.trim line)).

Definition parsed (line : string) : list Course :=
  match parseCourseLine line with
  | Some course => [course]
  | None => []
  end.

Lemma filter_kept lines :
  Forall (fun line => kept line = true) lines -> filter kept lines = lines.
Proof.
  induction 1 as [|line lines Hline _ IH]; [reflexivity|].
  cbn [filter]. now rewrite Hline, IH.
Qed.

Lemma flat_map_nothing lines :
  Forall (fun line => parseCourseLine line = None) lines ->
  flat_map parsed (filter kept lines) = [].
Proof.
  induction 1 as [|line lines Hline _ IH]; [reflexivity|].
  cbn [filter]. destruct (kept line); [|exact IH].
  cbn [flat_map]. unfold parsed at 1. now rewrite Hline.
Qed.

Lemma numberText_solid total :
  Text.trimEnd (numberText total) = numberText total
  /\ numberText total <> ""
  /\ mentions newline (numberText total) = false.
Proof.
  destruct total as [|z]; cbn [numberText].
  - repeat split. discriminate.
  - split; [apply trimEnd_toString|]. split; [apply toString_nonempty|].
    apply mentions_toString; [reflexivity|discriminate].
Qed.

Lemma trim_totalLine total :
  Text.trim ("Total SCH: " ++ numberText total)
  = "Total SCH: " ++ numberText total.
Proof.
  destruct (numberText_solid total) as (Hend & Hne & _).
  unfold Text.trim.
  change (JS.trimStart ("Total SCH: " ++ numberText total))
    with ("Total SCH: " ++ numberText total).
  now apply trimEnd_append_solid.
Qed.

Lemma parseCourseLine_totalLine total :
  parseCourseLine ("Total SCH: " ++ numberText total) = None.
Proof.
  unfold parseCourseLine. cbv zeta. rewrite trim_totalLine.
  assert (Text.includes ("Total SCH: " ++ numberText total) "Total SCH:"
          = true) as ->; [reflexivity|].
  now rewrite !orb_true_r.
Qed.

Lemma kept_totalLine total :
  kept ("Total SCH: " ++ numberText total) = true.
Proof. unfold kept. rewrite trim_totalLine. reflexivity. Qed.

Lemma body_lines cs :
  Forall exportable cs ->
  let body := match cs with
              | [] => [placeholderLine]
              | _ :: _ => map courseLine cs
              end in
  Forall (fun line => mentions newline line = false) body
  /\ Forall (fun line => kept line = true) body
  /\ flat_map parsed body = map asWritten cs.
Proof.
  intros Hcs.
  assert (Forall (fun line => mentions newline line = false)
                 (map courseLine cs)
          /\ Forall (fun line => kept line = true) (map courseLine cs)
          /\ flat_map parsed (map courseLine cs) = map asWritten cs)
    as Hlines.
  { induction Hcs as [|c cs Hc _ IH]; [repeat split; constructor|].
    destruct IH as (IH1 & IH2 & IH3).
    destruct Hc as (Hcode & Hname & (n & _ & Hn) & Hread & Hline).
    cbn [map flat_map]. repeat split.
    - constructor; [|exact IH1]. now rewrite <- includes_char.
    - constructor; [|exact IH2]. unfold kept.
      rewrite (trim_courseLine c n Hcode Hn).
      now rewrite (isRuleOfEquals_courseLine c n Hn).
    - unfold parsed at 1.
      rewrite (parseCourseLine_courseLine c n Hcode Hname Hn Hread).
      cbn [List.app]. now rewrite IH3. }
  destruct cs as [|c cs]; [|exact Hlines].
  cbn. repeat split; repeat constructor.
Qed.

Lemma extract_semesterTable cs total rest :
  Forall exportable cs ->
  Forall (fun line => parseCourseLine line = None)
         (Text.split newline rest) ->
  extractCoursesFromSemesterContent
    (String newline (semesterTable cs total ++ rest))
  = map asWritten cs.
Proof.
  intros Hcs Hrest.
  destruct (body_lines cs Hcs) as (Hplain & Hkept & Hparsed).
  destruct (numberText_solid total) as (_ & _ & Htotal).
  unfold extractCoursesFromSemesterContent, semesterTable. cbv zeta.
  fold parsed. fold kept.
  set (body := match cs with
               | [] => [placeholderLine]
               | _ :: _ => map courseLine cs
               end) in *.
  set (totalLine := "Total SCH: " ++ numberText total).
  cbn [Text.split]. rewrite Ascii.eqb_refl.
  rewrite split_written.
  2:{ cbn [List.app].
      apply Forall_cons; [reflexivity|]. apply Forall_cons; [reflexivity|].
      apply Forall_app; split; [exact Hplain|].
      apply Forall_cons; [reflexivity|]. apply Forall_cons; [|constructor].
      unfold totalLine. now rewrite mentions_append, Htotal. }
  cbn [filter List.app].
  change (kept "") with true. change (kept tableHeader) with true.
  change (kept rule) with true. cbv iota.
  cbn [JS.findIndex].
  change (isHeaderLine "") with false.
  change (isHeaderLine tableHeader) with true. cbv iota.
  cbn [Nat.add skipn].
  rewrite !filter_app, (filter_kept _ Hkept). cbn [filter].
  change (kept rule) with true. unfold totalLine at 1.
  rewrite kept_totalLine. cbv iota.
  rewrite !flat_map_app, Hparsed. cbn [flat_map].
  change (parsed rule) with (@nil Course).
  unfold parsed at 1. unfold totalLine.
  rewrite parseCourseLine_totalLine.
  rewrite (flat_map_nothing _ Hrest). cbn [List.app].
  now rewrite !app_nil_r.
Qed.


(** *** What the parser makes of a line *)

(** A course as the parser builds it: a code, a name, credits written
    from a number, and nothing else. *)
Definition plain (c : Course) : Prop :=
  course_code c <> "" /\ course_name c <> ""
  /\ (exists n, credits c = JS.toString n)
  /\ prerequisites c = [] /\ corequisites c = [] /\ sections c = [].

Lemma parseCourseLine_plain line c : parseCourseLine line = Some c -> plain c.
Proof.
  unfold parseCourseLine.
  destruct (_ || _ || _)%bool; [discriminate|].
  destruct (_ || _)%bool; [discriminate|].
  destruct (if Text.includes _ _ then _ else _) as [[code name] cr].
  destruct code as [code|]; [|discriminate].
  destruct name as [name|]; [|discriminate].
  destruct cr as [cr|]; [|discriminate].
  destruct (String.eqb_spec code ""); [discriminate|].
  destruct (String.eqb_spec name ""); [discriminate|].
  destruct (String.eqb cr ""); [discriminate|]. cbn [orb].
  destruct (JS.parseInt cr) as [|parsed]; [discriminate|].
  intros [= <-]. unfold plain. cbn. repeat split; eauto.
Qed.

Lemma extracted_from_a_line content c :
  In c (extractCoursesFromSemesterContent content) ->
  exists line, parseCourseLine line = Some c.
Proof.
  unfold extractCoursesFromSemesterContent.
  destruct (JS.findIndex _ _) as [h|]; [|intros []].
  intros Hin. apply in_flat_map in Hin as (line & _ & Hc).
  exists line. destruct (parseCourseLine line) as [d|]; [|destruct Hc].
  destruct Hc as [->|[]]. reflexivity.
Qed.

Lemma plain_integer c : plain c -> hasIntegerCredits c.
Proof.
  intros (_ & _ & (n & Hn) & _). exists n. rewrite Hn.
  apply parseInt_toString.
Qed.

(** *** The store calls of an import as a run of placements *)

Definition placements (semesters : list (string * list Course))
  : list Operation :=
  flat_map (fun sem => map (Add (fst sem)) (snd sem)) semesters.

Lemma importPlan_run info semesters st :
  importPlan info semesters st
  = run (placements semesters) (resetPlan (setUserInfo info st)).
Proof.
  unfold importPlan, run, placements.
  generalize (resetPlan (setUserInfo info st)). 
  induction semesters as [|[sem cs] rest IH]; intros s; [reflexivity|].
  cbn [fold_left flat_map fst snd]. rewrite fold_left_app, IH. f_equal.
  clear. revert s. induction cs as [|c cs IH]; intros s; [reflexivity|].
  cbn [fold_left map]. apply IH.
Qed.

Lemma parsed_courses_plain sections sem cs c :
  In (sem, cs) (parsedSemesters sections) -> In c cs -> plain c.
Proof.
  intros Hin Hc. apply in_map_iff in Hin as ([name content] & [= <- <-] & _).
  destruct (extracted_from_a_line _ _ Hc) as (line & Hline).
  exact (parseCourseLine_plain _ _ Hline).
Qed.

Lemma placements_integer semesters :
  (forall sem cs c, In (sem, cs) semesters -> In c cs -> plain c) ->
  Forall addsIntegerCredits (placements semesters).
Proof.
  intros Hplain. apply Forall_forall. intros op Hop.
  apply in_flat_map in Hop as ([sem cs] & Hin & Hop).
  apply in_map_iff in Hop as (c & <- & Hc). cbn.
  apply plain_integer. eauto.
Qed.

Lemma import_ledgerOk info sections st :
  ledgerOk (semesterPlans (importPlan info (parsedSemesters sections) st)).
Proof.
  rewrite importPlan_run. apply run_ledgerOk.
  - apply emptyLedger_ok, resetPlan_emptyLedger.
  - apply placements_integer, parsed_courses_plain.
Qed.

(** *** Prerequisites after an import *)

Definition withoutPrerequisites (ledger : list SemesterPlan) : Prop :=
  forall plan c, In plan ledger -> In c (courses plan) -> prerequisites c = [].

Lemma withoutPrerequisites_add st sem course :
  prerequisites course = [] ->
  withoutPrerequisites (semesterPlans st) ->
  withoutPrerequisites (semesterPlans (addCourse sem course st)).
Proof.
  intros Hc Hst.
  destruct (StoreExtras.perform_step_course st sem course) as [Hsame|Hadd].
  - cbn [perform] in Hsame. now rewrite Hsame.
  - destruct Hadd as (index & target & _ & _ & _ & _ & _ & _ & Heq).
    cbn [perform] in Heq. rewrite Heq, withCourseAdded_map.
    intros plan c Hplan Hin.
    apply in_map_iff in Hplan as (old & <- & Hold).
    destruct (named sem old); [|eauto].
    cbn [placeIn courses] in Hin. apply in_app_or in Hin as [Hin|[<-|[]]];
      eauto.
Qed.

Lemma withoutPrerequisites_run ops :
  forall st,
    (forall sem c, In (Add sem c) ops -> prerequisites c = []) ->
    (forall op, In op ops -> exists sem c, op = Add sem c) ->
    withoutPrerequisites (semesterPlans st) ->
    withoutPrerequisites (semesterPlans (run ops st)).
Proof.
  induction ops as [|op ops IH]; intros st Hplain Hadds Hst; [exact Hst|].
  cbn [run fold_left]. apply IH.
  - intros sem c Hin. apply (Hplain sem c). now right.
  - intros o Hin. apply Hadds. now right.
  - destruct (Hadds op (or_introl eq_refl)) as (sem & c & ->).
    cbn [perform]. apply withoutPrerequisites_add; [|exact Hst].
    apply (Hplain sem c). now left.
Qed.

Lemma import_withoutPrerequisites info sections st :
  withoutPrerequisites
    (semesterPlans (importPlan info (parsedSemesters sections) st)).
Proof.
  rewrite importPlan_run. apply withoutPrerequisites_run.
  - intros sem c Hin. apply in_flat_map in Hin as ([name cs] & Hsem & Hop).
    apply in_map_iff in Hop as (d & [= <- <-] & Hd).
    destruct (parsed_courses_plain _ _ _ _ Hsem Hd) as (_ & _ & _ & H & _).
    exact H.
  - intros op Hin. apply in_flat_map in Hin as ([name cs] & _ & Hop).
    apply in_map_iff in Hop as (d & <- & _). eauto.
  - destruct (resetPlan_emptyLedger (setUserInfo info st)) as [_ Hempty].
    rewrite Forall_forall in Hempty. intros plan c Hplan Hc.
    destruct (Hempty plan Hplan) as [Hnil _]. rewrite Hnil in Hc.
    destruct Hc.
Qed.

Lemma find_present {A : Type} (p : A -> bool) (xs : list A) (x : A) :
  In x xs -> p x = true -> exists y, find p xs = Some y.
Proof.
  intros Hin Hp. destruct (find p xs) as [y|] eqn:Hfind; [eauto|].
  pose proof (find_none _ _ Hfind x Hin). congruence.
Qed.

Lemma find_absent {A : Type} (p : A -> bool) (xs : list A) :
  (forall x, In x xs -> p x = false) -> find p xs = None.
Proof.
  intros Hall. destruct (find p xs) as [y|] eqn:Hfind; [|reflexivity].
  apply find_some in Hfind as [Hin Hp]. rewrite (Hall y Hin) in Hp.
  discriminate.
Qed.

Lemma updateAt_elements {A : Type} (f : A -> A) (xs : list A) :
  forall i y,
    In y (updateAt i f xs) ->
    (exists j, j <> i /\ nth_error xs j = Some y)
    \/ (exists x, nth_error xs i = Some x /\ y = f x).
Proof.
  induction xs as [|x xs IH]; intros i y Hin; [destruct i; destruct Hin|].
  destruct i as [|i]; cbn [updateAt] in Hin; destruct Hin as [<-|Hin].
  - right. exists x. split; reflexivity.
  - left. apply In_nth_error in Hin as [j Hj]. exists (S j).
    split; [discriminate|exact Hj].
  - left. exists 0%nat. split; [discriminate|reflexivity].
  - destruct (IH i y Hin) as [(j & Hne & Hj)|(z & Hz & ->)].
    + left. exists (S j). split; [congruence|exact Hj].
    + right. exists z. split; [exact Hz|reflexivity].
Qed.

(** *** X18 *)

(** X18. Whatever text [extractCoursesFromSemesterContent] is given,
    each course it returns has a code, a name and credits that are not
    empty, and no prerequisite, corequisite or section: what the file
    says of a course is its code, its name and its credits, nothing
    else. *)
Theorem extracted_courses_are_plain (content : string) (c : Course) :
  In c (extractCoursesFromSemesterContent content) ->
  course_code c <> "" /\ course_name c <> "" /\ credits c <> ""
  /\ prerequisites c = [] /\ corequisites c = [] /\ sections c = [].
Proof.
  intros Hin. destruct (extracted_from_a_line _ _ Hin) as (line & Hline).
  destruct (parseCourseLine_plain _ _ Hline)
    as (Hcode & Hname & (n & Hn) & Hpre & Hco & Hsec).
  repeat split; try assumption.
  rewrite Hn. apply toString_nonempty.
Qed.

Lemma extracted_courses_are_plain_witness :
  course_code (asWritten namedPhysics1) <> ""
  /\ course_name (asWritten namedPhysics1) <> ""
  /\ credits (asWritten namedPhysics1) <> ""
  /\ prerequisites (asWritten namedPhysics1) = []
  /\ corequisites (asWritten namedPhysics1) = []
  /\ sections (asWritten namedPhysics1) = [].
Proof.
  apply (extracted_courses_are_plain exportedSemester
                                     (asWritten namedPhysics1)).
  vm_compute. right. left. reflexivity.
Defined.


(** Credits the file can carry without loss: written from an integer
    that is not negative and is safe. *)
Definition safeCredits (c : Course) : Prop :=
  exists n, credits c = JS.toString n /\ 0 <= n <= JS.MAX_SAFE_INTEGER.

Lemma safeCredits_integer c : safeCredits c -> hasIntegerCredits c.
Proof.
  intros (n & Hn & _). exists n. rewrite Hn. apply parseInt_toString.
Qed.

(** X19. An import leaves a sound plan when the credits extracted from
    the file are safe integers that are not negative (and the years of
    the user data are numbers): after [setUserInfo], [resetPlan] and the
    [addCourse] calls for the courses extracted under each heading, no
    course code, as it is spelled, is in two semesters and each
    semester's stored total is the sum of the credit values of its
    courses. *)
Theorem import_leaves_a_sound_plan (info : UserInfo)
        (sections : list (string * string)) (st : DegreePlanState) :
  (forall name content c,
      In (name, content) sections ->
      In c (extractCoursesFromSemesterContent content) -> safeCredits c) ->
  let imported := importPlan info (parsedSemesters sections) st in
  uniqueAcrossSemesters (semesterPlans imported)
  /\ Rules.totalsAreSums (semesterPlans imported).
Proof.
  intros Hsafe imported.
  assert (ledgerOk (semesterPlans imported)) as Hok.
  { unfold imported. rewrite importPlan_run. apply run_ledgerOk.
    - apply emptyLedger_ok, resetPlan_emptyLedger.
    - apply Forall_forall. intros op Hop.
      apply in_flat_map in Hop as ([sem cs] & Hin & Hop).
      apply in_map_iff in Hop as (c & <- & Hc). cbn.
      apply in_map_iff in Hin as ([name content] & [= <- <-] & Hsection).
      apply safeCredits_integer. eauto. }
  split; [apply ledgerOk_invariants, Hok|].
  destruct Hok as (_ & Hplans & _). rewrite Forall_forall in Hplans.
  intros plan Hplan. destruct (Hplans plan Hplan) as (_ & Hsum & Hint).
  rewrite Hsum, sumOfCredits_total. now apply creditSum_total.
Qed.

Lemma import_leaves_a_sound_plan_witness :
  uniqueAcrossSemesters (semesterPlans importedState)
  /\ Rules.totalsAreSums (semesterPlans importedState).
Proof.
  apply (import_leaves_a_sound_plan springStudent importedSections
                                    initialState).
  intros name content c [[= <- <-]|[]] Hc.
  vm_compute in Hc. destruct Hc as [<-|[<-|[]]].
  - exists 3. split; [reflexivity|vm_compute; split; discriminate].
  - exists 4. split; [reflexivity|vm_compute; split; discriminate].
Defined.

(** X20. The file carries no prerequisites, so after an import (for
    user data whose years are numbers) [removeCourse] refuses nothing:
    removing a course from the semester it was imported into clears the
    error and leaves that code in no semester, whatever courses come
    later in the plan. *)
Theorem imported_course_can_be_removed (info : UserInfo)
        (sections : list (string * string)) (st : DegreePlanState)
        (plan : SemesterPlan) (course : Course) :
  let imported := importPlan info (parsedSemesters sections) st in
  In plan (semesterPlans imported) -> In course (courses plan) ->
  let after := removeCourse (semester plan) (course_code course) imported in
  error after = None
  /\ forall q,
      In q (semesterPlans after) ->
      ~ In (course_code course) (map course_code (courses q)).
Proof.
  intros imported Hplan Hcourse.
  pose proof (import_ledgerOk info sections st) as (Hnames & _ & Hcodes).
  pose proof (import_withoutPrerequisites info sections st) as Hno.
  fold imported in Hnames, Hcodes, Hno.
  destruct (find_present (named (semester plan)) _ plan Hplan
                         (String.eqb_refl _)) as (found & Hfound).
  assert (found = plan) as ->.
  { apply (same_name_same_plan _ _ _ Hnames); auto.
    - now apply find_some in Hfound.
    - now apply find_named in Hfound. }
  destruct (find_findIndex _ _ _ Hfound) as (index & Hindex & Hnth).
  destruct (find_present
              (fun c => String.eqb (course_code c) (course_code course))
              _ course Hcourse (String.eqb_refl _)) as (first & Hfirst).
  intros after. unfold after.
  rewrite (removeCourse_found _ _ _ _ _ _ Hindex Hnth Hfirst).
  assert (firstRequiring (course_code course) index (semesterPlans imported)
          = None) as ->.
  { apply find_absent. intros d Hd.
    apply in_flat_map in Hd as (later & Hlater & Hd).
    unfold isRequired.
    rewrite (Hno later d); [reflexivity| |exact Hd].
    rewrite <- (firstn_skipn (S index) (semesterPlans imported)).
    apply in_or_app. now right. }
  split; [reflexivity|].
  cbn [setPlans semesterPlans]. intros q Hq Hin.
  apply in_map_iff in Hin as (d & Hd & Hin).
  apply updateAt_elements in Hq as [(j & Hne & Hj)|(x & Hx & ->)].
  - apply Hne.
    apply (proj1 (NoDup_nth_error _) Hnames).
    + rewrite length_map. apply nth_error_Some. congruence.
    + rewrite !nth_error_map, Hj, Hnth. cbn. f_equal.
      exact (Hcodes q plan d course (nth_error_In _ _ Hj) Hplan Hin Hcourse Hd).
  - cbn [takeOut courses] in Hin. apply filter_In in Hin as [_ Hother].
    rewrite Hd, String.eqb_refl in Hother. discriminate.
Qed.

Lemma imported_course_can_be_removed_witness :
  let plan := nth 2 (semesterPlans importedState) (emptyPlan "" regular) in
  error (removeCourse (semester plan)
                      (course_code (asWritten namedCalculus2))
                      importedState)
  = None.
Proof.
  intros plan.
  assert (In plan (semesterPlans importedState)) as Hplan
      by (vm_compute; do 2 right; left; reflexivity).
  assert (In (asWritten namedCalculus2) (courses plan)) as Hcourse
      by (vm_compute; left; reflexivity).
  exact (proj1 (imported_course_can_be_removed
                  springStudent importedSections initialState
                  plan (asWritten namedCalculus2) Hplan Hcourse)).
Defined.


Lemma length_take n s : (String.length (Text.take n s) <= n)%nat.
Proof.
  revert s. induction n as [|n IH]; intros [|c s]; cbn; try lia.
  specialize (IH s). lia.
Qed.

Lemma length_trim s : (String.length (Text.trim s) <= String.length s)%nat.
Proof.
  unfold Text.trim. pose proof (trimStart_length s).
  pose proof (trimEnd_length (JS.trimStart s)). lia.
Qed.

(** X21. A course line of the export is read back as the course it was
    written from, without its prerequisites, corequisites and sections:
    when the code and the name are trimmed, not empty and no longer than
    their columns of 15 and 40 characters, the credits are written from
    a safe integer, and the line has no tab and is not one the parser
    passes over. *)
Theorem exported_line_is_read_back (c : Course) (n : Z) :
  fits 15 (course_code c) -> fits 40 (course_name c) ->
  JS.isSafeInteger n = true -> credits c = JS.toString n ->
  readAsFixedWidth (courseLine c) = true ->
  parseCourseLine (courseLine c) = Some (asWritten c).
Proof.
  intros Hcode Hname _ Hcredits Hread.
  now apply (parseCourseLine_courseLine c n).
Qed.

Lemma exported_line_is_read_back_witness :
  parseCourseLine (courseLine namedCalculus2) = Some (asWritten namedCalculus2).
Proof.
  apply (exported_line_is_read_back namedCalculus2 3).
  - repeat split; [discriminate|cbn; lia].
  - repeat split; [discriminate|cbn; lia].
  - reflexivity.
  - reflexivity.
  - reflexivity.
Defined.

(** X22. The table [generateDocContent] writes for a semester is read
    back by [extractCoursesFromSemesterContent] as the semester's
    courses, in order, each without prerequisites, corequisites and
    sections: for courses the table can carry (fields within their
    columns, credits written from a safe integer), and whatever follows
    the table as long as none of its lines reads as a course. An empty
    semester, written as the placeholder line, is read back empty. *)
Theorem exported_semester_is_read_back (cs : list Course)
        (total : JS.number) (rest : string) :
  Forall exportable cs ->
  Forall (fun line => parseCourseLine line = None)
         (Text.split newline rest) ->
  extractCoursesFromSemesterContent
    (String newline (semesterTable cs total ++ rest))
  = map asWritten cs.
Proof. apply extract_semesterTable. Qed.

Lemma exported_semester_is_read_back_witness :
  extractCoursesFromSemesterContent exportedSemester
  = [asWritten namedCalculus2; asWritten namedPhysics1].
Proof.
  apply (exported_semester_is_read_back
           [namedCalculus2; namedPhysics1] (JS.Num 7) yearTotal).
  - repeat constructor; try discriminate; try (cbn; lia).
    + exists 3. split; reflexivity.
    + exists 4. split; reflexivity.
  - assert (Text.split newline yearTotal
            = [""; "Total SCH for 2025/2026: 7"; ""; ""]) as ->
        by (vm_compute; reflexivity).
    repeat (apply Forall_cons; [vm_compute; reflexivity|]).
    apply Forall_nil.
Defined.

(** X23. A line without a tab gives a course whose code has at most 15
    characters and whose name has at most 40: what an export wrote past
    those columns is not read back where it was written. *)
Theorem fixed_width_fields_are_bounded (line : string) (d : Course) :
  Text.includes (Text.trim line) (String tab EmptyString) = false ->
  parseCourseLine line = Some d ->
  (String.length (course_code d) <= 15)%nat
  /\ (String.length (course_name d) <= 40)%nat.
Proof.
  intros Htab. unfold parseCourseLine. cbv zeta. rewrite Htab.
  destruct (_ || _ || _)%bool; [discriminate|].
  destruct (_ || _)%bool; [discriminate|].
  destruct (_ || _ || _)%bool; [discriminate|].
  destruct (JS.parseInt _) as [|parsedCredits]; [discriminate|].
  intros [= <-]. cbn [course_code course_name]. split.
  - etransitivity; [apply length_trim|apply length_take].
  - etransitivity; [apply length_trim|apply length_take].
Qed.

Lemma fixed_width_fields_are_bounded_witness :
  parseCourseLine (courseLine longNamed) = Some longNamedAsRead
  /\ (String.length (course_code longNamedAsRead) <= 15)%nat
  /\ (String.length (course_name longNamedAsRead) <= 40)%nat.
Proof.
  split; [reflexivity|].
  apply (fixed_width_fields_are_bounded (courseLine longNamed)
                                        longNamedAsRead);
    reflexivity.
Defined.

End ImportProofs.
